(** * flyfone-bot: the chat workflow of [src/bot.js] over the store of [state.js]

    A shallow embedding of the Telegram bot that logs into the Flyfone
    portal, downloads the daily call export and either shows statistics in
    the chat or writes rows to a linked Google Sheet.

    - [JsString]: the string primitives the handlers use ([toLowerCase],
      [trim], [includes], [split], the [js-levenshtein] distance).
    - [Match]: the fuzzy agent lookup of the /agent command.
    - [Sheet]: cells and rows of the parsed export.
    - The store, the outside world ([Env]: clock, date libraries, portal,
      XLSX reader, Sheets API) and a state-and-exception monad over them.
    - [State]: the get, save and delete functions of [state.js].
    - [Bot]: the helpers and handlers of [bot.js], in source order.
    - [Demo]: a small portal and export to run the handlers against.

    Modelling choices.  Strings are byte strings; case mapping, white space
    and splitting are those of ASCII, so the model speaks for texts within
    ASCII: JavaScript lowercases letters and trims spaces beyond it.  Cell
    numbers are integers.  The chat transport and the Supabase store answer
    every call; the portal, the XLSX reader and the Sheets API may fail.  An
    update reaches the handler that grammY routes it to; [ctx.match] holds
    the captured groups.  dayjs is the library as the file imports it, with
    no plugin loaded.  The accumulator of the status tally answers for the
    members an object inherits; the /summary tally takes agent names not to
    name one. *)

From Stdlib Require Import ZArith List Lia Bool Ascii String DecimalString.
From Stdlib Require Import Sorting.Sorted.
From stdpp Require Import base option list gmap strings.

Local Open Scope string_scope.
Local Open Scope Z_scope.

(* ===================================================================== *)
(** ** JavaScript string primitives *)
(* ===================================================================== *)

Module JsString.

(** Code units are modelled as [ascii]; the handlers only ever compare,
    lowercase and split on ASCII characters. *)

Definition is_upper (c : ascii) : bool :=
  let n := nat_of_ascii c in (65 <=? n)%nat && (n <=? 90)%nat.

Definition lower_char (c : ascii) : ascii :=
  if is_upper c then ascii_of_nat (nat_of_ascii c + 32) else c.

(** [String.prototype.toLowerCase] *)
Fixpoint toLowerCase (s : string) : string :=
  match s with
  | EmptyString => EmptyString
  | String c r => String (lower_char c) (toLowerCase r)
  end.

(** White space as matched by [\s] and stripped by [trim]:
    TAB, LF, VT, FF, CR and SPACE. *)
Definition is_space (c : ascii) : bool :=
  let n := nat_of_ascii c in
  ((9 <=? n)%nat && (n <=? 13)%nat) || (n =? 32)%nat.

Fixpoint trimStart (s : string) : string :=
  match s with
  | EmptyString => EmptyString
  | String c r => if is_space c then trimStart r else s
  end.

(** Drops trailing white space: a character is kept when it is not white
    space or when something is kept after it. *)
Fixpoint trimEnd (s : string) : string :=
  match s with
  | EmptyString => EmptyString
  | String c r =>
      match trimEnd r with
      | EmptyString => if is_space c then EmptyString else String c EmptyString
      | r' => String c r'
      end
  end.

(** [String.prototype.trim] *)
Definition trim (s : string) : string := trimEnd (trimStart s).

(** [s.startsWith(p)] *)
Fixpoint startsWith (p s : string) : bool :=
  match p, s with
  | EmptyString, _ => true
  | String a p', String b s' => if Ascii.eqb a b then startsWith p' s' else false
  | String _ _, EmptyString => false
  end.

(** [s.includes(sub)] *)
Fixpoint includes (s sub : string) : bool :=
  startsWith sub s ||
  match s with
  | EmptyString => false
  | String _ r => includes r sub
  end.

(** [s.split(' ')]: cut at every single space, empty pieces kept. *)
Fixpoint split_on (sep : ascii) (s : string) : list string :=
  match s with
  | EmptyString => [EmptyString]
  | String c r =>
      if Ascii.eqb c sep then EmptyString :: split_on sep r
      else match split_on sep r with
           | [] => [String c EmptyString]
           | w :: ws => String c w :: ws
           end
  end.

Definition split_space : string -> list string := split_on " "%char.

(** [s.split(/\s+/)]: cut at every maximal run of white space.  The flag
    tells whether the previous character was white space, so that a run
    produces one cut only. *)
Fixpoint split_ws_from (in_run : bool) (s : string) : list string :=
  match s with
  | EmptyString => [EmptyString]
  | String c r =>
      if is_space c then
        if in_run then split_ws_from true r
        else EmptyString :: split_ws_from true r
      else match split_ws_from false r with
           | [] => [String c EmptyString]
           | w :: ws => String c w :: ws
           end
  end.

Definition split_ws : string -> list string := split_ws_from false.

(** [parts.join(' ')] *)
Fixpoint join_space (l : list string) : string :=
  match l with
  | [] => EmptyString
  | [w] => w
  | w :: ws => w +:+ " " +:+ join_space ws
  end.

(** [arr.slice(1)] *)
Definition slice1 {A} (l : list A) : list A := tl l.

Definition min3 (a b c : nat) : nat := Nat.min a (Nat.min b c).

(** The edit distance computed by the [js-levenshtein] package:
    insertions, deletions and substitutions all cost one. *)
Fixpoint levenshtein (s : string) : string -> nat :=
  match s with
  | EmptyString => String.length
  | String a s' =>
      fix inner (t : string) : nat :=
        match t with
        | EmptyString => S (String.length s')
        | String b t' =>
            min3 (S (levenshtein s' t))
                 (S (inner t'))
                 (levenshtein s' t' + (if Ascii.eqb a b then 0 else 1))%nat
        end
  end.

End JsString.

Import JsString.

(* ===================================================================== *)
(** ** Fuzzy agent lookup, [bot.command('agent')] lines 659-670 *)
(* ===================================================================== *)

Module Match.

(** The running pair [(best, bestScore)]; [None] as score is [Infinity]. *)
Definition best_state : Type := option string * option nat.

(** One iteration of [for (const a of agents)]. *)
Definition best_step (input : string) (acc : best_state) (a : string)
  : best_state :=
  let score := levenshtein (toLowerCase a) input in
  match snd acc with
  | None => (Some a, Some score)
  | Some bestScore =>
      if (score <? bestScore)%nat then (Some a, Some score) else acc
  end.

Definition best_loop (agents : list string) (input : string) : best_state :=
  fold_left (best_step input) agents (None, None).

(** [agents.find(a => a.toLowerCase().includes(input))] *)
Definition substringMatch (agents : list string) (input : string)
  : option string :=
  List.find (fun a => includes (toLowerCase a) input) agents.

(** Truthiness of [substringMatch]: [undefined] and [''] are falsy. *)
Definition truthy_match (m : option string) : bool :=
  match m with
  | Some (String _ _) => true
  | _ => false
  end.

(** [bestScore > 2], with [Infinity > 2]. *)
Definition score_gt2 (sc : option nat) : bool :=
  match sc with
  | None => true
  | Some n => (2 <? n)%nat
  end.

(** [(substringMatch && bestScore > 2) ? substringMatch : best];
    [None] is [null]. *)
Definition bestAgentMatch (agents : list string) (input : string)
  : option string :=
  let '(best, bestScore) := best_loop agents input in
  let sub := substringMatch agents input in
  if truthy_match sub && score_gt2 bestScore then sub else best.

End Match.

(* ===================================================================== *)
(** ** Cells and rows of the parsed export *)
(* ===================================================================== *)

Module Sheet.

(** A cell of [XLSX.utils.sheet_to_json(ws, { header: 1 })].  Numbers are
    integers here (durations, phone numbers); [CUndef] is a hole or an
    index past the end of the row, [CNull] what a hole becomes once the
    rows went through [JSON.stringify]. *)
Inductive cell : Type :=
| CUndef
| CNull
| CStr (s : string)
| CNum (n : Z).

#[global] Instance cell_eq_dec : EqDecision cell.
Proof. solve_decision. Defined.

Definition row : Type := list cell.

(** [r[i]] *)
Definition col (r : row) (i : nat) : cell := nth i r CUndef.

(** JavaScript truthiness of a cell. *)
Definition truthy (c : cell) : bool :=
  match c with
  | CUndef | CNull => false
  | CStr EmptyString => false
  | CStr _ => true
  | CNum n => negb (n =? 0)
  end.

Definition num_to_string (n : Z) : string :=
  NilZero.string_of_int (Z.to_int n).

(** [c?.toString()]: [None] is [undefined]. *)
Definition toString_opt (c : cell) : option string :=
  match c with
  | CUndef | CNull => None
  | CStr s => Some s
  | CNum n => Some (num_to_string n)
  end.

(** [`${c}`] *)
Definition display (c : cell) : string :=
  match c with
  | CUndef => "undefined"
  | CNull => "null"
  | CStr s => s
  | CNum n => num_to_string n
  end.

(** [c === s] for a string [s] *)
Definition eq_str (c : cell) (s : string) : bool :=
  match c with
  | CStr s' => bool_decide (s' = s)
  | _ => false
  end.

(** [c || ''] *)
Definition or_empty (c : cell) : cell := if truthy c then c else CStr "".

(** [Array.from(new Set(xs))]: first occurrences, in order. *)
Fixpoint uniq_from {A} `{EqDecision A} (seen : list A) (l : list A) : list A :=
  match l with
  | [] => []
  | x :: r =>
      if bool_decide (x ∈ seen) then uniq_from seen r
      else x :: uniq_from (x :: seen) r
  end.

Definition uniq {A} `{EqDecision A} (l : list A) : list A := uniq_from [] l.

(** What [JSON.parse(JSON.stringify(rows))] gives back. *)
Definition json_cell (c : cell) : cell :=
  match c with CUndef => CNull | _ => c end.

Definition json_rows (rs : list row) : list row := map (map json_cell) rs.

End Sheet.

Import Sheet.

(* ===================================================================== *)
(** ** The per-chat tables of [state.js] *)
(* ===================================================================== *)

(** A value held in a field of the session object. *)
Inductive jsval : Type :=
| VNull
| VStr (s : string)
| VBool (b : bool)
| VRows (rs : list row).

(** The session object: its own properties by name. *)
Abbreviation session := (gmap string jsval).

Record Creds : Type := { email : string; pass : string }.

(** A cookie jar: cookie names and values. *)
Definition Jar : Type := list (string * string).

Record Store : Type := {
  flyfone_creds : gmap Z Creds;     (* table flyfone_creds *)
  user_tokens   : gmap Z string;    (* table user_tokens   *)
  sessions      : gmap Z session;   (* table sessions      *)
  sheet_map     : gmap Z string;    (* table sheet_map     *)
  cookies       : gmap Z Jar        (* table cookies       *)
}.

Definition empty_store : Store :=
  {| flyfone_creds := ∅; user_tokens := ∅; sessions := ∅;
     sheet_map := ∅; cookies := ∅ |}.

(** What [JSON.parse(JSON.stringify(sessionObj))] gives back. *)
Definition json_val (v : jsval) : jsval :=
  match v with
  | VRows rs => VRows (json_rows rs)
  | _ => v
  end.

Definition json_session (s : session) : session := json_val <$> s.

(* ===================================================================== *)
(** ** The outside world *)
(* ===================================================================== *)

Inductive Method : Type := GET | POST.

Record Request : Type := {
  meth   : Method;
  path   : string;                   (* below FLYFONE_BASE *)
  params : list (string * string);   (* query string or form body *)
  follow : bool                      (* false for maxRedirects: 0 *)
}.

Inductive HttpResult : Type :=
| NetFail (msg : string)
| Response (status : Z) (body : string).

Inductive SheetsCall : Type :=
| ValuesClear (spreadsheetId range : string)
| ValuesUpdate (spreadsheetId range : string) (values : list row)
| ValuesAppend (spreadsheetId range : string) (values : list row).

Inductive Exn : Type :=
| TypeError (msg : string)
| ReferenceError (msg : string)
| Error (msg : string).

Definition message (e : Exn) : string :=
  match e with TypeError m | ReferenceError m | Error m => m end.

(** The libraries and services the bot calls.  The portal and the Sheets
    API answer as a function of what they were sent before. *)
Class Env : Type := {
  (** [Date.now()], milliseconds *)
  Date_now : Z;
  (** [dayjs(txt)] for a text that is not of the shape [dddd-dd-dd]: the
      date when [isValid()] *)
  dayjs_parse : string -> option Z;
  (** [new Date(y, m, d)], milliseconds: local midnight of day [d] of the
      month of index [m] of year [y]; the engine carries a month or a day
      out of range over *)
  Date_local : Z -> Z -> Z -> Z;
  (** [dayjs(d).format('YYYY-MM-DD')] *)
  dayjs_format : Z -> string;
  (** [chrono.parse(txt)]: for each result, [start?.date()] *)
  chrono_parse : string -> list (option Z);
  (** the portal: earlier requests, cookie jar, request *)
  portal : list Request -> Jar -> Request -> HttpResult * Jar;
  (** [XLSX.read] then [sheet_to_json] of the first sheet *)
  XLSX_read : string -> Exn + list row;
  (** the Sheets API: refresh token, earlier calls, call; [Some e] fails *)
  sheets_api : option string -> list SheetsCall -> SheetsCall -> option Exn;
  (** [dayjs().subtract(1, 'day').toDate()] *)
  dayjs_yesterday : Z;
  (** [oauth2Client.generateAuthUrl] with the chat id as state *)
  generateAuthUrl : Z -> string
}.

(** Keyboards sent along with a message. *)
Inductive Markup : Type :=
| NoMarkup
| Buttons (rows : list (list (string * string)))   (* label, callback data *)
| CalendarMarkup
| UrlButton (text url : string).

Inductive OutKind : Type :=
| Reply | EditMessageText | AnswerCallbackQuery.

Record Out : Type := {
  okind   : OutKind;
  otext   : string;
  omarkup : Markup;
  ohtml   : bool     (* parse_mode: 'HTML' *)
}.

Record World : Type := {
  store   : Store;
  jar     : Jar;                 (* the cookie jar object of the axios client *)
  outbox  : list Out;            (* what was sent to the chat, oldest first *)
  http    : list Request;        (* what was sent to the portal *)
  gsheets : list SheetsCall;     (* what was sent to the Sheets API *)
  calendarDefault : option Z     (* ctx.session.calendarOptions.defaultDate *)
}.

Definition init_world (st : Store) : World :=
  {| store := st; jar := []; outbox := []; http := []; gsheets := [];
     calendarDefault := None |}.

(* ===================================================================== *)
(** ** State and exceptions *)
(* ===================================================================== *)

Inductive Res (A : Type) : Type :=
| Ok (a : A)
| Throw (e : Exn).
Arguments Ok {A} a.
Arguments Throw {A} e.

Definition M (A : Type) : Type := World -> Res A * World.

Definition ret {A} (a : A) : M A := fun w => (Ok a, w).

Definition bind {A B} (m : M A) (k : A -> M B) : M B :=
  fun w =>
    match m w with
    | (Ok a, w') => k a w'
    | (Throw e, w') => (Throw e, w')
    end.

Definition throw {A} (e : Exn) : M A := fun w => (Throw e, w).

(** [try { m } catch (err) { h(err) }] *)
Definition try_catch {A} (m : M A) (h : Exn -> M A) : M A :=
  fun w =>
    match m w with
    | (Ok a, w') => (Ok a, w')
    | (Throw e, w') => h e w'
    end.

Definition get_world : M World := fun w => (Ok w, w).
Definition put_world (w' : World) : M unit := fun _ => (Ok tt, w').

Declare Scope js_scope.
Delimit Scope js_scope with js.
Notation "'let*' x := m 'in' k" := (bind m (fun x => k))
  (at level 10, x pattern, m at level 100, k at level 200) : js_scope.
Notation "m ;;; k" := (bind m (fun _ => k))
  (at level 100, k at level 200, right associativity) : js_scope.
Local Open Scope js_scope.

(* ===================================================================== *)
(** ** [state.js]: get, save and delete per chat

    The Supabase client is taken to answer every query: a missing row is
    the [PGRST116] case, which the getters turn into [null]. *)
(* ===================================================================== *)

Module State.

Definition upd_store (f : Store -> Store) : M unit :=
  fun w => (Ok tt,
            {| store := f (store w); jar := jar w; outbox := outbox w;
               http := http w; gsheets := gsheets w;
               calendarDefault := calendarDefault w |}).

Definition getRefreshToken (chatId : Z) : M (option string) :=
  fun w => (Ok (user_tokens (store w) !! chatId), w).

Definition deleteRefreshToken (chatId : Z) : M unit :=
  upd_store (fun st =>
    {| flyfone_creds := flyfone_creds st;
       user_tokens := delete chatId (user_tokens st);
       sessions := sessions st; sheet_map := sheet_map st;
       cookies := cookies st |}).

Definition saveRefreshToken (chatId : Z) (tok : string) : M unit :=
  upd_store (fun st =>
    {| flyfone_creds := flyfone_creds st;
       user_tokens := <[chatId := tok]> (user_tokens st);
       sessions := sessions st; sheet_map := sheet_map st;
       cookies := cookies st |}).

Definition getFlyfoneCreds (chatId : Z) : M (option Creds) :=
  fun w => (Ok (flyfone_creds (store w) !! chatId), w).

Definition saveFlyfoneCreds (chatId : Z) (e p : string) : M unit :=
  upd_store (fun st =>
    {| flyfone_creds := <[chatId := {| email := e; pass := p |}]> (flyfone_creds st);
       user_tokens := user_tokens st;
       sessions := sessions st; sheet_map := sheet_map st;
       cookies := cookies st |}).

Definition deleteFlyfoneCreds (chatId : Z) : M unit :=
  upd_store (fun st =>
    {| flyfone_creds := delete chatId (flyfone_creds st);
       user_tokens := user_tokens st;
       sessions := sessions st; sheet_map := sheet_map st;
       cookies := cookies st |}).

(** [JSON.parse(data.session_json)], or [null] *)
Definition getSession (chatId : Z) : M (option session) :=
  fun w => (Ok (json_session <$> sessions (store w) !! chatId), w).

(** upsert of [JSON.stringify(sessionObj)] *)
Definition saveSession (chatId : Z) (s : session) : M unit :=
  upd_store (fun st =>
    {| flyfone_creds := flyfone_creds st;
       user_tokens := user_tokens st;
       sessions := <[chatId := json_session s]> (sessions st);
       sheet_map := sheet_map st;
       cookies := cookies st |}).

Definition deleteSession (chatId : Z) : M unit :=
  upd_store (fun st =>
    {| flyfone_creds := flyfone_creds st;
       user_tokens := user_tokens st;
       sessions := delete chatId (sessions st);
       sheet_map := sheet_map st;
       cookies := cookies st |}).

Definition getSheet (chatId : Z) : M (option string) :=
  fun w => (Ok (sheet_map (store w) !! chatId), w).

Definition saveSheet (chatId : Z) (sheetId : string) : M unit :=
  upd_store (fun st =>
    {| flyfone_creds := flyfone_creds st;
       user_tokens := user_tokens st;
       sessions := sessions st;
       sheet_map := <[chatId := sheetId]> (sheet_map st);
       cookies := cookies st |}).

Definition deleteSheet (chatId : Z) : M unit :=
  upd_store (fun st =>
    {| flyfone_creds := flyfone_creds st;
       user_tokens := user_tokens st;
       sessions := sessions st;
       sheet_map := delete chatId (sheet_map st);
       cookies := cookies st |}).

(** The stored jar, or a new empty one; it becomes the jar object the
    axios client of the running handler works on. *)
Definition loadCookies (chatId : Z) : M unit :=
  fun w => (Ok tt,
            {| store := store w;
               jar := default [] (cookies (store w) !! chatId);
               outbox := outbox w; http := http w; gsheets := gsheets w;
               calendarDefault := calendarDefault w |}).

(** upsert of the jar object as it is now *)
Definition saveCookies (chatId : Z) : M unit :=
  fun w => (Ok tt,
            {| store :=
                 {| flyfone_creds := flyfone_creds (store w);
                    user_tokens := user_tokens (store w);
                    sessions := sessions (store w);
                    sheet_map := sheet_map (store w);
                    cookies := <[chatId := jar w]> (cookies (store w)) |};
               jar := jar w; outbox := outbox w; http := http w;
               gsheets := gsheets w;
               calendarDefault := calendarDefault w |}).

Definition removeAllCookies (chatId : Z) : M unit :=
  upd_store (fun st =>
    {| flyfone_creds := flyfone_creds st;
       user_tokens := user_tokens st;
       sessions := sessions st;
       sheet_map := sheet_map st;
       cookies := delete chatId (cookies st) |}).

End State.

(* ===================================================================== *)
(** ** Reading the session object *)
(* ===================================================================== *)

Module Sess.

(** Truthiness of [sess.k]; a missing property is [undefined]. *)
Definition truthy_val (v : option jsval) : bool :=
  match v with
  | None | Some VNull => false
  | Some (VStr EmptyString) => false
  | Some (VStr _) => true
  | Some (VBool b) => b
  | Some (VRows _) => true
  end.

(** [sess.k === 'lit'] *)
Definition is_str (v : option jsval) (lit : string) : bool :=
  match v with
  | Some (VStr s) => bool_decide (s = lit)
  | _ => false
  end.

(** [c === v] for a cell [c] and a session value [v] *)
Definition cell_eq_val (c : cell) (v : option jsval) : bool :=
  match c, v with
  | CStr s, Some (VStr t) => bool_decide (s = t)
  | CUndef, None => true
  | CNull, Some VNull => true
  | _, _ => false
  end.

(** [x === v] for [x] a string or [undefined] *)
Definition optstr_eq_val (x : option string) (v : option jsval) : bool :=
  match x, v with
  | Some s, Some (VStr t) => bool_decide (s = t)
  | None, None => true
  | _, _ => false
  end.

Fixpoint join_comma (l : list string) : string :=
  match l with
  | [] => EmptyString
  | [w] => w
  | w :: ws => w +:+ "," +:+ join_comma ws
  end.

Definition cell_in_array (c : cell) : string :=
  match c with
  | CUndef | CNull => EmptyString
  | _ => display c
  end.

(** [`${v}`] *)
Definition display_val (v : option jsval) : string :=
  match v with
  | None => "undefined"
  | Some VNull => "null"
  | Some (VStr s) => s
  | Some (VBool true) => "true"
  | Some (VBool false) => "false"
  | Some (VRows rs) =>
      join_comma (map (fun r => join_comma (map cell_in_array r)) rs)
  end.

End Sess.

Import Sess.

(** The double quote, for messages that quote user input, and the line
    feed. *)
Definition dq : string := String (ascii_of_nat 34) EmptyString.
Definition nl : string := String (ascii_of_nat 10) EmptyString.

(* ===================================================================== *)
(** ** [bot.js] *)
(* ===================================================================== *)

Module Bot.

(** What grammY hands to a handler. *)
Record Ctx : Type := {
  chat_id : Z;                     (* ctx.chat.id *)
  text : string;                   (* ctx.message.text *)
  cmatch : list string;            (* ctx.match[1], ctx.match[2] *)
  calendarSelectedDate : option Z
}.

Definition send (o : Out) : M unit :=
  fun w => (Ok tt,
            {| store := store w; jar := jar w; outbox := outbox w ++ [o];
               http := http w; gsheets := gsheets w;
               calendarDefault := calendarDefault w |}).

(** [ctx.reply(text, { parse_mode: 'HTML', reply_markup })] *)
Definition reply_html (t : string) (kb : Markup) : M unit :=
  send {| okind := Reply; otext := t; omarkup := kb; ohtml := true |}.

(** [replyBold(ctx, text, extra)] *)
Definition replyBold (t : string) (kb : Markup) : M unit :=
  reply_html ("<b>" +:+ t +:+ "</b>") kb.

Definition editMessageText (t : string) (kb : Markup) (html : bool) : M unit :=
  send {| okind := EditMessageText; otext := t; omarkup := kb; ohtml := html |}.

Definition answerCallbackQuery : M unit :=
  send {| okind := AnswerCallbackQuery; otext := ""; omarkup := NoMarkup;
          ohtml := false |}.

Definition set_calendarDefault (d : Z) : M unit :=
  fun w => (Ok tt,
            {| store := store w; jar := jar w; outbox := outbox w;
               http := http w; gsheets := gsheets w;
               calendarDefault := Some d |}).

(** The keyboard of the mode-choice prompt. *)
Definition mode_kb : Markup :=
  Buttons [[("Yes, link a sheet", "linkSheet:yes");
            ("No, keep in chat", "linkSheet:no")]].

Definition mode_prompt : Out :=
  {| okind := Reply;
     otext := "<b>Do you want to connect your Google Sheet?</b>";
     omarkup := mode_kb; ohtml := true |}.

Definition expired_notice : Out :=
  {| okind := Reply; otext := "<b>Session expired! Restarting...</b>";
     omarkup := NoMarkup; ohtml := true |}.

(** One button per row: [xs.forEach(x => kb.text(label, data).row())] *)
Definition column_kb (bs : list (string * string)) : Markup :=
  Buttons (map (fun b => [b]) bs).

Section WithEnv.
Context `{E : Env}.

(** *** Google Sheets helpers *)

Definition sheets_call (tok : option string) (c : SheetsCall) : M unit :=
  fun w =>
    let w' := {| store := store w; jar := jar w; outbox := outbox w;
                 http := http w; gsheets := gsheets w ++ [c];
                 calendarDefault := calendarDefault w |} in
    match sheets_api tok (gsheets w) c with
    | Some e => (Throw e, w')
    | None => (Ok tt, w')
    end.

(** [writeToSheet(chatId, spreadsheetId, rows, overwrite)]; the token
    read by [getSheetsClientForUser] is a string or [null], never an
    object, so the client is always built. *)
Definition writeToSheet (chatId : Z) (spreadsheetId : string)
    (rows : list row) (overwrite : bool) : M unit :=
  let* tok := State.getRefreshToken chatId in
  if overwrite then
    sheets_call tok (ValuesClear spreadsheetId "Sheet1!A1:Z") ;;;
    sheets_call tok (ValuesUpdate spreadsheetId "Sheet1!A1" rows)
  else
    sheets_call tok (ValuesAppend spreadsheetId "Sheet1!A1" rows).

(** *** Flyfone scraping helpers *)

(** One axios request on the client's jar.  The jar keeps what the
    response set even when the status is refused. *)
Definition request (rq : Request) (validateStatus : Z -> bool)
  : M (Z * string) :=
  fun w =>
    let '(res, jar') := portal (http w) (jar w) rq in
    let w' := {| store := store w; jar := jar'; outbox := outbox w;
                 http := http w ++ [rq]; gsheets := gsheets w;
                 calendarDefault := calendarDefault w |} in
    match res with
    | NetFail msg => (Throw (Error msg), w')
    | Response st body =>
        if validateStatus st then (Ok (st, body), w')
        else (Throw (Error ("Request failed with status code "
                            +:+ num_to_string st)), w')
    end.

Definition is_id_char (c : ascii) : bool :=
  let n := nat_of_ascii c in
  ((48 <=? n)%nat && (n <=? 57)%nat) || ((65 <=? n)%nat && (n <=? 90)%nat)
  || ((97 <=? n)%nat && (n <=? 122)%nat) || (n =? 95)%nat || (n =? 45)%nat.

(** The longest prefix whose characters satisfy [p], and what follows. *)
Fixpoint span (p : ascii -> bool) (s : string) : string * string :=
  match s with
  | EmptyString => (EmptyString, EmptyString)
  | String c r =>
      if p c then let '(a, b) := span p r in (String c a, b)
      else (EmptyString, s)
  end.

Definition is_dq (c : ascii) : bool := (nat_of_ascii c =? 34)%nat.

Definition csrf_marker : string :=
  "name=" +:+ dq +:+ "csrf_webcall" +:+ dq +:+ " value=" +:+ dq.

Fixpoint drop_str (n : nat) (s : string) : string :=
  match n, s with
  | O, _ => s
  | S n', String _ r => drop_str n' r
  | S _, EmptyString => EmptyString
  end.

(** [loginPage.data.match(...)] for the [csrf_webcall] input: after the
    marker, one or more characters other than a double quote, then a
    double quote; group 1 of the leftmost match. *)
Fixpoint csrf_match (html : string) : option string :=
  let here :=
    if startsWith csrf_marker html then
      let '(tok, rest) :=
        span (fun c => negb (is_dq c))
             (drop_str (String.length csrf_marker) html) in
      match tok, rest with
      | String _ _, String _ _ => Some tok
      | _, _ => None
      end
    else None in
  match here with
  | Some tok => Some tok
  | None =>
      match html with
      | EmptyString => None
      | String _ r => csrf_match r
      end
  end.

Definition status_is (n : Z) (s : Z) : bool := s =? n.

Definition ensureLoggedIn (chatId : Z) (email password : string) : M unit :=
  (* 1. If already logged in, the dashboard will return 200 *)
  let* probe :=
    try_catch
      (request {| meth := GET; path := "/dashboard"; params := [];
                  follow := false |} (status_is 200) ;;; ret true)
      (fun _ => ret false) in
  if (probe : bool) then ret tt
  else
    (* 2. Fetch login page to get CSRF token *)
    let* loginPage :=
      request {| meth := GET; path := "/login"; params := [];
                 follow := true |} (status_is 200) in
    match csrf_match (snd loginPage) with
    | None => throw (Error "CSRF token not found")
    | Some csrf =>
        (* 3. POST credentials *)
        let* resp :=
          request {| meth := POST; path := "/login";
                     params := [("csrf_webcall", csrf);
                                ("username", email);
                                ("password", password)];
                     follow := false |}
                  (fun s => (s =? 302) || (s =? 303) || (s =? 200)) in
        (* 4. Detect wrong credentials *)
        if (fst resp =? 200) && includes (snd resp) "password is incorrect"
        then throw (Error "Incorrect email or password")
        else
          (* 5. Persist cookies to Supabase *)
          State.saveCookies chatId
    end.

(** axios' default [validateStatus] *)
Definition status_2xx (s : Z) : bool := (200 <=? s) && (s <? 300).

Definition downloadFlyfoneReport (chatId : Z) (dateStr email password : string)
  : M (list row) :=
  ensureLoggedIn chatId email password ;;;
  let* resp :=
    request {| meth := GET; path := "/api/export/voice";
               params := [("from_date", dateStr); ("to_date", dateStr);
                          ("phone", ""); ("status", "0");
                          ("autodial_id", ""); ("team_id", "0")];
               follow := true |} status_2xx in
  if negb (fst resp =? 200)
  then throw (Error ("Export failed: " +:+ num_to_string (fst resp)))
  else match XLSX_read (snd resp) with
       | inl e => throw e
       | inr rows => ret rows
       end.

(** *** The session guard *)

(** [withSessionGuard(handler)]: the stored session is an object
    whenever there is one, hence truthy. *)
Definition withSessionGuard (handler : Ctx -> M unit) (ctx : Ctx) : M unit :=
  let chatId := chat_id ctx in
  let* sess := State.getSession chatId in
  match sess with
  | None =>
      send expired_notice ;;;
      (* Simulate /start command *)
      State.deleteSession chatId ;;;
      send mode_prompt
  | Some _ => handler ctx
  end.

(** *** Date input *)

Definition digit (c : ascii) : option Z :=
  let n := nat_of_ascii c in
  if (48 <=? n)%nat && (n <=? 57)%nat then Some (Z.of_nat (n - 48)) else None.

(** A text of the shape [dddd-dd-dd], ten characters, read as three
    numbers; the digits are not checked against any calendar. *)
Definition iso_digits (txt : string) : option (Z * Z * Z) :=
  match txt with
  | String y1 (String y2 (String y3 (String y4 (String s1
      (String m1 (String m2 (String s2 (String d1 (String d2 EmptyString)))))))))
    =>
      if Ascii.eqb s1 "-" && Ascii.eqb s2 "-" then
        a ← digit y1; b ← digit y2; c ← digit y3; d ← digit y4;
        e ← digit m1; f ← digit m2; g ← digit d1; h ← digit d2;
        Some (1000 * a + 100 * b + 10 * c + d, 10 * e + f, 10 * g + h)
      else None
  | _ => None
  end.

(** [dayjs(txt, 'YYYY-MM-DD', true)], then [isValid()].  The file imports
    dayjs (line 7) and never extends it with the customParseFormat plugin,
    so the format and the strict flag are ignored and the call is
    [dayjs(txt)].  For a text of the shape [dddd-dd-dd] the parser of dayjs
    reads the three numbers and builds [new Date(y, m - 1, d)], a valid
    date whatever the digits; every other text is left to [dayjs_parse]. *)
Definition dayjs_any (txt : string) : option Z :=
  match iso_digits txt with
  | Some (y, m, d) => Some (Date_local y (m - 1) d)
  | None => dayjs_parse txt
  end.

(** [parseDateInput(input)]; [None] is [null]. *)
Definition parseDateInput (input : string) : option Z :=
  let txt := toLowerCase (trim input) in
  if bool_decide (txt = "today") then Some Date_now
  else if bool_decide (txt = "yesterday") then Some (Date_now - 86400000)
  else
    (* Try strict ISO *)
    match dayjs_any txt with
    | Some d => Some d
    | None =>
        (* Fallback to chrono-node *)
        match chrono_parse txt with
        | r :: _ => r
        | [] => None
        end
    end.

(** *** 1) /start, mode choice, /mode, /logout *)

Definition cmd_start (ctx : Ctx) : M unit :=
  let chatId := chat_id ctx in
  let* existingCreds := State.getFlyfoneCreds chatId in
  match existingCreds with
  | Some _ => send mode_prompt
  | None =>
      State.deleteSession chatId ;;;
      State.deleteFlyfoneCreds chatId ;;;
      State.saveSession chatId {[ "step" := VStr "await_email" ]} ;;;
      replyBold "Enter your Flyfone email:" NoMarkup
  end.

(** [{ ...await getSession(chatId), connectSheet: true, mode: 'sheet',
      step: 'await_sheet_url' }] *)
Definition cb_linkSheet_yes (ctx : Ctx) : M unit :=
  let chatId := chat_id ctx in
  let* prev := State.getSession chatId in
  State.saveSession chatId
    (<["step" := VStr "await_sheet_url"]>
       (<["mode" := VStr "sheet"]>
          (<["connectSheet" := VBool true]> (default ∅ prev)))) ;;;
  answerCallbackQuery ;;;
  replyBold ("Please send your Sheet URL using:" +:+ nl +:+ nl +:+ " " +:+ dq
             +:+ "/sheet + &lt;URL/ID&gt;" +:+ dq) NoMarkup.

Definition cb_linkSheet_no (ctx : Ctx) : M unit :=
  let chatId := chat_id ctx in
  (* mark this chat to stay in chat mode *)
  State.saveSession chatId
    (<["mode" := VStr "chat"]> {[ "connectSheet" := VBool false ]}) ;;;
  answerCallbackQuery ;;;
  replyBold ("Chat mode enabled!" +:+ nl +:+ nl +:+ " Fetch /fetch to start.")
    NoMarkup.

Definition not_logged_in_long : string :=
  "You are not logged in. Use /start to log in first.".

Definition cmd_mode (ctx : Ctx) : M unit :=
  let chatId := chat_id ctx in
  let* creds := State.getFlyfoneCreds chatId in
  (* Check for arguments first *)
  match slice1 (split_space (text ctx)) with
  | a0 :: _ =>
      let mode := toLowerCase a0 in
      match creds with
      | None => replyBold not_logged_in_long NoMarkup
      | Some _ =>
          if bool_decide (mode = "chat") then
            let* prev := State.getSession chatId in
            State.saveSession chatId
              (<["connectSheet" := VBool false]>
                 (<["mode" := VStr "chat"]> (default ∅ prev))) ;;;
            replyBold "Chat mode enabled!" NoMarkup
          else if bool_decide (mode = "sheet") then
            let* prev := State.getSession chatId in
            State.saveSession chatId
              (<["connectSheet" := VBool true]>
                 (<["mode" := VStr "sheet"]> (default ∅ prev))) ;;;
            replyBold "Sheet mode enabled!" NoMarkup
          else
            replyBold ("Invalid mode. Use " +:+ dq +:+ "/mode chat" +:+ dq
                       +:+ " or " +:+ dq +:+ "/mode sheet" +:+ dq) NoMarkup
      end
  | [] =>
      (* No arguments - show mode selection *)
      match creds with
      | None => replyBold not_logged_in_long NoMarkup
      | Some _ =>
          reply_html "<b>Choose your mode:</b>"
            (Buttons [[("Sheet mode", "linkSheet:yes");
                       ("Chat mode", "linkSheet:no")]])
      end
  end.

(** The names that line 14 of [bot.js] imports from [./state.js].
    Nothing else in the module declares a function of the store. *)
Definition imported : list string :=
  ["getRefreshToken"; "saveRefreshToken"; "getFlyfoneCreds";
   "deleteFlyfoneCreds"; "getSession"; "deleteSession";
   "saveFlyfoneCreds"; "saveSession"; "saveSheet"; "getSheet";
   "loadCookies"; "saveCookies"; "deleteRefreshToken";
   "removeAllCookies"].

(** A call [name(args)] in module scope: an identifier that is not
    bound raises a [ReferenceError] when it is evaluated. *)
Definition call {A} (name : string) (f : M A) : M A :=
  if bool_decide (name ∈ imported) then f
  else throw (ReferenceError (name +:+ " is not defined")).

Definition logged_out_text : string :=
  "<b>You’ve been logged out.</b>" +:+ nl +:+ nl
  +:+ "Your Flyfone credentials and session have been cleared." +:+ nl
  +:+ "Use /fetch (or /start) again to log back in.".

(** [bot.command('logout')]: the elements of the array handed to
    [Promise.all] are evaluated left to right; each call that is
    reached starts its deletion, which then runs to its end. *)
Definition cmd_logout (ctx : Ctx) : M unit :=
  let chatId := chat_id ctx in
  (* Clear all user data *)
  call "deleteFlyfoneCreds" (State.deleteFlyfoneCreds chatId) ;;;
  call "deleteRefreshToken" (State.deleteRefreshToken chatId) ;;;
  call "deleteSession" (State.deleteSession chatId) ;;;
  call "removeAllCookies" (State.removeAllCookies chatId) ;;;
  call "deleteSheet" (State.deleteSheet chatId) ;;;
  reply_html logged_out_text NoMarkup.

(** *** 2) /sheet *)

(** [input.match(/\/d\/([A-Za-z0-9_-]+)/)]: group 1 of the leftmost
    match. *)
Fixpoint match_d (s : string) : option string :=
  let here :=
    if startsWith "/d/" s then
      match fst (span is_id_char (drop_str 3 s)) with
      | EmptyString => None
      | tok => Some tok
      end
    else None in
  match here with
  | Some tok => Some tok
  | None =>
      match s with
      | EmptyString => None
      | String _ r => match_d r
      end
  end.

(** [/^[A-Za-z0-9-_]+$/.test(input)] *)
Definition all_id (s : string) : bool :=
  match s with
  | EmptyString => false
  | _ => match span is_id_char s with
         | (_, EmptyString) => true
         | _ => false
         end
  end.

Definition truthy_str (o : option string) : bool :=
  match o with
  | Some (String _ _) => true
  | _ => false
  end.

Definition sheet_usage : string :=
  "<code>/sheet URL/ID</code>" +:+ nl +:+ nl
  +:+ "Click & copy then replace the &lt;URL/ID&gt; with yours." +:+ nl
  +:+ "e.g. " +:+ dq
  +:+ "/sheet https://docs.google.com/spreadsheets/d/xyz..." +:+ dq.

(** [creds?.refresh_token] where [creds] is what [getRefreshToken]
    returned: a string or [null], neither of which has the property. *)
Definition refresh_token_prop (creds : option string) : option string := None.

Definition cmd_sheet (ctx : Ctx) : M unit :=
  let chatId := chat_id ctx in
  let* s0 := State.getSession chatId in
  let sess : session := default ∅ s0 in
  if negb (truthy_val (sess !! "connectSheet")) then
    replyBold "Not in Sheet mode. Use /mode to switch." NoMarkup
  else
    let input := trim (nth 1 (split_space (text ctx)) "") in
    let sheetId :=
      match match_d input with
      | Some g => Some g
      | None => if all_id input then Some input else None
      end in
    match sheetId with
    | Some (String c r) =>
        let sid := String c r in
        let* creds := State.getRefreshToken chatId in
        State.saveSession chatId (<["sheetId" := VStr sid]> sess) ;;;
        State.saveSheet chatId sid ;;;
        if truthy_str (refresh_token_prop creds) then
          replyBold "Sheet linked! Now use /fetch to export." NoMarkup
        else
          (* Not authorized - prompt OAuth now *)
          reply_html "<b>Please authorize access to Google Sheets:</b>"
            (UrlButton "Authorize" (generateAuthUrl chatId))
    | _ => replyBold sheet_usage NoMarkup
    end.

(** *** 3) /fetch and the two date prompts *)

(** [rows.slice(1)] for [rows] read from the session: anything but an
    array has no usable [slice]. *)
Definition data_rows (rows : option jsval) : M (list row) :=
  match rows with
  | Some (VRows rs) => ret (slice1 rs)
  | _ => throw (TypeError "Cannot read properties of undefined (reading 'slice')")
  end.

Definition set_step_null : Exn :=
  TypeError "Cannot set properties of null (setting 'step')".

Definition destructure_null : Exn :=
  TypeError "Cannot destructure property of null".

Definition beginSheetFlow (ctx : Ctx) : M unit :=
  let chatId := chat_id ctx in
  let* sess := State.getSession chatId in
  let* sheetId := State.getSheet chatId in
  if negb (truthy_str sheetId) then replyBold "Send /sheet first." NoMarkup
  else
    let* creds := State.getFlyfoneCreds chatId in
    match creds with
    | None => replyBold "You are not logged in. Use /start to log in." NoMarkup
    | Some _ =>
        match sess with
        | None => throw set_step_null
        | Some s =>
            State.saveSession chatId (<["step" := VStr "sheet_await_date"]> s) ;;;
            set_calendarDefault dayjs_yesterday ;;;
            reply_html "<b>Please choose a date:</b>" CalendarMarkup
        end
    end.

Definition beginChatFlow (ctx : Ctx) : M unit :=
  let chatId := chat_id ctx in
  let* sess := State.getSession chatId in
  let* creds := State.getFlyfoneCreds chatId in
  match sess with
  | None => throw set_step_null
  | Some s =>
      State.saveSession chatId (<["step" := VStr "chat_await_date"]> s) ;;;
      set_calendarDefault dayjs_yesterday ;;;
      replyBold "Select a date to view in chat:" CalendarMarkup
  end.

Definition cmd_fetch (ctx : Ctx) : M unit :=
  let chatId := chat_id ctx in
  let* s0 := State.getSession chatId in
  let sess : session := default ∅ s0 in
  let* creds := State.getFlyfoneCreds chatId in
  (* If they already linked a sheet, default to sheet-mode *)
  let* linkedSheet := State.getSheet chatId in
  let mode : option jsval :=
    if truthy_val (sess !! "mode") then sess !! "mode"
    else if truthy_str linkedSheet then Some (VStr "sheet") else None in
  match creds with
  | None => replyBold "You are not logged in. Use /start." NoMarkup
  | Some _ =>
      if negb (truthy_val mode) then
        replyBold "No mode selected. Use /mode to pick one." NoMarkup
      else if is_str mode "sheet" then
        if negb (truthy_str linkedSheet) then
          replyBold ("Missing sheet. Use " +:+ dq +:+ "/sheet + <URL/ID>"
                     +:+ dq +:+ ".") NoMarkup
        else beginSheetFlow ctx
      else beginChatFlow ctx
  end.

(** [r[6]?.toString() || ''], then [.filter(Boolean)] *)
Definition raw_teams (rows : list row) : list string :=
  filter (fun t => t ≠ EmptyString)
         (map (fun r => default "" (toString_opt (col r 6))) (slice1 rows)).

Definition startFetchFlow (ctx : Ctx) (email pass : string)
    (sheetId : option string) (dateStr : option string) : M unit :=
  let chatId := chat_id ctx in
  let ds := if truthy_str dateStr then default "" dateStr
            else dayjs_format dayjs_yesterday in
  let sheet_val := match sheetId with Some i => VStr i | None => VNull end in
  try_catch
    (State.loadCookies chatId ;;;
     let* rows := downloadFlyfoneReport chatId ds email pass in
     (* raw, lowercase keys *)
     let raw := raw_teams rows in
     if truthy_str sheetId then
       (* SHEET MODE *)
       let teamKeys := uniq (map toLowerCase raw) in
       let* p0 := State.getSession chatId in
       State.saveSession chatId
         (<["sheetId" := sheet_val]>
            (<["dateStr" := VStr ds]>
               (<["rows" := VRows rows]> (default ∅ p0)))) ;;;
       reply_html "<b>Select a team to export:</b>"
         (column_kb (map (fun key => (key, "team:" +:+ key)) teamKeys))
     else
       (* CHAT MODE *)
       let teams := uniq raw in
       match teams with
       | [] => replyBold ("No teams found on " +:+ ds +:+ ".") NoMarkup
       | _ =>
           let* p0 := State.getSession chatId in
           State.saveSession chatId
             (<["sheetId" := sheet_val]>
                (<["dateStr" := VStr ds]>
                   (<["rows" := VRows rows]> (default ∅ p0)))) ;;;
           reply_html "<b>Select a team:</b>"
             (column_kb (map (fun label =>
                                (label, "team:" +:+ toLowerCase label)) teams))
       end)
    (fun err =>
       let msg :=
         if bool_decide (message err = "Incorrect email or password")
         then "Incorrect email or password. Please /fetch again to retry."
         else "Error: " +:+ message err in
       replyBold msg NoMarkup).

(** The handler of the sheet-mode calendar filter. *)
Definition on_sheet_date (ctx : Ctx) (d : Z) : M unit :=
  let chatId := chat_id ctx in
  let* sess := State.getSession chatId in
  let* creds := State.getFlyfoneCreds chatId in
  match creds with
  | None => throw destructure_null
  | Some c =>
      let dateStr := dayjs_format d in
      replyBold ("Exporting calls for " +:+ dateStr +:+ "…") NoMarkup ;;;
      let* sheetId := State.getSheet chatId in
      startFetchFlow ctx (email c) (pass c) sheetId (Some dateStr)
  end.

(** [rows.slice(1).map(r => r[6] || '')], without duplicates *)
Definition team_menu (rows : list row) : list cell :=
  uniq (map (fun r => or_empty (col r 6)) (slice1 rows)).

Definition team_kb (teams : list cell) : Markup :=
  column_kb (map (fun t => (display t, "chat_team:" +:+ display t)) teams).

(** The handler of the chat-mode calendar filter. *)
Definition on_chat_date (ctx : Ctx) (d : Z) : M unit :=
  let chatId := chat_id ctx in
  let* sess := State.getSession chatId in
  let dateStr := dayjs_format d in
  replyBold ("Fetching calls for " +:+ dateStr +:+ "…") NoMarkup ;;;
  let* creds := State.getFlyfoneCreds chatId in
  match creds with
  | None => throw destructure_null
  | Some c =>
      State.loadCookies chatId ;;;
      let* rows := downloadFlyfoneReport chatId dateStr (email c) (pass c) in
      State.saveSession chatId
        (<["dateStr" := VStr dateStr]>
           (<["rows" := VRows rows]> (default ∅ sess))) ;;;
      reply_html "<b>Select a team:</b>" (team_kb (team_menu rows))
  end.

(** The two [bot.filter] registrations, in order: a date picked in the
    calendar goes to the flow whose step the session is in, and is
    dropped otherwise. *)
Definition on_calendar (ctx : Ctx) : M unit :=
  match calendarSelectedDate ctx with
  | None => ret tt
  | Some d =>
      let* s1 := State.getSession (chat_id ctx) in
      if is_str (default ∅ s1 !! "step") "sheet_await_date"
      then on_sheet_date ctx d
      else
        let* s2 := State.getSession (chat_id ctx) in
        if is_str (default ∅ s2 !! "step") "chat_await_date"
        then on_chat_date ctx d
        else ret tt
  end.

(** *** 4) Chat mode: teams, agents, statistics *)

(** The property name [acc[st]] is stored under, for
    [st = r[8]?.toString().trim()]. *)
Definition status_key (r : row) : string :=
  match toString_opt (col r 8) with
  | Some st => trim st
  | None => "undefined"
  end.

(** What an own property of the accumulator holds: a count, or the text
    that [+ 1] makes of a value that is no number. *)
Inductive slot : Type :=
| Count (n : nat)
| Text (s : string).

(** The function members every object inherits from [Object.prototype]. *)
Definition proto_functions : list string :=
  ["constructor"; "hasOwnProperty"; "isPrototypeOf"; "propertyIsEnumerable";
   "toLocaleString"; "toString"; "valueOf"; "__defineGetter__";
   "__defineSetter__"; "__lookupGetter__"; "__lookupSetter__"].

(** Every name [{}] answers to without an own property: the functions and
    the accessor [__proto__]. *)
Definition inherited : list string := "__proto__" :: proto_functions.

(** [String(f)] for the built-in function inherited under the name [k]. *)
Definition native_text (k : string) : string :=
  "function " +:+ (if bool_decide (k = "constructor") then "Object" else k)
  +:+ "() { [native code] }".

(** [(acc[st] || 0) + 1]: an own property first, then the inherited
    member, a function or for [__proto__] the prototype object, both
    truthy and turned into text by [+]; [0] when there is neither. *)
Definition next_slot (acc : gmap string slot) (st : string) : slot :=
  match acc !! st with
  | Some (Count n) => Count (S n)
  | Some (Text EmptyString) => Count 1
  | Some (Text s) => Text (s +:+ "1")
  | None =>
      if bool_decide (st ∈ proto_functions) then Text (native_text st +:+ "1")
      else if bool_decide (st = "__proto__") then Text "[object Object]1"
      else Count 1
  end.

(** [acc[st] = (acc[st] || 0) + 1].  The assignment makes an own property,
    but under [__proto__], where it runs the inherited setter, which drops
    a value that is no object. *)
Definition count_step (acc : gmap string slot) (r : row) : gmap string slot :=
  let st := status_key r in
  if bool_decide (st = "__proto__") then acc
  else <[st := next_slot acc st]> acc.

(** [filtered.reduce(..., {})] *)
Definition countByStatus (filtered : list row) : gmap string slot :=
  fold_left count_step filtered ∅.

(** [counts[k] || 0] *)
Definition count_of (counts : gmap string slot) (k : string) : slot :=
  match counts !! k with
  | Some (Text EmptyString) => Count 0
  | Some v => v
  | None =>
      if bool_decide (k ∈ proto_functions) then Text (native_text k)
      else if bool_decide (k = "__proto__") then Text "[object Object]"
      else Count 0
  end.

Definition show_nat (n : nat) : string := num_to_string (Z.of_nat n).

(** A slot inside a template literal. *)
Definition show_slot (v : slot) : string :=
  match v with
  | Count n => show_nat n
  | Text s => s
  end.

Definition stats_text (agent dateStr : string) (filtered : list row) : string :=
  let total := length filtered in
  let counts := countByStatus filtered in
  "<b>Name:</b> <b>" +:+ agent +:+ "</b>" +:+ nl
  +:+ "<b>Date:</b> <b>" +:+ dateStr +:+ "</b>" +:+ nl
  +:+ "<b>Calls:</b> <b>" +:+ show_nat total +:+ "</b>" +:+ nl
  +:+ "<b>Answered:</b> <b>" +:+ show_slot (count_of counts "ANSWER") +:+ "</b>" +:+ nl
  +:+ "<b>Cancelled:</b> <b>" +:+ show_slot (count_of counts "CANCEL") +:+ "</b>" +:+ nl
  +:+ "<b>Busy:</b> <b>" +:+ show_slot (count_of counts "BUSY") +:+ "</b>".

(** [rows.slice(1).filter(r => r[6] === team).map(r => r[5])], without
    duplicates *)
Definition agents_of (drows : list row) (team : option jsval) : list cell :=
  uniq (map (fun r => col r 5)
            (filter (fun r => cell_eq_val (col r 6) team = true) drows)).

Definition agent_kb (team : string) (agents : list cell) : Markup :=
  column_kb (map (fun a => (display a,
                            "chat_agent:" +:+ team +:+ "|" +:+ display a))
                 agents).

Definition select_agent_text (team : string) : string :=
  "<b>Team:</b> " +:+ team +:+ nl +:+ "<b>Select an agent:</b>".

Definition chat_team_body (ctx : Ctx) : M unit :=
  let chatId := chat_id ctx in
  let* s0 := State.getSession chatId in
  match s0 with
  | None => throw destructure_null
  | Some sess =>
      let team := nth 0 (cmatch ctx) "" in
      let* s1 := State.getSession chatId in
      State.saveSession chatId
        (<["selectedTeam" := VStr team]> (default ∅ s1)) ;;;
      let* drows := data_rows (sess !! "rows") in
      editMessageText (select_agent_text team)
        (agent_kb team (agents_of drows (Some (VStr team)))) true
  end.

Definition chat_agent_body (ctx : Ctx) : M unit :=
  let chatId := chat_id ctx in
  let team := nth 0 (cmatch ctx) "" in
  let agent := nth 1 (cmatch ctx) "" in
  let* s0 := State.getSession chatId in
  match s0 with
  | None => throw destructure_null
  | Some sess =>
      let* drows := data_rows (sess !! "rows") in
      (* Team = r[6], Agent = r[5] *)
      let filtered :=
        filter (fun r => eq_str (col r 6) team && eq_str (col r 5) agent = true)
               drows in
      editMessageText
        (stats_text agent (display_val (sess !! "dateStr")) filtered)
        NoMarkup true
  end.

Definition chat_only_date : string :=
  "This command is only available in chat mode after selecting a date.".
Definition chat_only_team : string :=
  "This command is only available in chat mode after selecting a team.".

Definition cmd_team_body (ctx : Ctx) : M unit :=
  let chatId := chat_id ctx in
  let* s0 := State.getSession chatId in
  match s0 with
  | None => replyBold chat_only_date NoMarkup
  | Some sess =>
      (* Only allow in chat mode, with rows loaded *)
      if negb (is_str (sess !! "mode") "chat") || negb (truthy_val (sess !! "rows"))
      then replyBold chat_only_date NoMarkup
      else
        let* drows := data_rows (sess !! "rows") in
        match uniq (map (fun r => or_empty (col r 6)) drows) with
        | [] => replyBold "No teams found for this date." NoMarkup
        | teams => reply_html "<b>Select a team:</b>" (team_kb teams)
        end
  end.

(** The candidates as strings: [a.toLowerCase()] needs a string. *)
Definition cell_strings (l : list cell) : option (list string) :=
  mapM (fun c => match c with CStr s => Some s | _ => None end) l.

Definition cmd_agent_body (ctx : Ctx) : M unit :=
  let chatId := chat_id ctx in
  let* s0 := State.getSession chatId in
  (* Parse argument *)
  let input :=
    toLowerCase (trim (join_space (slice1 (split_space (text ctx))))) in
  match s0 with
  | None => replyBold chat_only_team NoMarkup
  | Some sess =>
      if negb (is_str (sess !! "mode") "chat")
         || negb (truthy_val (sess !! "rows"))
         || negb (truthy_val (sess !! "selectedTeam"))
      then replyBold chat_only_team NoMarkup
      else
        let* drows := data_rows (sess !! "rows") in
        let agents := agents_of drows (sess !! "selectedTeam") in
        match agents with
        | [] => replyBold "No agents found for this team." NoMarkup
        | _ =>
            match input with
            | EmptyString =>
                let team := display_val (sess !! "selectedTeam") in
                reply_html (select_agent_text team) (agent_kb team agents)
            | _ =>
                (* Find best match *)
                match cell_strings agents with
                | None => throw (TypeError "a.toLowerCase is not a function")
                | Some names =>
                    match Match.bestAgentMatch names input with
                    | Some (String c a) =>
                        let agent := String c a in
                        (* Show stats for the matched agent *)
                        let filtered :=
                          filter (fun r =>
                                    cell_eq_val (col r 6) (sess !! "selectedTeam")
                                    && eq_str (col r 5) agent = true) drows in
                        reply_html
                          (stats_text agent (display_val (sess !! "dateStr"))
                                      filtered) NoMarkup
                    | _ =>
                        replyBold ("No agent found matching " +:+ dq
                                   +:+ input +:+ dq +:+ ".") NoMarkup
                    end
                end
            end
        end
  end.

(** *** /summary <date> <team> *)

(** [r[5] || 'Unknown'] as a property name *)
Definition agent_key (r : row) : string :=
  if truthy (col r 5) then display (col r 5) else "Unknown".

(** [acc[agent] = (acc[agent] || 0) + 1], keeping the order in which
    the properties were created.  An agent name is taken not to name a
    member that every object inherits (those of [inherited]). *)
Fixpoint bump (k : string) (l : list (string * nat)) : list (string * nat) :=
  match l with
  | [] => [(k, 1%nat)]
  | (k', n) :: r =>
      if bool_decide (k = k') then (k', S n) :: r else (k', n) :: bump k r
  end.

Definition count_agents (dataRows : list row) : list (string * nat) :=
  fold_left (fun acc r => bump (agent_key r) acc) dataRows [].

Definition digit_val (c : ascii) : option N :=
  let n := nat_of_ascii c in
  if (48 <=? n)%nat && (n <=? 57)%nat then Some (N.of_nat (n - 48)) else None.

Fixpoint parse_digits (acc : N) (s : string) : option N :=
  match s with
  | EmptyString => Some acc
  | String c r =>
      match digit_val c with
      | Some d => parse_digits (10 * acc + d)%N r
      | None => None
      end
  end.

(** Property names that are array indices: canonical decimal numbers
    below [2^32 - 1]. *)
Definition array_index (k : string) : option N :=
  match k with
  | EmptyString => None
  | String c r =>
      if Ascii.eqb c "0" && negb (bool_decide (r = EmptyString)) then None
      else match parse_digits 0 k with
           | Some n => if (n <? 4294967295)%N then Some n else None
           | None => None
           end
  end.

(** Stable insertion sort: [x] goes after every element [y] with
    [le y x]. *)
Fixpoint insert_by {A} (le : A -> A -> bool) (x : A) (l : list A) : list A :=
  match l with
  | [] => [x]
  | y :: r => if le y x then y :: insert_by le x r else x :: y :: r
  end.

Definition sort_by {A} (le : A -> A -> bool) (l : list A) : list A :=
  fold_left (fun acc x => insert_by le x acc) l [].

(** [Object.entries(counts)]: index-like names first, ascending, then
    the other names in creation order. *)
Definition entries (counts : list (string * nat)) : list (string * nat) :=
  let idx := omap (fun kv => match array_index (fst kv) with
                             | Some i => Some (i, kv)
                             | None => None
                             end) counts in
  let others := filter (fun kv => array_index (fst kv) = None) counts in
  map snd (sort_by (fun a b => (fst a <=? fst b)%N) idx) ++ others.

Fixpoint join_nl (l : list string) : string :=
  match l with
  | [] => EmptyString
  | [w] => w
  | w :: ws => w +:+ nl +:+ join_nl ws
  end.

Definition summary_text (team dateStr : string) (dataRows : list row) : string :=
  let header := "<b>Summary for " +:+ team +:+ " on " +:+ dateStr +:+ ":</b>" in
  let lines :=
    map (fun kv => "• <b>" +:+ fst kv +:+ ":</b> " +:+ show_nat (snd kv))
        (sort_by (fun a b => (snd b <=? snd a)%nat)
                 (entries (count_agents dataRows))) in
  join_nl (header :: lines).

Definition summary_usage : string :=
  "<b>Usage:</b> <code>/summary &lt;date|today|yesterday&gt; &lt;TeamName&gt;</code>".

Definition date_not_understood (rawDate : string) : string :=
  "Could not understand date " +:+ dq +:+ rawDate +:+ dq +:+ ".".

(** What follows the credential check: fetch, normalise, aggregate. *)
Definition summary_pipeline (chatId : Z) (team dateStr : string) (creds : Creds)
  : M unit :=
  replyBold ("Loading summary for " +:+ team +:+ " on " +:+ dateStr +:+ "…")
            NoMarkup ;;;
  let* fetched :=
    try_catch
      (State.loadCookies chatId ;;;
       let* rows := downloadFlyfoneReport chatId dateStr (email creds) (pass creds) in
       ret (inr rows))
      (fun err => ret (inl err)) in
  match fetched : Exn + list row with
  | inl err => replyBold ("Error fetching report: " +:+ message err) NoMarkup
  | inr rows =>
      let dataRows :=
        filter (fun r => default "" (toString_opt (or_empty (col r 6))) = team)
               (slice1 rows) in
      match dataRows with
      | [] => replyBold ("No calls found for team " +:+ dq +:+ team +:+ dq
                         +:+ " on " +:+ dateStr +:+ ".") NoMarkup
      | _ => reply_html (summary_text team dateStr dataRows) NoMarkup
      end
  end.

Definition cmd_summary_body (ctx : Ctx) : M unit :=
  match slice1 (split_ws (text ctx)) with
  | rawDate :: t1 :: ts =>
      let team := join_space (t1 :: ts) in
      match parseDateInput rawDate with
      | None => replyBold (date_not_understood rawDate) NoMarkup
      | Some dateObj =>
          let dateStr := dayjs_format dateObj in
          let chatId := chat_id ctx in
          let* creds := State.getFlyfoneCreds chatId in
          match creds with
          | None =>
              replyBold "You need to /fetch once (to log in) before using /summary."
                        NoMarkup
          | Some c => summary_pipeline chatId team dateStr c
          end
      end
  | _ => reply_html summary_usage NoMarkup
  end.

(** *** 5) Credential prompts *)

Definition on_text (ctx : Ctx) : M unit :=
  let chatId := chat_id ctx in
  let* s0 := State.getSession chatId in
  match s0 with
  | None => ret tt
  | Some sess =>
      if is_str (sess !! "step") "await_email" then
        State.saveSession chatId
          (<["step" := VStr "await_pass"]>
             (<["email" := VStr (trim (text ctx))]> sess)) ;;;
        replyBold "Enter your Flyfone password:" NoMarkup
      else if is_str (sess !! "step") "await_pass" then
        let pass := trim (text ctx) in
        let mail := display_val (sess !! "email") in
        try_catch
          (State.loadCookies chatId ;;;
           ensureLoggedIn chatId mail pass ;;;
           State.saveFlyfoneCreds chatId mail pass ;;;
           State.saveSession chatId (<["step" := VStr "await_mode"]> sess) ;;;
           reply_html "<b>Login successful! Now choose a mode:</b>" mode_kb)
          (fun _ =>
             State.saveSession chatId (<["step" := VStr "await_email"]> sess) ;;;
             replyBold "Credentials invalid, try your Flyfone email again:"
                       NoMarkup)
      else ret tt
  end.

(** *** Sheet mode: team, then overwrite or append *)

Definition team_body (ctx : Ctx) : M unit :=
  let chatId := chat_id ctx in
  let* p0 := State.getSession chatId in
  State.saveSession chatId
    (<["selectedTeam" := VStr (nth 0 (cmatch ctx) "")]> (default ∅ p0)) ;;;
  (* Ask overwrite vs append: *)
  editMessageText "<b>Do you want to overwrite existing data, or append?</b>"
    (Buttons [[("Overwrite", "sheetMode:overwrite");
               ("Append", "sheetMode:append")]]) true.

Definition sheet_header : row :=
  map CStr ["Caller"; "Team"; "Callee"; "Status"; "Duration (s)";
            "Talktime (s)"; "Hangup By"; "Call Date"; "Call Time";
            "End Time"].

(** [r => [r[5],r[6],r[7],r[8],r[9],r[10],r[11],r[1],r[2],r[3]]] *)
Definition sheet_row (r : row) : row :=
  [col r 5; col r 6; col r 7; col r 8; col r 9; col r 10; col r 11;
   col r 1; col r 2; col r 3].

(** [r[6]?.toString().toLowerCase() === selectedTeam] *)
Definition team_is (selectedTeam : option jsval) (r : row) : bool :=
  optstr_eq_val (toLowerCase <$> toString_opt (col r 6)) selectedTeam.

Definition sheet_output (filtered : list row) : list row :=
  sheet_header :: map sheet_row filtered.

Definition sheetMode_body (ctx : Ctx) : M unit :=
  let chatId := chat_id ctx in
  let mode := nth 0 (cmatch ctx) "" in      (* 'overwrite' or 'append' *)
  let* s0 := State.getSession chatId in
  match s0 with
  | None => throw destructure_null
  | Some sess =>
      let selectedTeam := sess !! "selectedTeam" in
      (* Filter & build output *)
      let* drows := data_rows (sess !! "rows") in
      let filtered := filter (fun r => team_is selectedTeam r = true) drows in
      let output := sheet_output filtered in
      let overwrite := bool_decide (mode = "overwrite") in
      try_catch
        (writeToSheet chatId (display_val (sess !! "sheetId")) output overwrite ;;;
         editMessageText
           ("<b>" +:+ (if overwrite then "Overwrote" else "Appended") +:+ " "
            +:+ show_nat (length filtered) +:+ " rows for team “"
            +:+ display_val selectedTeam +:+ "” on "
            +:+ display_val (sess !! "dateStr") +:+ "</b>") NoMarkup true)
        (fun err =>
           editMessageText ("❌ Write failed: " +:+ message err) NoMarkup false)
  end.

(** *** Registration *)

(** The updates the bot registers a handler for, as grammY routes
    them. *)
Inductive Update : Type :=
| CmdStart | CmdMode | CmdLogout | CmdSheet | CmdFetch
| CmdTeam | CmdAgent | CmdSummary
| CbLinkSheetYes | CbLinkSheetNo
| CbChatTeam | CbChatAgent | CbTeam | CbSheetMode
| CalendarPick | TextMessage.

Definition handler (u : Update) : Ctx -> M unit :=
  match u with
  | CmdStart => cmd_start
  | CbLinkSheetYes => cb_linkSheet_yes
  | CbLinkSheetNo => cb_linkSheet_no
  | CmdMode => cmd_mode
  | CmdLogout => cmd_logout
  | CmdSheet => cmd_sheet
  | CmdFetch => cmd_fetch
  | CalendarPick => on_calendar
  | CbChatTeam => withSessionGuard chat_team_body
  | CbChatAgent => withSessionGuard chat_agent_body
  | CmdTeam => withSessionGuard cmd_team_body
  | CmdAgent => withSessionGuard cmd_agent_body
  | CmdSummary => withSessionGuard cmd_summary_body
  | TextMessage => on_text
  | CbTeam => withSessionGuard team_body
  | CbSheetMode => withSessionGuard sheetMode_body
  end.

(** One update handled; what a handler throws ends in [bot.catch]. *)
Definition handle (uc : Update * Ctx) (w : World) : World :=
  snd (handler (fst uc) (snd uc) w).

Definition handle_all (ucs : list (Update * Ctx)) (w : World) : World :=
  fold_left (fun w uc => handle uc w) ucs w.

End WithEnv.

End Bot.

(* ===================================================================== *)
(** ** A small portal to run the handlers against *)
(* ===================================================================== *)

Module Demo.

Import Bot.

Definition login_html : string :=
  "<form><input type=hidden " +:+ csrf_marker +:+ "tok123" +:+ dq +:+ "></form>".

Definition has_session (j : Jar) : bool :=
  bool_decide (("session", "ok") ∈ j).

Definition param (k : string) (ps : list (string * string)) : string :=
  default "" (snd <$> List.find (fun kv => bool_decide (fst kv = k)) ps).

(** The dashboard answers 200 with the session cookie and redirects
    without; a login with password [secret] sets the cookie. *)
Definition demo_portal (_ : list Request) (j : Jar) (rq : Request)
  : HttpResult * Jar :=
  match meth rq with
  | GET =>
      if bool_decide (path rq = "/dashboard") then
        if has_session j then (Response 200 "dashboard", j)
        else (Response 302 "", j)
      else if bool_decide (path rq = "/login") then (Response 200 login_html, j)
      else if bool_decide (path rq = "/api/export/voice") then
        (Response 200 (param "from_date" (params rq)), j)
      else (Response 404 "", j)
  | POST =>
      if bool_decide (param "password" (params rq) = "secret")
      then (Response 302 "", ("session", "ok") :: j)
      else (Response 200 "The email or password is incorrect", j)
  end.

Definition title_row : row :=
  map CStr ["Phone"; "Date"; "Start"; "End"; "Line"; "Agent"; "Team";
            "Callee"; "Status"; "Duration"; "Talktime"; "Hangup"].

Definition call (phone agent team status : string) (dur : Z) : row :=
  [CStr phone; CStr "2025-07-01"; CStr "09:00:00"; CStr "09:01:00"; CUndef;
   CStr agent; CStr team; CStr "0900000001"; CStr status; CNum dur;
   CNum dur; CStr "agent"].

Definition demo_rows : list row :=
  [title_row;
   call "1001" "Jane Doe" "Sales" "ANSWER" 60;
   call "1002" "Jan Lee" "Sales" "BUSY" 0;
   call "1001" "Jane Doe" "Sales" "CANCEL" 0;
   call "1003" "Bo Ek" "Support" "ANSWER" 30].

(** The calendar of the demo: JavaScript dates with the clock on UTC. *)

(** Days from 1 January 1970 to 1 January of year [y]. *)
Definition day_from_year (y : Z) : Z :=
  365 * (y - 1970) + (y - 1969) / 4 - (y - 1901) / 100 + (y - 1601) / 400.

Definition leap (y : Z) : bool :=
  (y mod 4 =? 0) && (negb (y mod 100 =? 0) || (y mod 400 =? 0)).

(** The lengths of the twelve months of year [y]. *)
Definition month_lengths (y : Z) : list Z :=
  [31; if leap y then 29 else 28; 31; 30; 31; 30; 31; 31; 30; 31; 30; 31].

Definition sum_Z (l : list Z) : Z := fold_right Z.add 0 l.

(** [new Date(y, m, d)]: a year from 0 to 99 stands for 1900 and later,
    the month index is carried into the year, and the day is counted on
    from the first of the month, past its end or before its start. *)
Definition utc_date (y m d : Z) : Z :=
  let yr := if (0 <=? y) && (y <=? 99) then 1900 + y else y in
  let ym := yr + m / 12 in
  let mn := m mod 12 in
  (day_from_year ym + sum_Z (take (Z.to_nat mn) (month_lengths ym)) + d - 1)
  * 86400000.

(** The month index and the day of month of day [n] of a year, counted
    from 0, given the lengths of the months left. *)
Fixpoint month_and_day (lens : list Z) (mn n : Z) : Z * Z :=
  match lens with
  | [] => (mn, n + 1)
  | len :: rest =>
      if n <? len then (mn, n + 1) else month_and_day rest (mn + 1) (n - len)
  end.

(** The year of day number [day], looked for upwards from [y], a year
    not after it. *)
Fixpoint year_of (fuel : nat) (y day : Z) : Z :=
  match fuel with
  | O => y
  | S fuel' =>
      if day_from_year (y + 1) <=? day then year_of fuel' (y + 1) day else y
  end.

Definition pad2 (n : Z) : string :=
  if n <? 10 then "0" +:+ num_to_string n else num_to_string n.

Definition pad4 (n : Z) : string :=
  if n <? 10 then "000" +:+ num_to_string n
  else if n <? 100 then "00" +:+ num_to_string n
  else if n <? 1000 then "0" +:+ num_to_string n
  else num_to_string n.

(** [format('YYYY-MM-DD')] of a time, for the years from 0 on. *)
Definition utc_format (t : Z) : string :=
  let day := t / 86400000 in
  let y := year_of 40 (1970 + Z.min (day / 365) (day / 366) - 1) day in
  let '(mn, dd) := month_and_day (month_lengths y) 0 (day - day_from_year y) in
  pad4 y +:+ "-" +:+ pad2 (mn + 1) +:+ "-" +:+ pad2 dd.

#[export] Instance demo_env : Env := {|
  Date_now := 1751414400000;
  dayjs_parse := fun _ => None;
  Date_local := utc_date;
  dayjs_format := utc_format;
  chrono_parse := fun txt =>
    if bool_decide (txt = "july 1") then [Some 1751328000000] else [];
  portal := demo_portal;
  XLSX_read := fun _ => inr demo_rows;
  sheets_api := fun tok _ _ =>
    match tok with
    | Some _ => None
    | None => Some (Error "No refresh token is set.")
    end;
  dayjs_yesterday := 1751328000000;
  generateAuthUrl := fun _ => "https://accounts.google.com/o/oauth2/v2/auth"
|}.

Definition ctx0 (chat : Z) : Ctx :=
  {| chat_id := chat; text := ""; cmatch := []; calendarSelectedDate := None |}.

Definition say (chat : Z) (t : string) : Ctx :=
  {| chat_id := chat; text := t; cmatch := []; calendarSelectedDate := None |}.

Definition press (chat : Z) (groups : list string) : Ctx :=
  {| chat_id := chat; text := ""; cmatch := groups;
     calendarSelectedDate := None |}.

Definition pick (chat : Z) (d : Z) : Ctx :=
  {| chat_id := chat; text := ""; cmatch := [];
     calendarSelectedDate := Some d |}.

(** A chat that has logged in: credentials stored, nothing else. *)
Definition creds_only : Store :=
  {| flyfone_creds := {[ 7 := {| email := "a@b.c"; pass := "secret" |} ]};
     user_tokens := ∅; sessions := ∅; sheet_map := ∅; cookies := ∅ |}.

(** The same chat with a linked sheet and no session row. *)
Definition creds_and_sheet : Store :=
  {| flyfone_creds := {[ 7 := {| email := "a@b.c"; pass := "secret" |} ]};
     user_tokens := {[ 7 := "1//token" ]}; sessions := ∅;
     sheet_map := {[ 7 := "sheet123" ]}; cookies := ∅ |}.

(** The same chat in the middle of linking a sheet. *)
Definition creds_and_session : Store :=
  {| flyfone_creds := {[ 7 := {| email := "a@b.c"; pass := "secret" |} ]};
     user_tokens := ∅;
     sessions := {[ 7 := {[ "step" := VStr "await_sheet_url" ]} ]};
     sheet_map := ∅; cookies := ∅ |}.

(** The same chat in sheet mode, with the export fetched and the team
    chosen. *)
Definition sheet_ready : Store :=
  {| flyfone_creds := {[ 7 := {| email := "a@b.c"; pass := "secret" |} ]};
     user_tokens := {[ 7 := "1//token" ]};
     sessions :=
       {[ 7 := <["selectedTeam" := VStr "sales"]>
                 (<["sheetId" := VStr "sheet123"]>
                    (<["dateStr" := VStr "2025-07-01"]>
                       (<["rows" := VRows (json_rows demo_rows)]>
                          (<["mode" := VStr "sheet"]>
                             {[ "connectSheet" := VBool true ]})))) ]};
     sheet_map := {[ 7 := "sheet123" ]}; cookies := ∅ |}.

(** Log in, choose chat mode, fetch, pick a date. *)
Definition chat_script : list (Update * Ctx) :=
  [(CmdStart, ctx0 7); (TextMessage, say 7 "a@b.c");
   (TextMessage, say 7 " secret "); (CbLinkSheetNo, ctx0 7);
   (CmdFetch, ctx0 7); (CalendarPick, pick 7 1751328000000)].

End Demo.

(* ===================================================================== *)
(** ** The vocabulary of the properties *)
(* ===================================================================== *)

(** The distance the loop scores a candidate with. *)
Definition dist (input a : string) : nat := levenshtein (toLowerCase a) input.

(** The count a slot holds; a text holds none. *)
Definition slot_count (v : Bot.slot) : nat :=
  match v with
  | Bot.Count n => n
  | Bot.Text _ => 0
  end.

(** The sum of the counts over every status key of the accumulator. *)
Definition sum_counts (m : gmap string Bot.slot) : nat :=
  map_fold (fun _ v acc => (slot_count v + acc)%nat) 0%nat m.

(** What the reduce keeps true of its accumulator: nothing is stored under
    [__proto__], the name of an inherited function holds a text and every
    other name a count. *)
Definition tidy (acc : gmap string Bot.slot) : Prop :=
  forall k v, acc !! k = Some v ->
    k <> "__proto__"
    /\ (k ∈ Bot.proto_functions -> exists s, v = Bot.Text s /\ s <> "")
    /\ (k ∉ Bot.proto_functions -> exists n, v = Bot.Count n).

(** The records whose status names a member that [{}] inherits. *)
Definition odd_status (filtered : list row) : list row :=
  filter (fun r => Bot.status_key r ∈ Bot.inherited) filtered.

(** What [getSession] returns in a world. *)
Definition session_of (w : World) (chatId : Z) : option session :=
  json_session <$> sessions (store w) !! chatId.

(** The session table of a world. *)
Definition sess_table (w : World) : gmap Z session := sessions (store w).

(** A property [P] of one component [proj] of the world. *)
Definition inv {X : Type} (proj : World -> X) (P : X -> Prop) (w : World) : Prop :=
  P (proj w).

(** [m] keeps [P (proj w)], and a value it returns satisfies [V]. *)
Definition triple {X : Type} (proj : World -> X) (P : X -> Prop) {A}
    (m : M A) (V : A -> Prop) : Prop :=
  forall w, inv proj P w ->
    inv proj P (snd (m w)) /\ forall a, fst (m w) = Ok a -> V a.

(** [m] does not write the component [proj]. *)
Definition keeps {X : Type} (proj : World -> X) {A} (m : M A) : Prop :=
  forall w, proj (snd (m w)) = proj w.

(** A session has [rows] exactly when it has [dateStr]. *)
Definition parity (s : session) : Prop :=
  is_Some (s !! "rows") <-> is_Some (s !! "dateStr").

(** Every stored session has [rows] exactly when it has [dateStr]. *)
Definition all_parity (t : gmap Z session) : Prop :=
  forall c s, t !! c = Some s -> parity s.

(** The world with its session table replaced. *)
Definition set_sess (t : gmap Z session) (w : World) : World :=
  {| store := {| flyfone_creds := flyfone_creds (store w);
                 user_tokens := user_tokens (store w);
                 sessions := t;
                 sheet_map := sheet_map (store w);
                 cookies := cookies (store w) |};
     jar := jar w; outbox := outbox w; http := http w; gsheets := gsheets w;
     calendarDefault := calendarDefault w |}.

(** [m] neither reads nor writes the session table: run on another table
    it gives the same result and leaves that table as it was. *)
Definition indep {A} (m : M A) : Prop :=
  forall t w, m (set_sess t w) = (fst (m w), set_sess t (snd (m w))).

(** The world with one chat's session replaced. *)
Definition with_session (w : World) (c : Z) (s : session) : World :=
  set_sess (<[c := s]> (sess_table w)) w.

(** The request of step 1 of [ensureLoggedIn]. *)
Definition probe_rq : Request :=
  {| meth := GET; path := "/dashboard"; params := []; follow := false |}.

(** The cookie session is valid: the dashboard answers the probe with 200. *)
Definition probe_ok `{E : Env} (w : World) : bool :=
  match fst (portal (http w) (jar w) probe_rq) with
  | Response st _ => st =? 200
  | NetFail _ => false
  end.

(** [rq] is a POST to the login form. *)
Definition is_login_post (rq : Request) : bool :=
  match meth rq with
  | POST => bool_decide (path rq = "/login")
  | GET => false
  end.

(** The login POSTs among the requests sent so far. *)
Definition login_posts (w : World) : nat :=
  length (List.filter is_login_post (http w)).

(** The world after a first [ensureLoggedIn] against the demo portal. *)
Definition logged_in_world : World :=
  snd (Bot.ensureLoggedIn (E := Demo.demo_env) 7 "a@b.c" "secret"
         (init_world empty_store)).

(** None of the four ways of reading a date applies to [input]. *)
Definition unparseable `{E : Env} (input : string) : Prop :=
  let txt := toLowerCase (trim input) in
  txt <> "today" /\ txt <> "yesterday" /\ Bot.dayjs_any txt = None
  /\ match chrono_parse txt with
     | [] => True
     | r :: _ => r = None
     end.

(** The reply to a date that could not be read. *)
Definition date_error_reply (rawDate : string) : Out :=
  {| okind := Reply;
     otext := "<b>" +:+ ("Could not understand date " +:+ dq +:+ rawDate
                        +:+ dq +:+ ".") +:+ "</b>";
     omarkup := NoMarkup; ohtml := true |}.

(** The position of the first occurrence of [x] in [l]. *)
Fixpoint first_pos {A} `{EqDecision A} (x : A) (l : list A) : nat :=
  match l with
  | [] => 0
  | y :: r => if decide (x = y) then 0 else S (first_pos x r)
  end.

(** The first reply of the /summary pipeline. *)
Definition loading_reply (team dateStr : string) : Out :=
  {| okind := Reply;
     otext := "<b>" +:+ ("Loading summary for " +:+ team +:+ " on " +:+ dateStr
                        +:+ "…") +:+ "</b>";
     omarkup := NoMarkup; ohtml := true |}.

(** The handlers registered through [withSessionGuard]. *)
Definition guarded (u : Bot.Update) : bool :=
  match u with
  | Bot.CbChatTeam | Bot.CbChatAgent | Bot.CbTeam | Bot.CbSheetMode
  | Bot.CmdTeam | Bot.CmdAgent | Bot.CmdSummary => true
  | _ => false
  end.

(** The data row as the specification words it: the caller taken from raw
    column 0.  To be compared with [Bot.sheet_row], which follows the code. *)
Definition claimed_row (r : row) : row :=
  [col r 0; col r 6; col r 7; col r 8; col r 9; col r 10; col r 11;
   col r 1; col r 2; col r 3].

(** The values a call to the Sheets API carries, if any. *)
Definition values_of (c : SheetsCall) : option (list row) :=
  match c with
  | ValuesClear _ _ => None
  | ValuesUpdate _ _ vs | ValuesAppend _ _ vs => Some vs
  end.

(** The rows of the chosen team in the export held by session [s]. *)
Definition chosen_rows (s : session) (rs : list row) : list row :=
  filter (fun r => Bot.team_is (s !! "selectedTeam") r = true) (slice1 rs).

(** [vs] is the header followed by the mapped rows of the chosen team of
    the export held by the session of [chatId] in [w]. *)
Definition written_from (w : World) (chatId : Z) (vs : list row) : Prop :=
  exists s rs,
    session_of w chatId = Some s
    /\ s !! "rows" = Some (VRows rs)
    /\ vs = Bot.sheet_header :: map Bot.sheet_row (chosen_rows s rs).



(** Every character of [s] satisfies [p]. *)
Fixpoint all_chars (p : ascii -> bool) (s : string) : bool :=
  match s with
  | EmptyString => true
  | String c r => p c && all_chars p r
  end.

(** The request of step 2 of [ensureLoggedIn]. *)
Definition login_page_rq : Request :=
  {| meth := GET; path := "/login"; params := []; follow := true |}.

(** The request of step 3 of [ensureLoggedIn]. *)
Definition login_post_rq (csrf email password : string) : Request :=
  {| meth := POST; path := "/login";
     params := [("csrf_webcall", csrf); ("username", email);
                ("password", password)];
     follow := false |}.

(** The export request of [downloadFlyfoneReport] for one day. *)
Definition export_rq (dateStr : string) : Request :=
  {| meth := GET; path := "/api/export/voice";
     params := [("from_date", dateStr); ("to_date", dateStr);
                ("phone", ""); ("status", "0");
                ("autodial_id", ""); ("team_id", "0")];
     follow := true |}.

(** The login form accepted [email] and [password]: the probe was refused,
    the login page came with a token, and the POST of the token and the
    pair was answered by 302, 303 or 200, and not by a 200 page that says
    the password is incorrect. *)
Definition post_accepted `{E : Env} (email password : string) (w : World) : Prop :=
  exists res1 j1 body j2 csrf st body2 j3,
    portal (http w) (jar w) probe_rq = (res1, j1)
    /\ probe_ok w = false
    /\ portal (http w ++ [probe_rq])%list j1 login_page_rq = (Response 200 body, j2)
    /\ Bot.csrf_match body = Some csrf
    /\ portal ((http w ++ [probe_rq]) ++ [login_page_rq])%list j2
              (login_post_rq csrf email password)
       = (Response st body2, j3)
    /\ (st = 302 \/ st = 303 \/ st = 200)
    /\ (st =? 200) && includes body2 "password is incorrect" = false.

(** The demo chat after /start and the email: the password is awaited. *)
Definition await_pass_world : World :=
  Bot.handle_all (E := Demo.demo_env)
    [(Bot.CmdStart, Demo.ctx0 7); (Bot.TextMessage, Demo.say 7 "a@b.c")]
    (init_world empty_store).

(** The five tables without the rows of chat [c]. *)
Definition other_chats (c : Z) (w : World)
  : gmap Z Creds * gmap Z string * gmap Z session * gmap Z string * gmap Z Jar :=
  (delete c (flyfone_creds (store w)), delete c (user_tokens (store w)),
   delete c (sessions (store w)), delete c (sheet_map (store w)),
   delete c (cookies (store w))).

(* ===================================================================== *)
(** * Properties *)
(* ===================================================================== *)

(** ** Strings *)

Section StringFacts.

Lemma startsWith_app (p s : string) :
  startsWith p s = true <-> exists rest, s = p +:+ rest.
Proof.
  revert s; induction p as [|a p IH]; intros s; simpl.
  - split; [intros _; exists s; reflexivity | reflexivity].
  - destruct s as [|b s].
    + split; [discriminate | intros [rest H]; discriminate].
    + destruct (Ascii.eqb_spec a b) as [->|Hne].
      * rewrite IH. split; intros [rest H]; exists rest.
        -- simpl; now rewrite H.
        -- simpl in H; now inversion H.
      * split; [discriminate|]. intros [rest H]. simpl in H.
        inversion H; congruence.
Qed.

(** [includes] is substring containment. *)
Lemma includes_spec (s sub : string) :
  includes s sub = true <-> exists pre post, s = pre +:+ sub +:+ post.
Proof.
  induction s as [|c s IH].
  - simpl. rewrite orb_false_r, startsWith_app. split.
    + intros [rest H]. exists EmptyString, rest. exact H.
    + intros [pre [post H]]. destruct pre; [|discriminate].
      exists post. exact H.
  - cbn [includes]. rewrite orb_true_iff, startsWith_app, IH. split.
    + intros [[rest H]|[pre [post H]]].
      * exists EmptyString, rest. exact H.
      * exists (String c pre), post. simpl. now rewrite H.
    + intros [pre [post H]]. destruct pre as [|c' pre].
      * left. exists post. exact H.
      * right. exists pre, post. simpl in H. now inversion H.
Qed.

Lemma includes_empty_l (sub : string) :
  includes EmptyString sub = true -> sub = EmptyString.
Proof. destruct sub; simpl; [reflexivity | discriminate]. Qed.

Lemma levenshtein_empty_l (t : string) :
  levenshtein EmptyString t = String.length t.
Proof. reflexivity. Qed.

(** Equal strings are at distance zero. *)
Lemma levenshtein_refl (s : string) : levenshtein s s = 0%nat.
Proof.
  induction s as [|a s IH]; [reflexivity|].
  cbn [levenshtein]. rewrite IH, Ascii.eqb_refl. unfold min3.
  rewrite Nat.add_0_r. lia.
Qed.

(** Emptying a string costs its length. *)
Lemma levenshtein_empty_r (s : string) :
  levenshtein s EmptyString = String.length s.
Proof. destruct s; reflexivity. Qed.

End StringFacts.

(** ** The fuzzy agent lookup *)

Module MatchFacts.

Import Match.

(** From a running best, the loop ends on a best that is the old one or
    a later candidate, with the least score seen. *)
Lemma best_fold (input : string) (l : list string) :
  forall b sc,
    exists b' sc',
      fold_left (best_step input) l (Some b, Some sc) = (Some b', Some sc')
      /\ (sc' <= sc)%nat
      /\ Forall (fun a => (sc' <= dist input a)%nat) l
      /\ ((b' = b /\ sc' = sc) \/ (In b' l /\ sc' = dist input b')).
Proof.
  induction l as [|a l IH]; intros b sc; simpl.
  - exists b, sc. repeat split; auto.
  - unfold best_step at 2. simpl.
    destruct (Nat.ltb_spec (levenshtein (toLowerCase a) input) sc) as [Hlt|Hge].
    + destruct (IH a (levenshtein (toLowerCase a) input))
        as (b' & sc' & Hf & Hle & Hall & Hor).
      exists b', sc'. split; [exact Hf|]. split; [lia|]. split.
      * constructor; [exact Hle | exact Hall].
      * right. destruct Hor as [[-> ->]|[Hin ->]]; auto.
    + destruct (IH b sc) as (b' & sc' & Hf & Hle & Hall & Hor).
      exists b', sc'. split; [exact Hf|]. split; [exact Hle|]. split.
      * constructor; [unfold dist; lia | exact Hall].
      * destruct Hor as [[-> ->]|[Hin ->]]; auto.
Qed.

(** On a non-empty list the loop ends on a candidate of least distance. *)
Lemma best_loop_min (input a : string) (l : list string) :
  exists best score,
    best_loop (a :: l) input = (Some best, Some score)
    /\ In best (a :: l)
    /\ score = dist input best
    /\ Forall (fun c => (score <= dist input c)%nat) (a :: l).
Proof.
  unfold best_loop. simpl. unfold best_step at 2. simpl.
  destruct (best_fold input l a (levenshtein (toLowerCase a) input))
    as (b' & sc' & Hf & Hle & Hall & Hor).
  exists b', sc'. split; [exact Hf|].
  destruct Hor as [[-> ->]|[Hin ->]].
  - split; [now left|]. split; [reflexivity|].
    constructor; [unfold dist; lia | exact Hall].
  - split; [now right|]. split; [reflexivity|].
    constructor; [exact Hle | exact Hall].
Qed.

(** What [find] returns is the first candidate containing the query. *)
Lemma substringMatch_spec (agents : list string) (input : string) :
  match substringMatch agents input with
  | Some s => In s agents /\ includes (toLowerCase s) input = true
  | None => Forall (fun a => includes (toLowerCase a) input = false) agents
  end.
Proof.
  unfold substringMatch.
  destruct (List.find _ agents) as [s|] eqn:Hf.
  - apply find_some in Hf. exact Hf.
  - apply List.Forall_forall. intros a Ha.
    exact (find_none _ _ Hf a Ha).
Qed.

End MatchFacts.

(** C4: for every candidate list and query, the loop tracks the least
    Levenshtein distance between the query and the lowercased candidates,
    [find] independently picks a candidate whose lowercased text contains
    the query, and the result is the edit-distance best when its distance is
    at most 2 and the substring match otherwise (the best again when nothing
    contains the query); an empty list gives [null]; and [jane] against
    [Jane Doe], [Jan Lee] gives [Jane Doe]. *)
Theorem bestAgentMatch_resolution (agents : list string) (input : string) :
  (match agents with
   | [] => Match.bestAgentMatch agents input = None
   | _ :: _ =>
       exists best score,
         Match.best_loop agents input = (Some best, Some score)
         /\ In best agents
         /\ score = dist input best
         /\ Forall (fun c => (score <= dist input c)%nat) agents
         /\ match Match.substringMatch agents input with
            | Some s => In s agents /\ includes (toLowerCase s) input = true
            | None =>
                Forall (fun a => includes (toLowerCase a) input = false) agents
            end
         /\ Match.bestAgentMatch agents input =
              if (score <=? 2)%nat then Some best
              else match Match.substringMatch agents input with
                   | Some s => Some s
                   | None => Some best
                   end
   end)
  /\ Match.bestAgentMatch ["Jane Doe"; "Jan Lee"] "jane" = Some "Jane Doe".
Proof.
  split; [|reflexivity].
  destruct agents as [|a l]; [reflexivity|].
  destruct (MatchFacts.best_loop_min input a l) as (best & score & Hl & Hin & Hsc & Hall).
  exists best, score.
  pose proof (MatchFacts.substringMatch_spec (a :: l) input) as Hsub.
  repeat (split; [assumption|]).
  unfold Match.bestAgentMatch. rewrite Hl.
  destruct (Match.substringMatch (a :: l) input) as [[|c s]|] eqn:Hs; simpl.
  - (* the empty candidate contains only the empty query *)
    destruct Hsub as [Hin0 Hinc]. simpl in Hinc.
    apply includes_empty_l in Hinc. subst input.
    rewrite List.Forall_forall in Hall. specialize (Hall _ Hin0).
    unfold dist in Hall. simpl in Hall.
    destruct (Nat.leb_spec score 2); [reflexivity | lia].
  - destruct (Nat.ltb_spec 2 score), (Nat.leb_spec score 2); try lia; reflexivity.
  - destruct (score <=? 2)%nat; reflexivity.
Qed.

(** ** Counting by status *)

Module CountFacts.

Import Bot.

Lemma sum_counts_insert_fresh (m : gmap string slot) (k : string) (v : slot) :
  m !! k = None -> sum_counts (<[k := v]> m) = (slot_count v + sum_counts m)%nat.
Proof.
  intros Hk. unfold sum_counts.
  apply (map_fold_insert_L (fun _ v acc => (slot_count v + acc)%nat)); [|exact Hk].
  intros; lia.
Qed.

Lemma sum_counts_lookup (m : gmap string slot) (k : string) (v : slot) :
  m !! k = Some v -> sum_counts m = (slot_count v + sum_counts (delete k m))%nat.
Proof.
  intros Hk. unfold sum_counts.
  apply (map_fold_delete_L (fun _ v acc => (slot_count v + acc)%nat)); [|exact Hk].
  intros; lia.
Qed.

(** Writing a property: its old count goes, the new one comes. *)
Lemma sum_counts_insert (m : gmap string slot) (k : string) (v : slot) :
  (sum_counts (<[k := v]> m) + from_option slot_count 0 (m !! k))%nat
  = (slot_count v + sum_counts m)%nat.
Proof.
  destruct (m !! k) as [v0|] eqn:Hk; simpl.
  - rewrite <- insert_delete_eq.
    rewrite sum_counts_insert_fresh by apply lookup_delete_eq.
    rewrite (sum_counts_lookup m k v0 Hk). lia.
  - rewrite sum_counts_insert_fresh by exact Hk. lia.
Qed.

Lemma append_nonempty (s t : string) : t <> "" -> s +:+ t <> "".
Proof. destruct s; simpl; [auto | discriminate]. Qed.

Lemma native_text_nonempty (k : string) : native_text k +:+ "1" <> "".
Proof. unfold native_text. simpl. discriminate. Qed.

Lemma tidy_empty : tidy ∅.
Proof. intros k v H. rewrite lookup_empty in H. discriminate. Qed.

(** What is computed for a name is of the kind the name calls for. *)
Lemma next_slot_kind (acc : gmap string slot) (st : string) :
  tidy acc -> st <> "__proto__" ->
  (st ∈ proto_functions -> exists s, next_slot acc st = Text s /\ s <> "")
  /\ (st ∉ proto_functions -> exists n, next_slot acc st = Count n).
Proof.
  intros Hacc Hst. unfold next_slot.
  destruct (acc !! st) as [v|] eqn:Hv.
  - destruct (Hacc st v Hv) as (_ & Hf & Hn). split; intros Hin.
    + destruct (Hf Hin) as (s & -> & Hs). destruct s as [|c s]; [congruence|].
      eexists. split; [reflexivity|]. simpl. discriminate.
    + destruct (Hn Hin) as (n & ->). eauto.
  - split; intros Hin.
    + rewrite bool_decide_eq_true_2 by exact Hin.
      eexists. split; [reflexivity | apply native_text_nonempty].
    + rewrite bool_decide_eq_false_2 by exact Hin.
      rewrite bool_decide_eq_false_2 by exact Hst. eauto.
Qed.

Lemma tidy_step (acc : gmap string slot) (r : row) :
  tidy acc -> tidy (count_step acc r).
Proof.
  intros Hacc. unfold count_step. case_bool_decide as Hp; [exact Hacc|].
  intros k v Hk. destruct (decide (k = status_key r)) as [->|Hne].
  - rewrite lookup_insert_eq in Hk. injection Hk as <-.
    split; [exact Hp|]. apply next_slot_kind; assumption.
  - rewrite lookup_insert_ne in Hk by congruence. exact (Hacc k v Hk).
Qed.

Lemma tidy_fold (l : list row) :
  forall acc, tidy acc -> tidy (fold_left count_step l acc).
Proof.
  induction l as [|r l IH]; intros acc Hacc; simpl; [exact Hacc|].
  apply IH, tidy_step, Hacc.
Qed.

(** One more record: the total of the counts grows by one, unless the
    status names an inherited member. *)
Lemma sum_counts_step (acc : gmap string slot) (r : row) :
  tidy acc ->
  sum_counts (count_step acc r)
  = (sum_counts acc + if bool_decide (status_key r ∈ inherited) then 0 else 1)%nat.
Proof.
  intros Hacc. unfold count_step, inherited.
  case_bool_decide as Hp.
  - rewrite bool_decide_eq_true_2 by (rewrite Hp; apply list_elem_of_here). lia.
  - pose proof (sum_counts_insert acc (status_key r)
                  (next_slot acc (status_key r))) as Hsum.
    destruct (next_slot_kind acc (status_key r) Hacc Hp) as [Hf Hn].
    destruct (decide (status_key r ∈ proto_functions)) as [Hin|Hin].
    + rewrite bool_decide_eq_true_2 by (apply list_elem_of_further, Hin).
      destruct (Hf Hin) as (s & Hs & _). rewrite Hs in *. simpl in Hsum.
      destruct (acc !! status_key r) as [v|] eqn:Hv; simpl in Hsum; [|lia].
      destruct (Hacc _ v Hv) as (_ & Hf' & _).
      destruct (Hf' Hin) as (s' & -> & _). simpl in Hsum. lia.
    + rewrite bool_decide_eq_false_2
        by (rewrite elem_of_cons; intros [?|?]; [congruence | contradiction]).
      unfold next_slot in *.
      destruct (acc !! status_key r) as [v|] eqn:Hv; simpl in Hsum.
      * destruct (Hacc _ v Hv) as (_ & _ & Hn').
        destruct (Hn' Hin) as (n & ->). simpl in *. lia.
      * rewrite bool_decide_eq_false_2 in Hsum |- * by exact Hin.
        rewrite bool_decide_eq_false_2 in Hsum |- * by exact Hp.
        simpl in *. lia.
Qed.

Lemma sum_counts_fold (l : list row) :
  forall acc, tidy acc ->
    (sum_counts (fold_left count_step l acc) + length (odd_status l))%nat
    = (sum_counts acc + length l)%nat.
Proof.
  unfold odd_status.
  induction l as [|r l IH]; intros acc Hacc; simpl; [lia|].
  specialize (IH _ (tidy_step acc r Hacc)).
  rewrite sum_counts_step in IH by exact Hacc. rewrite filter_cons.
  destruct (decide (status_key r ∈ inherited)) as [Hin|Hin].
  - rewrite bool_decide_eq_true_2 in IH by exact Hin. simpl. lia.
  - rewrite bool_decide_eq_false_2 in IH by exact Hin. lia.
Qed.

(** One more record: its own bucket grows by one, the others stay. *)
Lemma count_of_step (acc : gmap string slot) (r : row) (k : string) (n : nat) :
  tidy acc -> k ∉ inherited -> count_of acc k = Count n ->
  count_of (count_step acc r) k
  = Count (n + if bool_decide (status_key r = k) then 1 else 0).
Proof.
  intros Hacc Hk Hn.
  assert (Hp : k <> "__proto__")
    by (intros ->; apply Hk, list_elem_of_here).
  assert (Hf : k ∉ proto_functions)
    by (intros H; apply Hk, list_elem_of_further, H).
  unfold count_step. case_bool_decide as Hst.
  - rewrite bool_decide_eq_false_2 by congruence.
    rewrite Hn. f_equal. lia.
  - case_bool_decide as Hkey.
    + subst k. unfold count_of in *. rewrite lookup_insert_eq.
      unfold next_slot.
      destruct (acc !! status_key r) as [v|] eqn:Hv.
      * destruct (Hacc _ v Hv) as (_ & _ & Hc). destruct (Hc Hf) as (m & ->).
        injection Hn as ->. f_equal. lia.
      * rewrite bool_decide_eq_false_2 in Hn |- * by exact Hf.
        rewrite bool_decide_eq_false_2 in Hn |- * by exact Hp.
        injection Hn as <-. reflexivity.
    + unfold count_of in *. rewrite lookup_insert_ne by exact Hkey.
      rewrite Hn. f_equal. lia.
Qed.

Lemma count_of_fold (k : string) (l : list row) :
  k ∉ inherited ->
  forall acc n, tidy acc -> count_of acc k = Count n ->
    count_of (fold_left count_step l acc) k
    = Count (n + length (filter (fun r => status_key r = k) l)).
Proof.
  intros Hk. induction l as [|r l IH]; intros acc n Hacc Hn; simpl.
  - rewrite Hn. f_equal. lia.
  - rewrite (IH _ _ (tidy_step acc r Hacc) (count_of_step acc r k n Hacc Hk Hn)).
    rewrite filter_cons. f_equal.
    case_bool_decide as Hkey.
    + rewrite decide_True by exact Hkey. simpl. lia.
    + rewrite decide_False by exact Hkey. lia.
Qed.

Lemma count_of_empty (k : string) : k ∉ inherited -> count_of ∅ k = Count 0.
Proof.
  intros Hk. unfold count_of. rewrite lookup_empty.
  rewrite bool_decide_eq_false_2
    by (intros H; apply Hk, list_elem_of_further, H).
  rewrite bool_decide_eq_false_2
    by (intros ->; apply Hk, list_elem_of_here).
  reflexivity.
Qed.

(** A property once written stays. *)
Lemma bucket_stays (l : list row) (k : string) :
  forall acc, is_Some (acc !! k) -> is_Some (fold_left count_step l acc !! k).
Proof.
  induction l as [|r l IH]; intros acc Hk; simpl; [exact Hk|].
  apply IH. unfold count_step. case_bool_decide; [exact Hk|].
  destruct (decide (status_key r = k)) as [->|Hne].
  - rewrite lookup_insert_eq. eauto.
  - rewrite lookup_insert_ne by exact Hne. exact Hk.
Qed.

(** A status other than [__proto__] that occurs has a property. *)
Lemma bucket_written (l : list row) (k : string) :
  k <> "__proto__" -> k ∈ map status_key l ->
  forall acc, is_Some (fold_left count_step l acc !! k).
Proof.
  intros Hp. induction l as [|r l IH]; intros Hin acc; simpl in *.
  - inversion Hin.
  - destruct (decide (status_key r = k)) as [Hk|Hk].
    + apply bucket_stays. unfold count_step.
      rewrite bool_decide_eq_false_2 by congruence.
      rewrite Hk, lookup_insert_eq. eauto.
    + apply IH. apply elem_of_cons in Hin as [Hin|Hin]; [congruence | exact Hin].
Qed.

Lemma filter_all_length {A} (P : A -> Prop) `{forall x, Decision (P x)}
    (l : list A) :
  length (filter P l) = length l -> Forall P l.
Proof.
  induction l as [|x l IH]; intros Hlen; [constructor|].
  rewrite filter_cons in Hlen. destruct (decide (P x)) as [Hx|Hx].
  - constructor; [exact Hx|]. apply IH. simpl in Hlen. lia.
  - pose proof (length_filter P l). simpl in Hlen. lia.
Qed.

End CountFacts.

(** C7, as the code has it.  The reduce of lines 578-582 counts into [{}],
    and [acc[st]] also answers for the members [{}] inherits.  Under every
    status that names none of them the bucket is the number of records with
    that status.  A status that names an inherited function gets a text in
    place of a count, and [__proto__] gets no property at all.  So the
    counts add up to the number of records less those of such a status:
    they equal [filtered.length] exactly when no record has one. *)
Theorem countByStatus_partition (filtered : list row) :
  let counts := Bot.countByStatus filtered in
  (forall k : string, k ∉ Bot.inherited ->
     Bot.count_of counts k
     = Bot.Count (length (filter (fun r => Bot.status_key r = k) filtered)))
  /\ (forall k : string, k ∈ Bot.proto_functions ->
        k ∈ map Bot.status_key filtered ->
        exists s, counts !! k = Some (Bot.Text s))
  /\ counts !! "__proto__" = None
  /\ (sum_counts counts + length (odd_status filtered))%nat = length filtered
  /\ (sum_counts counts = length filtered <-> odd_status filtered = []).
Proof.
  intros counts. subst counts. unfold Bot.countByStatus.
  pose proof (CountFacts.tidy_fold filtered ∅ CountFacts.tidy_empty) as Htidy.
  pose proof (CountFacts.sum_counts_fold filtered ∅ CountFacts.tidy_empty) as Hsum.
  assert (H0 : sum_counts ∅ = 0%nat) by (unfold sum_counts; apply map_fold_empty).
  rewrite H0 in Hsum. simpl in Hsum.
  split; [|split; [|split; [|split]]].
  - intros k Hk.
    rewrite (CountFacts.count_of_fold k filtered Hk ∅ 0 CountFacts.tidy_empty
               (CountFacts.count_of_empty k Hk)).
    reflexivity.
  - intros k Hf Hin.
    assert (Hp : k <> "__proto__").
    { intros ->. revert Hf. apply (bool_decide_eq_false_1 _).
      vm_compute. reflexivity. }
    destruct (CountFacts.bucket_written filtered k Hp Hin ∅) as [v Hv].
    destruct (Htidy k v Hv) as (_ & Ht & _).
    destruct (Ht Hf) as (s & -> & _). eauto.
  - destruct (fold_left Bot.count_step filtered ∅ !! "__proto__") as [v|] eqn:Hv;
      [|reflexivity].
    destruct (Htidy _ v Hv) as (Hne & _). congruence.
  - exact Hsum.
  - split.
    + intros Heq. destruct (odd_status filtered); [reflexivity|].
      simpl in Hsum. lia.
    + intros Hnil. rewrite Hnil in Hsum. simpl in Hsum. lia.
Qed.

(** A record whose status is [constructor] is in no count: the bucket holds
    the source text of [Object] followed by [1], and the counts sum to 0
    for one record. *)
Example countByStatus_constructor :
  let counts := Bot.countByStatus [[CUndef; CUndef; CUndef; CUndef; CUndef;
                                    CStr "Jane Doe"; CStr "Sales"; CUndef;
                                    CStr "constructor"]] in
  counts !! "constructor"
  = Some (Bot.Text "function Object() { [native code] }1")
  /\ sum_counts counts = 0%nat.
Proof. vm_compute. split; reflexivity. Qed.

(** ** The JSON image of a session *)

Section JsonFacts.

Lemma json_cell_idem (c : cell) : json_cell (json_cell c) = json_cell c.
Proof. destruct c; reflexivity. Qed.

Lemma json_rows_idem (rs : list row) : json_rows (json_rows rs) = json_rows rs.
Proof.
  unfold json_rows. rewrite List.map_map. apply List.map_ext.
  intros r. rewrite List.map_map. apply List.map_ext. exact json_cell_idem.
Qed.

Lemma json_val_idem (v : jsval) : json_val (json_val v) = json_val v.
Proof. destruct v; simpl; try reflexivity. now rewrite json_rows_idem. Qed.

Lemma json_session_idem (s : session) :
  json_session (json_session s) = json_session s.
Proof.
  unfold json_session. apply map_eq. intros k.
  rewrite !lookup_fmap. destruct (s !! k) as [v|]; simpl; [|reflexivity].
  now rewrite json_val_idem.
Qed.

Lemma json_session_insert (k : string) (v : jsval) (s : session) :
  json_session (<[k := v]> s) = <[k := json_val v]> (json_session s).
Proof. unfold json_session. apply fmap_insert. Qed.

(** The JSON image has the same property names. *)
Lemma json_session_is_Some (s : session) (k : string) :
  is_Some (json_session s !! k) <-> is_Some (s !! k).
Proof. unfold json_session. rewrite lookup_fmap. apply fmap_is_Some. Qed.

End JsonFacts.

(** ** The mode-choice buttons *)

(** C10: the No button stores exactly [{ connectSheet: false, mode: 'chat' }],
    so no other property of the previous session survives, while the Yes
    button stores the previous session with [connectSheet], [mode] and
    [step] set and every other property as it was. *)
Theorem linkSheet_replace_vs_merge (ctx : Bot.Ctx) (w : World) :
  let c := Bot.chat_id ctx in
  let w_no := snd (Bot.cb_linkSheet_no ctx w) in
  let w_yes := snd (Bot.cb_linkSheet_yes ctx w) in
  (session_of w_no c
     = Some (<["mode" := VStr "chat"]> {[ "connectSheet" := VBool false ]})
   /\ forall s k, session_of w_no c = Some s ->
        k <> "connectSheet" -> k <> "mode" -> s !! k = None)
  /\ exists s',
       session_of w_yes c = Some s'
       /\ s' !! "connectSheet" = Some (VBool true)
       /\ s' !! "mode" = Some (VStr "sheet")
       /\ s' !! "step" = Some (VStr "await_sheet_url")
       /\ forall k, k <> "connectSheet" -> k <> "mode" -> k <> "step" ->
            s' !! k = default ∅ (session_of w c) !! k.
Proof.
  intros c w_no w_yes.
  assert (Hno : session_of w_no c
                = Some (<["mode" := VStr "chat"]> {[ "connectSheet" := VBool false ]})).
  { unfold session_of, w_no. simpl. rewrite lookup_insert_eq. reflexivity. }
  split.
  - split; [exact Hno|].
    intros s k Hs Hk1 Hk2. rewrite Hno in Hs. injection Hs as <-.
    rewrite lookup_insert_ne by congruence.
    rewrite lookup_singleton_ne by congruence. reflexivity.
  - unfold session_of, w_yes. simpl. rewrite lookup_insert_eq. simpl.
    eexists. split; [reflexivity|].
    rewrite !json_session_insert. simpl.
    split; [now rewrite !lookup_insert_ne, lookup_insert_eq by congruence|].
    split; [now rewrite lookup_insert_ne, lookup_insert_eq by congruence|].
    split; [now rewrite lookup_insert_eq|].
    intros k H1 H2 H3. rewrite !lookup_insert_ne by congruence.
    fold c. destruct (sessions (store w) !! c) as [s|]; simpl.
    + now rewrite !json_session_idem.
    + unfold json_session. now rewrite fmap_empty.
Qed.

(** ** Reasoning about handlers

    A property [P] of one component [proj] of the world is carried through
    a computation: [triple m V] says that [m] keeps [P (proj w)] and that a
    value it returns satisfies [V]. *)

Section Frame.

Context {X : Type} (proj : World -> X) (P : X -> Prop).

Lemma triple_keeps {A} (m : M A) :
  keeps proj m -> triple proj P m (fun _ => True).
Proof.
  intros Hk w Hw. split; [|trivial]. unfold inv. now rewrite Hk.
Qed.

Lemma triple_weaken {A} (m : M A) (V V' : A -> Prop) :
  triple proj P m V -> (forall a, V a -> V' a) -> triple proj P m V'.
Proof.
  intros Hm HV w Hw. destruct (Hm w Hw) as [Hi Hv]. split; [exact Hi|].
  intros a Ha. apply HV, Hv, Ha.
Qed.

Lemma triple_ret {A} (a : A) (V : A -> Prop) : V a -> triple proj P (ret a) V.
Proof.
  intros Ha w Hw. split; [exact Hw|]. simpl. intros a' [= <-]. exact Ha.
Qed.

Lemma triple_throw {A} (e : Exn) (V : A -> Prop) : triple proj P (throw e) V.
Proof. intros w Hw. split; [exact Hw|]. simpl. discriminate. Qed.

Lemma triple_bind {A B} (m : M A) (k : A -> M B) (V : A -> Prop) (V' : B -> Prop) :
  triple proj P m V -> (forall a, V a -> triple proj P (k a) V') ->
  triple proj P (bind m k) V'.
Proof.
  intros Hm Hk w Hw. unfold bind.
  destruct (Hm w Hw) as [Hi Hv].
  destruct (m w) as [[a|e] w1]; simpl in *.
  - apply Hk; [apply Hv; reflexivity | exact Hi].
  - split; [exact Hi | discriminate].
Qed.

Lemma triple_bind_any {A B} (m : M A) (k : A -> M B) (V' : B -> Prop) :
  triple proj P m (fun _ => True) -> (forall a, triple proj P (k a) V') ->
  triple proj P (bind m k) V'.
Proof. intros Hm Hk. apply (triple_bind m k (fun _ => True)); auto. Qed.

Lemma triple_try_catch {A} (m : M A) (h : Exn -> M A) (V : A -> Prop) :
  triple proj P m V -> (forall e, triple proj P (h e) V) ->
  triple proj P (try_catch m h) V.
Proof.
  intros Hm Hh w Hw. unfold try_catch.
  destruct (Hm w Hw) as [Hi Hv].
  destruct (m w) as [[a|e] w1]; simpl in *.
  - split; [exact Hi | exact Hv].
  - apply Hh, Hi.
Qed.

Lemma keeps_ret {A} (a : A) : keeps proj (ret a).
Proof. intros w. reflexivity. Qed.

Lemma keeps_throw {A} (e : Exn) : keeps proj (@throw A e).
Proof. intros w. reflexivity. Qed.

Lemma keeps_bind {A B} (m : M A) (k : A -> M B) :
  keeps proj m -> (forall a, keeps proj (k a)) -> keeps proj (bind m k).
Proof.
  intros Hm Hk w. unfold bind. specialize (Hm w).
  destruct (m w) as [[a|e] w1]; simpl in *.
  - now rewrite Hk.
  - exact Hm.
Qed.

Lemma keeps_try_catch {A} (m : M A) (h : Exn -> M A) :
  keeps proj m -> (forall e, keeps proj (h e)) -> keeps proj (try_catch m h).
Proof.
  intros Hm Hh w. unfold try_catch. specialize (Hm w).
  destruct (m w) as [[a|e] w1]; simpl in *.
  - exact Hm.
  - now rewrite Hh.
Qed.

End Frame.

(** Splits a computation along its binds, handlers and case distinctions,
    leaving the calls to [prim] to close. *)
Ltac keeps_with prim :=
  repeat first
    [ apply keeps_ret
    | apply keeps_throw
    | solve [prim]
    | apply keeps_bind; [| intros ?]
    | apply keeps_try_catch; [| intros ?]
    | match goal with
      | |- keeps _ (match ?x with _ => _ end) => destruct x
      end ].

(** ** What the portal client and the Sheets client leave alone *)

Section ClientFrames.

Context `{E : Env}.

Lemma request_keeps_sessions rq v : keeps sess_table (Bot.request rq v).
Proof.
  intros w. unfold Bot.request.
  destruct (portal (http w) (jar w) rq) as [[msg|st body] j]; simpl.
  - reflexivity.
  - destruct (v st); reflexivity.
Qed.

Lemma request_keeps_gsheets rq v : keeps gsheets (Bot.request rq v).
Proof.
  intros w. unfold Bot.request.
  destruct (portal (http w) (jar w) rq) as [[msg|st body] j]; simpl.
  - reflexivity.
  - destruct (v st); reflexivity.
Qed.

Lemma sheets_call_keeps_sessions tok c : keeps sess_table (Bot.sheets_call tok c).
Proof.
  intros w. unfold Bot.sheets_call.
  destruct (sheets_api tok (gsheets w) c); reflexivity.
Qed.

Lemma ensureLoggedIn_keeps_sessions chatId e p :
  keeps sess_table (Bot.ensureLoggedIn chatId e p).
Proof.
  unfold Bot.ensureLoggedIn.
  keeps_with ltac:(first [apply request_keeps_sessions | intros ?; reflexivity]).
Qed.

Lemma ensureLoggedIn_keeps_gsheets chatId e p :
  keeps gsheets (Bot.ensureLoggedIn chatId e p).
Proof.
  unfold Bot.ensureLoggedIn.
  keeps_with ltac:(first [apply request_keeps_gsheets | intros ?; reflexivity]).
Qed.

Lemma download_keeps_sessions chatId d e p :
  keeps sess_table (Bot.downloadFlyfoneReport chatId d e p).
Proof.
  unfold Bot.downloadFlyfoneReport.
  keeps_with ltac:(first [apply request_keeps_sessions
                         | apply ensureLoggedIn_keeps_sessions
                         | intros ?; reflexivity]).
Qed.

Lemma download_keeps_gsheets chatId d e p :
  keeps gsheets (Bot.downloadFlyfoneReport chatId d e p).
Proof.
  unfold Bot.downloadFlyfoneReport.
  keeps_with ltac:(first [apply request_keeps_gsheets
                         | apply ensureLoggedIn_keeps_gsheets
                         | intros ?; reflexivity]).
Qed.

Lemma data_rows_keeps {X} (proj : World -> X) v : keeps proj (Bot.data_rows v).
Proof. intros w. unfold Bot.data_rows. repeat case_match; reflexivity. Qed.

Lemma writeToSheet_keeps_sessions chatId sid rows ow :
  keeps sess_table (Bot.writeToSheet chatId sid rows ow).
Proof.
  unfold Bot.writeToSheet.
  keeps_with ltac:(first [apply sheets_call_keeps_sessions | intros ?; reflexivity]).
Qed.

End ClientFrames.

(** ** [rows] and [dateStr] go together *)

Section Parity.

Lemma parity_empty : parity ∅.
Proof. unfold parity. rewrite !lookup_empty. split; intros [? [=]]. Qed.

Lemma parity_insert_other (k : string) (v : jsval) (s : session) :
  k <> "rows" -> k <> "dateStr" -> parity s -> parity (<[k := v]> s).
Proof. intros H1 H2. unfold parity. now rewrite !lookup_insert_ne. Qed.

Lemma parity_insert_both (r d : jsval) (s : session) :
  parity (<["dateStr" := d]> (<["rows" := r]> s)).
Proof.
  unfold parity. rewrite lookup_insert_eq.
  rewrite lookup_insert_ne, lookup_insert_eq by discriminate.
  split; intros _; eexists; reflexivity.
Qed.

Lemma parity_singleton_other (k : string) (v : jsval) :
  k <> "rows" -> k <> "dateStr" -> parity {[ k := v ]}.
Proof.
  intros H1 H2. unfold parity. rewrite !lookup_singleton_ne by assumption.
  split; intros [? [=]].
Qed.

Lemma parity_default (o : option session) :
  (forall s, o = Some s -> parity s) -> parity (default ∅ o).
Proof. destruct o; simpl; [auto | intros _; apply parity_empty]. Qed.

Lemma parity_json (s : session) : parity s -> parity (json_session s).
Proof. unfold parity. now rewrite !json_session_is_Some. Qed.

Lemma getSession_parity c :
  triple sess_table all_parity (State.getSession c)
         (fun o => forall s, o = Some s -> parity s).
Proof.
  intros w Hw. split; [exact Hw|]. simpl. intros o [= <-] s Hs.
  unfold inv, sess_table, all_parity in Hw.
  destruct (sessions (store w) !! c) as [s0|] eqn:Hc; [|discriminate].
  injection Hs as <-. apply parity_json. exact (Hw c s0 Hc).
Qed.

Lemma saveSession_parity c s :
  parity s -> triple sess_table all_parity (State.saveSession c s) (fun _ => True).
Proof.
  intros Hs w Hw. split; [|trivial].
  unfold inv, sess_table, all_parity in *. simpl. intros c' s'.
  destruct (decide (c = c')) as [->|Hne].
  - rewrite lookup_insert_eq. intros [= <-]. now apply parity_json.
  - rewrite lookup_insert_ne by exact Hne. apply Hw.
Qed.

Lemma deleteSession_parity c :
  triple sess_table all_parity (State.deleteSession c) (fun _ => True).
Proof.
  intros w Hw. split; [|trivial].
  unfold inv, sess_table, all_parity in *. simpl. intros c' s'.
  intros [_ H]%lookup_delete_Some. exact (Hw c' s' H).
Qed.

End Parity.

(** The side condition of a [saveSession]. *)
Ltac parity_tac :=
  repeat first
    [ assumption
    | apply parity_insert_both
    | apply parity_empty
    | apply parity_default; assumption
    | apply parity_singleton_other; [discriminate | discriminate]
    | apply parity_insert_other; [discriminate | discriminate |]
    | match goal with
      | H : forall s, Some ?s0 = Some s -> parity s |- parity ?s0 =>
          apply H; reflexivity
      end ].

(** Calls that do not write the session table. *)
Ltac sess_prim :=
  first [ apply request_keeps_sessions
        | apply sheets_call_keeps_sessions
        | apply ensureLoggedIn_keeps_sessions
        | apply download_keeps_sessions
        | apply writeToSheet_keeps_sessions
        | apply data_rows_keeps
        | intros ?; reflexivity ].

Ltac tri_with leaf :=
  repeat first
    [ solve [leaf]
    | apply triple_throw
    | apply triple_ret; exact Logic.I
    | eapply triple_bind; [apply getSession_parity | intros ? ?]
    | apply saveSession_parity; solve [parity_tac]
    | apply deleteSession_parity
    | solve [apply triple_keeps; sess_prim]
    | apply triple_bind_any; [| intros ?]
    | apply triple_try_catch; [| intros ?]
    | match goal with
      | |- triple _ _ (let _ := _ in _) _ => cbv zeta
      | |- triple _ _ (match ?x with _ => _ end) _ => destruct x eqn:?
      end ].

Ltac tri := tri_with fail.

Section ParityOfHandlers.

Context `{E : Env}.

Local Abbreviation safe m := (triple sess_table all_parity m (fun _ => True)).

Lemma withSessionGuard_parity h ctx :
  (forall c, safe (h c)) -> safe (Bot.withSessionGuard h ctx).
Proof. intros Hh. unfold Bot.withSessionGuard, Bot.send. tri. apply Hh. Qed.

Lemma startFetchFlow_parity ctx e p sid d : safe (Bot.startFetchFlow ctx e p sid d).
Proof.
  unfold Bot.startFetchFlow. tri.
Qed.

Lemma handler_parity u ctx : safe (Bot.handler u ctx).
Proof.
  destruct u; simpl;
    try (apply withSessionGuard_parity; intros c).
  - unfold Bot.cmd_start. tri.
  - unfold Bot.cmd_mode. tri.
  - unfold Bot.cmd_logout, Bot.call. tri.
  - unfold Bot.cmd_sheet. tri.
  - unfold Bot.cmd_fetch, Bot.beginSheetFlow, Bot.beginChatFlow. tri.
  - unfold Bot.cmd_team_body. tri.
  - unfold Bot.cmd_agent_body. tri.
  - unfold Bot.cmd_summary_body, Bot.summary_pipeline. tri.
  - unfold Bot.cb_linkSheet_yes. tri.
  - unfold Bot.cb_linkSheet_no. tri.
  - unfold Bot.chat_team_body. tri.
  - unfold Bot.chat_agent_body. tri.
  - unfold Bot.team_body. tri.
  - unfold Bot.sheetMode_body. tri.
  - unfold Bot.on_calendar, Bot.on_sheet_date, Bot.on_chat_date.
    tri_with ltac:(apply startFetchFlow_parity).
  - unfold Bot.on_text. tri.
Qed.

End ParityOfHandlers.

Lemma handle_all_parity `{E : Env} (ucs : list (Bot.Update * Bot.Ctx)) :
  forall w, all_parity (sess_table w) ->
            all_parity (sess_table (Bot.handle_all ucs w)).
Proof.
  induction ucs as [|[u ctx] ucs IH]; intros w Hw; simpl.
  - exact Hw.
  - apply IH. unfold Bot.handle. simpl.
    exact (proj1 (handler_parity u ctx w Hw)).
Qed.

(** C6: starting from a store whose sessions have [rows] exactly when they
    have [dateStr] (the empty store for one), after any sequence of updates
    handled by the bot every stored session still has [rows] and [dateStr]
    both present or both absent. *)
Theorem rows_dateStr_together `{E : Env} (st0 : Store)
    (ucs : list (Bot.Update * Bot.Ctx)) (c : Z) (s : session) :
  all_parity (sessions st0) ->
  sessions (store (Bot.handle_all ucs (init_world st0))) !! c = Some s ->
  (is_Some (s !! "rows") <-> is_Some (s !! "dateStr")).
Proof.
  intros H0 Hs.
  exact (handle_all_parity ucs (init_world st0) H0 c s Hs).
Qed.

Lemma rows_dateStr_together_witness :
  let s : session :=
    default ∅ (sessions (store (Bot.handle_all (E := Demo.demo_env)
                                  Demo.chat_script
                                  (init_world empty_store))) !! 7) in
  is_Some (s !! "rows") <-> is_Some (s !! "dateStr").
Proof.
  apply (rows_dateStr_together (E := Demo.demo_env) empty_store
           Demo.chat_script 7).
  - intros c s Hs. simpl in Hs. rewrite lookup_empty in Hs. discriminate.
  - vm_compute. reflexivity.
Defined.

(** ** /logout *)

Section Logout.

Lemma call_bound {A} (name : string) (f : M A) :
  bool_decide (name ∈ Bot.imported) = true -> Bot.call name f = f.
Proof. intros H. unfold Bot.call. now rewrite H. Qed.

Lemma call_unbound {A} (name : string) (f : M A) :
  bool_decide (name ∈ Bot.imported) = false ->
  Bot.call name f = throw (ReferenceError (name +:+ " is not defined")).
Proof. intros H. unfold Bot.call. now rewrite H. Qed.

(** [deleteSheet] is exported by [state.js] and not imported by [bot.js]. *)
Lemma deleteSheet_not_imported :
  bool_decide ("deleteSheet" ∈ Bot.imported) = false.
Proof. vm_compute. reflexivity. Qed.

End Logout.

(** C3, as the code has it: for every chat, /logout starts the deletion of
    the portal credential, the OAuth refresh token, the session and the
    cookies, then raises [ReferenceError] on the unbound [deleteSheet]; the
    linked sheet id stays in the store and no message is sent. *)
Theorem logout_raises_before_reply (ctx : Bot.Ctx) (w : World) :
  let c := Bot.chat_id ctx in
  let r := Bot.cmd_logout ctx w in
  fst r = Throw (ReferenceError "deleteSheet is not defined")
  /\ outbox (snd r) = outbox w
  /\ sheet_map (store (snd r)) = sheet_map (store w)
  /\ flyfone_creds (store (snd r)) !! c = None
  /\ user_tokens (store (snd r)) !! c = None
  /\ sessions (store (snd r)) !! c = None
  /\ cookies (store (snd r)) !! c = None.
Proof.
  intros c r. subst r. unfold Bot.cmd_logout.
  rewrite !call_bound by (vm_compute; reflexivity).
  rewrite call_unbound by exact deleteSheet_not_imported.
  simpl. fold c. rewrite !lookup_delete_eq. repeat split; reflexivity.
Qed.

(** ** The login probe *)

(** C8: when the dashboard probe answers 200, [ensureLoggedIn] returns
    right after it: the probe is the only request sent, no login POST is
    added, and the store is untouched.  A second call in a row, made in the
    world the first one left, therefore sends no further login POST. *)
Theorem ensureLoggedIn_probe_only `{E : Env} (chatId : Z) (email password : string)
    (w : World) :
  probe_ok w = true ->
  let r := Bot.ensureLoggedIn chatId email password w in
  fst r = Ok tt
  /\ http (snd r) = (http w ++ [probe_rq])%list
  /\ login_posts (snd r) = login_posts w
  /\ store (snd r) = store w
  /\ outbox (snd r) = outbox w.
Proof.
  intros Hp r. subst r. unfold probe_ok in Hp.
  unfold Bot.ensureLoggedIn, bind, try_catch, Bot.request, ret. fold probe_rq.
  destruct (portal (http w) (jar w) probe_rq) as [[msg|st body] j];
    simpl in Hp; [discriminate|].
  unfold Bot.status_is. rewrite Hp. simpl.
  repeat split; try reflexivity.
  unfold login_posts. simpl. rewrite List.filter_app. simpl.
  rewrite List.length_app. simpl. lia.
Qed.

Lemma ensureLoggedIn_probe_only_witness :
  login_posts logged_in_world = 1%nat
  /\ login_posts (snd (Bot.ensureLoggedIn (E := Demo.demo_env) 7 "a@b.c" "secret"
                         logged_in_world)) = login_posts logged_in_world.
Proof.
  split; [reflexivity|].
  apply (ensureLoggedIn_probe_only (E := Demo.demo_env) 7 "a@b.c" "secret"
           logged_in_world).
  vm_compute. reflexivity.
Defined.

(** ** Computations that never look at the session table *)

Section Indep.

Context `{E : Env}.

Lemma set_sess_same (w : World) : set_sess (sess_table w) w = w.
Proof. destruct w as [[] ? ? ? ? ?]. reflexivity. Qed.

Lemma indep_ret {A} (a : A) : indep (ret a).
Proof. intros t w. reflexivity. Qed.

Lemma indep_throw {A} (e : Exn) : indep (@throw A e).
Proof. intros t w. reflexivity. Qed.

Lemma indep_bind {A B} (m : M A) (k : A -> M B) :
  indep m -> (forall a, indep (k a)) -> indep (bind m k).
Proof.
  intros Hm Hk t w. unfold bind. rewrite Hm.
  destruct (m w) as [[a|e] w1]; simpl.
  - apply Hk.
  - reflexivity.
Qed.

Lemma indep_try_catch {A} (m : M A) (h : Exn -> M A) :
  indep m -> (forall e, indep (h e)) -> indep (try_catch m h).
Proof.
  intros Hm Hh t w. unfold try_catch. rewrite Hm.
  destruct (m w) as [[a|e] w1]; simpl.
  - reflexivity.
  - apply Hh.
Qed.

Lemma indep_request rq v : indep (Bot.request rq v).
Proof.
  intros t w. unfold Bot.request. simpl.
  destruct (portal (http w) (jar w) rq) as [[msg|st body] j]; simpl.
  - reflexivity.
  - destruct (v st); reflexivity.
Qed.

Lemma indep_keeps {A} (m : M A) : indep m -> keeps sess_table m.
Proof.
  intros Hm w. pose proof (Hm (sess_table w) w) as H.
  rewrite set_sess_same in H.
  apply (f_equal (fun r => sess_table (snd r))) in H. simpl in H. exact H.
Qed.

End Indep.

Ltac indep_with prim :=
  repeat first
    [ apply indep_ret
    | apply indep_throw
    | solve [prim]
    | apply indep_bind; [| intros ?]
    | apply indep_try_catch; [| intros ?]
    | match goal with
      | |- indep (let _ := _ in _) => cbv zeta
      | |- indep (match ?x with _ => _ end) => destruct x
      end ].

Section SummaryIndep.

Context `{E : Env}.

Lemma indep_ensureLoggedIn chatId e p : indep (Bot.ensureLoggedIn chatId e p).
Proof.
  unfold Bot.ensureLoggedIn.
  indep_with ltac:(first [apply indep_request | intros ? ?; reflexivity]).
Qed.

Lemma indep_download chatId d e p : indep (Bot.downloadFlyfoneReport chatId d e p).
Proof.
  unfold Bot.downloadFlyfoneReport.
  indep_with ltac:(first [apply indep_request | apply indep_ensureLoggedIn
                         | intros ? ?; reflexivity]).
Qed.

Lemma indep_summary_pipeline chatId team d c :
  indep (Bot.summary_pipeline chatId team d c).
Proof.
  unfold Bot.summary_pipeline.
  indep_with ltac:(first [apply indep_download | intros ? ?; reflexivity]).
Qed.

(** The body of the /summary handler never looks at the session. *)
Lemma indep_summary_body ctx : indep (Bot.cmd_summary_body ctx).
Proof.
  unfold Bot.cmd_summary_body.
  indep_with ltac:(first [apply indep_summary_pipeline | intros ? ?; reflexivity]).
Qed.

(** With a session stored, the guard hands over to the handler. *)
Lemma guard_passes h ctx w s :
  sessions (store w) !! Bot.chat_id ctx = Some s ->
  Bot.withSessionGuard h ctx w = h ctx w.
Proof.
  intros Hs. unfold Bot.withSessionGuard, bind, State.getSession.
  rewrite Hs. reflexivity.
Qed.

(** Without one, it sends the notice and the mode prompt and stops. *)
Lemma guard_restarts h ctx w :
  sessions (store w) !! Bot.chat_id ctx = None ->
  Bot.withSessionGuard h ctx w =
    (Ok tt,
     {| store := store w; jar := jar w;
        outbox := (outbox w ++ [Bot.expired_notice; Bot.mode_prompt])%list;
        http := http w; gsheets := gsheets w;
        calendarDefault := calendarDefault w |}).
Proof.
  intros Hs. unfold Bot.withSessionGuard, bind, State.getSession.
  rewrite Hs. destruct w as [[] ? ? ? ? ?]. simpl in *.
  unfold Bot.send. simpl.
  rewrite (delete_id _ _ Hs), <- List.app_assoc. reflexivity.
Qed.

End SummaryIndep.

(** ** /summary *)

(** C2, as the code has it: with portal credentials stored, two arguments
    and a date that parses, /summary runs its login-check, fetch, normalise
    and aggregate pipeline in one shot whenever some session is stored for
    the chat, whatever that session holds (any [step], any other field): the
    outcome is the same for every session content and the session table is
    left as it was. *)
Theorem summary_runs_when_guard_passes `{E : Env} (ctx : Bot.Ctx) (w : World)
    (s : session) (rawDate t1 : string) (ts : list string) (d : Z) (creds : Creds) :
  sessions (store w) !! Bot.chat_id ctx = Some s ->
  slice1 (split_ws (Bot.text ctx)) = rawDate :: t1 :: ts ->
  Bot.parseDateInput rawDate = Some d ->
  flyfone_creds (store w) !! Bot.chat_id ctx = Some creds ->
  let c := Bot.chat_id ctx in
  let r := Bot.handler Bot.CmdSummary ctx w in
  r = Bot.summary_pipeline c (join_space (t1 :: ts)) (dayjs_format d) creds w
  /\ sess_table (snd r) = sess_table w
  /\ forall s' : session,
       Bot.handler Bot.CmdSummary ctx (with_session w c s')
       = (fst r, with_session (snd r) c s').
Proof.
  intros Hs Hargs Hd Hc c r.
  assert (Hr : r = Bot.cmd_summary_body ctx w).
  { subst r. simpl. exact (guard_passes _ ctx w s Hs). }
  assert (Hk : sess_table (snd r) = sess_table w).
  { rewrite Hr. apply (indep_keeps _ (indep_summary_body ctx)). }
  split; [|split].
  - rewrite Hr. unfold Bot.cmd_summary_body.
    rewrite Hargs, Hd. unfold bind, State.getFlyfoneCreds. simpl.
    fold c. unfold c. rewrite Hc. reflexivity.
  - exact Hk.
  - intros s'. simpl.
    rewrite (guard_passes _ ctx (with_session w c s') s')
      by (simpl; apply lookup_insert_eq).
    unfold with_session. rewrite (indep_summary_body ctx).
    rewrite Hk, Hr. reflexivity.
Qed.

Lemma summary_runs_when_guard_passes_witness :
  let ctx := Demo.say 7 "/summary today Sales" in
  let w := init_world Demo.creds_and_session in
  sess_table (snd (Bot.handler (E := Demo.demo_env) Bot.CmdSummary ctx w))
  = sess_table w.
Proof.
  intros ctx w.
  apply (summary_runs_when_guard_passes (E := Demo.demo_env) ctx w
           {[ "step" := VStr "await_sheet_url" ]} "today" "Sales" []
           1751414400000 {| email := "a@b.c"; pass := "secret" |});
    vm_compute; reflexivity.
Defined.

(** The claim of C2 fails without a session: credentials are stored, the
    arguments are fine, and yet /summary sends the session-expired notice
    and the mode prompt, makes no request to the portal, and so does not do
    what its pipeline does. *)
Lemma summary_without_session_counterexample :
  let ctx := Demo.say 7 "/summary today Sales" in
  let w := init_world Demo.creds_only in
  let r := Bot.handler (E := Demo.demo_env) Bot.CmdSummary ctx w in
  flyfone_creds (store w) !! 7 = Some {| email := "a@b.c"; pass := "secret" |}
  /\ sessions (store w) !! 7 = None
  /\ outbox (snd r) = [Bot.expired_notice; Bot.mode_prompt]
  /\ http (snd r) = []
  /\ http (snd (Bot.cmd_summary_body (E := Demo.demo_env) ctx w)) <> []
  /\ r <> Bot.cmd_summary_body (E := Demo.demo_env) ctx w.
Proof.
  intros ctx w r.
  split; [reflexivity|]. split; [reflexivity|].
  split; [reflexivity|]. split; [reflexivity|].
  split.
  - vm_compute. discriminate.
  - intros H. apply (f_equal (fun x => http (snd x))) in H.
    vm_compute in H. discriminate.
Qed.

(** ** The date argument *)

(** The order of [parseDateInput], and the refusal: [today], [yesterday],
    what dayjs reads and what chrono-node reads first are accepted in that
    order; for a date argument that none of them reads, /summary (reached
    with a session stored and a team name after the date) answers with the
    could-not-understand-date message and does nothing else. *)
Lemma summary_date_refused `{E : Env} (ctx : Bot.Ctx) (w : World) (s : session)
    (rawDate t1 : string) (ts : list string) :
  sessions (store w) !! Bot.chat_id ctx = Some s ->
  slice1 (split_ws (Bot.text ctx)) = rawDate :: t1 :: ts ->
  unparseable rawDate ->
  (forall input, toLowerCase (trim input) = "today" ->
     Bot.parseDateInput input = Some Date_now)
  /\ (forall input, toLowerCase (trim input) = "yesterday" ->
        Bot.parseDateInput input = Some (Date_now - 86400000))
  /\ (forall input d, toLowerCase (trim input) <> "today" ->
        toLowerCase (trim input) <> "yesterday" ->
        Bot.dayjs_any (toLowerCase (trim input)) = Some d ->
        Bot.parseDateInput input = Some d)
  /\ (forall input d rest, toLowerCase (trim input) <> "today" ->
        toLowerCase (trim input) <> "yesterday" ->
        Bot.dayjs_any (toLowerCase (trim input)) = None ->
        chrono_parse (toLowerCase (trim input)) = Some d :: rest ->
        Bot.parseDateInput input = Some d)
  /\ Bot.parseDateInput rawDate = None
  /\ Bot.handler Bot.CmdSummary ctx w =
       (Ok tt,
        {| store := store w; jar := jar w;
           outbox := (outbox w ++ [date_error_reply rawDate])%list;
           http := http w; gsheets := gsheets w;
           calendarDefault := calendarDefault w |}).
Proof.
  intros Hs Hargs (Ht & Hy & Hd & Hc).
  assert (Hnone : Bot.parseDateInput rawDate = None).
  { unfold Bot.parseDateInput.
    rewrite bool_decide_eq_false_2 by exact Ht.
    rewrite bool_decide_eq_false_2 by exact Hy.
    rewrite Hd. destruct (chrono_parse _); [reflexivity | exact Hc]. }
  repeat split.
  - intros input H. unfold Bot.parseDateInput.
    now rewrite bool_decide_eq_true_2.
  - intros input H. unfold Bot.parseDateInput. rewrite H. reflexivity.
  - intros input d H1 H2 H3. unfold Bot.parseDateInput.
    rewrite bool_decide_eq_false_2 by exact H1.
    rewrite bool_decide_eq_false_2 by exact H2.
    now rewrite H3.
  - intros input d rest H1 H2 H3 H4. unfold Bot.parseDateInput.
    rewrite bool_decide_eq_false_2 by exact H1.
    rewrite bool_decide_eq_false_2 by exact H2.
    now rewrite H3, H4.
  - exact Hnone.
  - simpl. rewrite (guard_passes _ ctx w s Hs).
    unfold Bot.cmd_summary_body. rewrite Hargs, Hnone. reflexivity.
Qed.

Example summary_date_refused_someday :
  let ctx := Demo.say 7 "/summary someday Sales" in
  let w := init_world Demo.creds_and_session in
  outbox (snd (Bot.handler (E := Demo.demo_env) Bot.CmdSummary ctx w))
  = [date_error_reply "someday"].
Proof. vm_compute. reflexivity. Qed.

(** ** Handlers that take the session for granted *)

Section Guarded.

Context `{E : Env}.

(** Every guarded handler, met with no session, sends the notice and the
    mode prompt and runs none of its body. *)
Lemma guarded_handlers_restart (u : Bot.Update) (ctx : Bot.Ctx) (w : World) :
  guarded u = true ->
  sessions (store w) !! Bot.chat_id ctx = None ->
  Bot.handler u ctx w =
    (Ok tt,
     {| store := store w; jar := jar w;
        outbox := (outbox w ++ [Bot.expired_notice; Bot.mode_prompt])%list;
        http := http w; gsheets := gsheets w;
        calendarDefault := calendarDefault w |}).
Proof.
  intros Hg Hs. destruct u; try discriminate Hg; simpl;
    apply guard_restarts; exact Hs.
Qed.

(** The handlers that are not guarded and do not start a flow get by
    without a session: they return normally. *)
Lemma plain_handlers_return (u : Bot.Update) (ctx : Bot.Ctx) (w : World) :
  sessions (store w) !! Bot.chat_id ctx = None ->
  guarded u = false -> u <> Bot.CmdLogout -> u <> Bot.CmdFetch ->
  fst (Bot.handler u ctx w) = Ok tt.
Proof.
  intros Hs Hg Hl Hf.
  destruct u; try discriminate Hg; try congruence; simpl.
  - unfold Bot.cmd_start, bind, State.getFlyfoneCreds. simpl.
    destruct (flyfone_creds (store w) !! Bot.chat_id ctx); reflexivity.
  - unfold Bot.cmd_mode, bind, State.getFlyfoneCreds. simpl.
    destruct (slice1 (split_space (Bot.text ctx))) as [|a0 rest];
      destruct (flyfone_creds (store w) !! Bot.chat_id ctx); simpl;
      try reflexivity.
    repeat case_bool_decide; reflexivity.
  - unfold Bot.cmd_sheet, bind at 1, State.getSession. simpl.
    rewrite Hs. reflexivity.
  - reflexivity.
  - reflexivity.
  - unfold Bot.on_calendar.
    destruct (Bot.calendarSelectedDate ctx); [|reflexivity].
    unfold bind, State.getSession. simpl. rewrite Hs. simpl.
    rewrite lookup_empty. simpl. rewrite Hs. simpl.
    rewrite lookup_empty. reflexivity.
  - unfold Bot.on_text, bind, State.getSession. simpl. rewrite Hs. reflexivity.
Qed.

(** /fetch without a session: it answers when no credentials or no sheet
    are stored, and otherwise runs into [beginSheetFlow]. *)
Lemma fetch_without_session (ctx : Bot.Ctx) (w : World) :
  sessions (store w) !! Bot.chat_id ctx = None ->
  Bot.handler Bot.CmdFetch ctx w =
    match flyfone_creds (store w) !! Bot.chat_id ctx with
    | None => Bot.replyBold "You are not logged in. Use /start." NoMarkup w
    | Some _ =>
        if Bot.truthy_str (sheet_map (store w) !! Bot.chat_id ctx)
        then (Throw Bot.set_step_null, w)
        else Bot.replyBold "No mode selected. Use /mode to pick one." NoMarkup w
    end.
Proof.
  intros Hs. simpl.
  unfold Bot.cmd_fetch, bind at 1 2 3, State.getSession, State.getSheet,
    State.getFlyfoneCreds. simpl. rewrite Hs. simpl. rewrite lookup_empty. simpl.
  destruct (flyfone_creds (store w) !! Bot.chat_id ctx) as [c|] eqn:Hc;
    [|reflexivity].
  destruct (sheet_map (store w) !! Bot.chat_id ctx) as [[|c0 r0]|] eqn:Hm;
    simpl; try reflexivity.
  unfold Bot.beginSheetFlow, bind, State.getSession, State.getSheet,
    State.getFlyfoneCreds. simpl. rewrite Hs, Hm. simpl. rewrite Hc. reflexivity.
Qed.

End Guarded.

(** C1, where the code departs from it: [beginChatFlow] and [beginSheetFlow]
    read the session and assign to its [step] without any guard.  With no
    session stored, [beginChatFlow] raises a [TypeError], and so does /fetch
    for a chat that has credentials and a linked sheet; neither sends the
    session-expired notice nor the mode prompt. *)
Theorem unguarded_flows_raise `{E : Env} (ctx : Bot.Ctx) (w : World)
    (sid : string) (creds : Creds) :
  sessions (store w) !! Bot.chat_id ctx = None ->
  flyfone_creds (store w) !! Bot.chat_id ctx = Some creds ->
  sheet_map (store w) !! Bot.chat_id ctx = Some sid ->
  Bot.truthy_str (Some sid) = true ->
  Bot.beginChatFlow ctx w = (Throw Bot.set_step_null, w)
  /\ Bot.beginSheetFlow ctx w = (Throw Bot.set_step_null, w)
  /\ Bot.handler Bot.CmdFetch ctx w = (Throw Bot.set_step_null, w).
Proof.
  intros Hs Hc Hm Ht.
  destruct sid as [|c0 r0]; [discriminate Ht|].
  assert (Hb : Bot.beginSheetFlow ctx w = (Throw Bot.set_step_null, w)).
  { unfold Bot.beginSheetFlow, bind, State.getSession, State.getSheet,
      State.getFlyfoneCreds. simpl. rewrite Hs, Hm. simpl.
    rewrite Hc. reflexivity. }
  split; [|split].
  - unfold Bot.beginChatFlow, bind, State.getSession, State.getFlyfoneCreds.
    simpl. rewrite Hs. reflexivity.
  - exact Hb.
  - simpl. unfold Bot.cmd_fetch, bind at 1 2 3, State.getSession,
      State.getSheet, State.getFlyfoneCreds. simpl.
    rewrite Hs, Hm, Hc. simpl. rewrite lookup_empty. simpl. exact Hb.
Qed.

Lemma unguarded_flows_raise_witness :
  Bot.handler (E := Demo.demo_env) Bot.CmdFetch (Demo.ctx0 7)
    (init_world Demo.creds_and_sheet)
  = (Throw Bot.set_step_null, init_world Demo.creds_and_sheet).
Proof.
  apply (unguarded_flows_raise (E := Demo.demo_env) (Demo.ctx0 7)
           (init_world Demo.creds_and_sheet) "sheet123"
           {| email := "a@b.c"; pass := "secret" |});
    vm_compute; reflexivity.
Defined.

(** ** What is written to the spreadsheet *)

Ltac gs_prim :=
  first [ apply request_keeps_gsheets
        | apply ensureLoggedIn_keeps_gsheets
        | apply download_keeps_gsheets
        | apply data_rows_keeps
        | intros ?; reflexivity ].

Section SheetWrites.

Context `{E : Env}.

Lemma withSessionGuard_keeps_gsheets h ctx :
  (forall c, keeps gsheets (h c)) -> keeps gsheets (Bot.withSessionGuard h ctx).
Proof.
  intros Hh. unfold Bot.withSessionGuard.
  keeps_with ltac:(first [apply Hh | gs_prim]).
Qed.

Lemma startFetchFlow_keeps_gsheets ctx e p sid d :
  keeps gsheets (Bot.startFetchFlow ctx e p sid d).
Proof. unfold Bot.startFetchFlow. cbv zeta. keeps_with gs_prim. Qed.

(** Only the write-mode handler talks to the Sheets API. *)
Lemma other_handlers_keep_gsheets u ctx :
  u <> Bot.CbSheetMode -> keeps gsheets (Bot.handler u ctx).
Proof.
  intros Hu. destruct u; try congruence; simpl;
    try (apply withSessionGuard_keeps_gsheets; intros c).
  - unfold Bot.cmd_start. keeps_with gs_prim.
  - unfold Bot.cmd_mode. keeps_with gs_prim.
  - unfold Bot.cmd_logout, Bot.call. keeps_with gs_prim.
  - unfold Bot.cmd_sheet. cbv zeta. keeps_with gs_prim.
  - unfold Bot.cmd_fetch, Bot.beginSheetFlow, Bot.beginChatFlow. cbv zeta.
    keeps_with gs_prim.
  - unfold Bot.cmd_team_body. keeps_with gs_prim.
  - unfold Bot.cmd_agent_body. cbv zeta. keeps_with gs_prim.
  - unfold Bot.cmd_summary_body, Bot.summary_pipeline. cbv zeta.
    keeps_with gs_prim.
  - unfold Bot.cb_linkSheet_yes. keeps_with gs_prim.
  - unfold Bot.cb_linkSheet_no. keeps_with gs_prim.
  - unfold Bot.chat_team_body. cbv zeta. keeps_with gs_prim.
  - unfold Bot.chat_agent_body. cbv zeta. keeps_with gs_prim.
  - unfold Bot.team_body. keeps_with gs_prim.
  - unfold Bot.on_calendar, Bot.on_sheet_date, Bot.on_chat_date. cbv zeta.
    keeps_with ltac:(first [apply startFetchFlow_keeps_gsheets | gs_prim]).
  - unfold Bot.on_text. cbv zeta. keeps_with gs_prim.
Qed.

(** [writeToSheet] sends its [rows] argument and nothing else. *)
Lemma writeToSheet_calls chatId sid rows ow w :
  exists calls,
    gsheets (snd (Bot.writeToSheet chatId sid rows ow w))
    = (gsheets w ++ calls)%list
    /\ Forall (fun c => forall vs, values_of c = Some vs -> vs = rows) calls.
Proof.
  unfold Bot.writeToSheet, bind, State.getRefreshToken, Bot.sheets_call. simpl.
  set (tok := user_tokens (store w) !! chatId).
  destruct ow.
  - destruct (sheets_api tok (gsheets w) _) eqn:H1; simpl.
    + eexists [_]. split; [reflexivity|].
      repeat constructor. simpl. discriminate.
    + destruct (sheets_api tok _ (ValuesUpdate _ _ _)); simpl;
        (eexists [_; _]; split; [now rewrite <- List.app_assoc|];
         repeat constructor; simpl; congruence).
  - destruct (sheets_api tok (gsheets w) _); simpl;
      (eexists [_]; split; [reflexivity|];
       repeat constructor; simpl; congruence).
Qed.

End SheetWrites.

Section SheetModeWrites.

Context `{E : Env}.

Lemma sheetMode_body_calls ctx w s0 :
  sessions (store w) !! Bot.chat_id ctx = Some s0 ->
  exists calls,
    gsheets (snd (Bot.sheetMode_body ctx w)) = (gsheets w ++ calls)%list
    /\ Forall (fun c => forall vs, values_of c = Some vs ->
                 written_from w (Bot.chat_id ctx) vs) calls.
Proof.
  intros Hs. unfold Bot.sheetMode_body, bind at 1, State.getSession.
  simpl. rewrite Hs. simpl.
  set (s := json_session s0).
  unfold bind, Bot.data_rows.
  destruct (s !! "rows") as [[| | |rs]|] eqn:Hrows; simpl;
    try (exists []; split; [now rewrite List.app_nil_r | constructor]).
  unfold try_catch.
  match goal with
  | |- context [Bot.writeToSheet ?c ?i ?o ?b w] =>
      destruct (writeToSheet_calls c i o b w) as (calls & Hg & Hall);
      destruct (Bot.writeToSheet c i o b w) as [[[]|e] w1] eqn:Hw
  end; simpl in *.
  - exists calls. split; [exact Hg|].
    eapply List.Forall_impl; [|exact Hall]. intros c Hc vs Hvs.
    exists s, rs. split; [|split].
    + unfold session_of. now rewrite Hs.
    + exact Hrows.
    + rewrite (Hc vs Hvs). reflexivity.
  - exists calls. split; [exact Hg|].
    eapply List.Forall_impl; [|exact Hall]. intros c Hc vs Hvs.
    exists s, rs. split; [|split].
    + unfold session_of. now rewrite Hs.
    + exact Hrows.
    + rewrite (Hc vs Hvs). reflexivity.
Qed.

End SheetModeWrites.

(** C5, as the code has it: whatever update is handled, every call that
    carries values to the spreadsheet carries the 10-column header row
    followed by one row per record of the chosen team, in the order of the
    export; the header is [Caller, Team, Callee, Status, Duration (s),
    Talktime (s), Hangup By, Call Date, Call Time, End Time] and the row of a
    record lists raw columns 5, 6, 7, 8, 9, 10, 11, 1, 2, 3: the Caller cell is
    raw column 5 (the agent), raw column 0 is not read. *)
Theorem sheet_write_shape `{E : Env} (u : Bot.Update) (ctx : Bot.Ctx) (w : World) :
  (exists calls,
     gsheets (snd (Bot.handler u ctx w)) = (gsheets w ++ calls)%list
     /\ Forall (fun c => forall vs, values_of c = Some vs ->
                  written_from w (Bot.chat_id ctx) vs) calls)
  /\ Bot.sheet_header
     = map CStr ["Caller"; "Team"; "Callee"; "Status"; "Duration (s)";
                 "Talktime (s)"; "Hangup By"; "Call Date"; "Call Time";
                 "End Time"]
  /\ forall r : row,
       Bot.sheet_row r
       = [col r 5; col r 6; col r 7; col r 8; col r 9; col r 10; col r 11;
          col r 1; col r 2; col r 3].
Proof.
  split; [|split; [reflexivity | intros r; reflexivity]].
  assert (Hcase : u = Bot.CbSheetMode \/ u <> Bot.CbSheetMode)
    by (destruct u; first [left; reflexivity | right; discriminate]).
  destruct Hcase as [->|Hu].
  - simpl.
    destruct (sessions (store w) !! Bot.chat_id ctx) as [s0|] eqn:Hs.
    + rewrite (guard_passes _ ctx w s0 Hs).
      exact (sheetMode_body_calls ctx w s0 Hs).
    + rewrite (guard_restarts _ ctx w Hs). simpl.
      exists []. split; [now rewrite List.app_nil_r | constructor].
  - exists []. split; [|constructor].
    rewrite List.app_nil_r. apply (other_handlers_keep_gsheets u ctx Hu).
Qed.

(** The claim of C5 fails on the Caller cell: appending the Sales rows of
    the demo export writes the agent name from raw column 5 where the claim
    has the phone number of raw column 0. *)
Lemma caller_column_counterexample :
  let w := init_world Demo.sheet_ready in
  let rs := chosen_rows (default ∅ (session_of w 7)) (json_rows Demo.demo_rows) in
  gsheets (snd (Bot.handler (E := Demo.demo_env) Bot.CbSheetMode
                  (Demo.press 7 ["append"]) w))
  = [ValuesAppend "sheet123" "Sheet1!A1"
       (Bot.sheet_header :: map Bot.sheet_row rs)]
  /\ length rs = 3%nat
  /\ map (fun r => col r 0) (map Bot.sheet_row rs)
     = [CStr "Jane Doe"; CStr "Jan Lee"; CStr "Jane Doe"]
  /\ map (fun r => col r 0) (map claimed_row rs)
     = [CStr "1001"; CStr "1002"; CStr "1001"]
  /\ Bot.sheet_header :: map Bot.sheet_row rs
     <> Bot.sheet_header :: map claimed_row rs.
Proof.
  intros w rs.
  split; [vm_compute; reflexivity|].
  split; [vm_compute; reflexivity|].
  split; [vm_compute; reflexivity|].
  split; [vm_compute; reflexivity|].
  vm_compute. discriminate.
Qed.

(** ** Worked examples *)

Example agent_exact_match :
  Match.bestAgentMatch ["Jane Doe"] "jane doe" = Some "Jane Doe".
Proof. reflexivity. Qed.

Example agent_no_candidate : Match.bestAgentMatch [] "x" = None.
Proof. reflexivity. Qed.

(** A near miss within two edits wins over a substring match. *)
Example agent_near_miss_wins :
  Match.bestAgentMatch ["Jane Doe"; "Jan"] "jane" = Some "Jan".
Proof. reflexivity. Qed.

Example summary_unknown_team :
  last (outbox (snd (Bot.handler (E := Demo.demo_env) Bot.CmdSummary
                       (Demo.say 7 "/summary today NonexistentTeam")
                       (init_world Demo.creds_and_session))))
  = Some {| okind := Reply;
            otext := "<b>No calls found for team " +:+ dq +:+ "NonexistentTeam"
                     +:+ dq +:+ " on 2025-07-02.</b>";
            omarkup := NoMarkup; ohtml := true |}.
Proof. vm_compute. reflexivity. Qed.

(** After a date is picked in chat mode the session holds both the rows
    and the date. *)
Example chat_script_session :
  let s : session :=
    default ∅ (session_of (Bot.handle_all (E := Demo.demo_env) Demo.chat_script
                             (init_world empty_store)) 7) in
  s !! "dateStr" = Some (VStr "2025-07-01")
  /\ s !! "rows" = Some (VRows (json_rows Demo.demo_rows))
  /\ s !! "step" = Some (VStr "chat_await_date").
Proof. vm_compute. repeat split; reflexivity. Qed.

(** Jane Doe of Sales took two calls, one answered and one cancelled. *)
Example chat_agent_stats :
  Bot.stats_text "Jane Doe" "2025-07-01"
    (filter (fun r => eq_str (col r 6) "Sales" && eq_str (col r 5) "Jane Doe" = true)
            (slice1 Demo.demo_rows))
  = "<b>Name:</b> <b>Jane Doe</b>" +:+ nl
    +:+ "<b>Date:</b> <b>2025-07-01</b>" +:+ nl
    +:+ "<b>Calls:</b> <b>2</b>" +:+ nl
    +:+ "<b>Answered:</b> <b>1</b>" +:+ nl
    +:+ "<b>Cancelled:</b> <b>1</b>" +:+ nl
    +:+ "<b>Busy:</b> <b>0</b>".
Proof. vm_compute. reflexivity. Qed.

(** A stale team button, pressed when the session is gone, restarts the
    mode choice. *)
Example stale_button_restarts :
  Bot.handler (E := Demo.demo_env) Bot.CbChatTeam (Demo.press 7 ["Sales"])
    (init_world Demo.creds_only)
  = (Ok tt,
     {| store := Demo.creds_only; jar := [];
        outbox := [Bot.expired_notice; Bot.mode_prompt];
        http := []; gsheets := []; calendarDefault := None |}).
Proof. vm_compute. reflexivity. Qed.

(* ===================================================================== *)
(** * Further properties of the handlers *)
(* ===================================================================== *)

(** ** Menus list each value once, in first-seen order *)

Section Uniq.

Context {A : Type} `{EqDecision A}.

Lemma uniq_from_elem (l : list A) :
  forall seen x, x ∈ uniq_from seen l <-> x ∈ l /\ x ∉ seen.
Proof.
  induction l as [|y l IH]; intros seen x; simpl.
  - split; [intros H; inversion H | intros [H _]; inversion H].
  - case_bool_decide as Hy.
    + rewrite IH, elem_of_cons. split; [tauto|].
      intros [[->|Hx] Hn]; [contradiction | tauto].
    + rewrite !elem_of_cons, IH, elem_of_cons.
      destruct (decide (x = y)) as [->|Hne]; [tauto|]. tauto.
Qed.

Lemma uniq_from_NoDup (l : list A) : forall seen, NoDup (uniq_from seen l).
Proof.
  induction l as [|y l IH]; intros seen; simpl.
  - constructor.
  - case_bool_decide as Hy; [apply IH|].
    constructor; [|apply IH].
    rewrite uniq_from_elem, elem_of_cons. tauto.
Qed.

Lemma uniq_from_sublist (l : list A) :
  forall seen, uniq_from seen l `sublist_of` l.
Proof.
  induction l as [|y l IH]; intros seen; simpl.
  - constructor.
  - case_bool_decide; [apply sublist_cons | apply sublist_skip]; apply IH.
Qed.

Lemma StronglySorted_on (R R' : A -> A -> Prop) (l : list A) :
  (forall a b, a ∈ l -> b ∈ l -> R a b -> R' a b) ->
  StronglySorted R l -> StronglySorted R' l.
Proof.
  intros HR Hs. induction Hs as [|a l Hs IH Hall]; constructor.
  - apply IH. intros x y Hx Hy. apply HR; apply list_elem_of_further; assumption.
  - apply Forall_forall. intros b Hb. apply HR.
    + apply list_elem_of_here.
    + apply list_elem_of_further, Hb.
    + rewrite Forall_forall in Hall. apply Hall, Hb.
Qed.

(** What is kept comes in the order of the first occurrences. *)
Lemma uniq_from_first_pos (l : list A) :
  forall seen,
    StronglySorted (fun a b => first_pos a l < first_pos b l)%nat
                   (uniq_from seen l).
Proof.
  induction l as [|y l IH]; intros seen; simpl.
  - constructor.
  - assert (Hshift : forall seen', y ∈ seen' ->
              StronglySorted
                (fun a b => (if decide (a = y) then 0 else S (first_pos a l))
                            < (if decide (b = y) then 0 else S (first_pos b l)))%nat
                (uniq_from seen' l)).
    { intros seen' Hy. refine (StronglySorted_on _ _ _ _ (IH seen')).
      intros a b Ha Hb Hab.
      apply uniq_from_elem in Ha as [_ Ha]. apply uniq_from_elem in Hb as [_ Hb].
      rewrite !decide_False by (intros ->; contradiction). lia. }
    case_bool_decide as Hy.
    + apply Hshift, Hy.
    + constructor.
      * apply Hshift, list_elem_of_here.
      * apply Forall_forall. intros b Hb.
        apply uniq_from_elem in Hb as [_ Hb].
        rewrite decide_True by reflexivity.
        rewrite decide_False; [lia|].
        intros ->. apply Hb, list_elem_of_here.
Qed.

End Uniq.

(** The team keyboard of the chat flow (lines 537-540 and 606-612) shows
    every team of the data rows exactly once, an empty team as the empty
    label, in the order of first appearance: a team stands before another
    exactly when its first row comes before the first row of the other.
    The title row is left out. *)
Theorem team_menu_distinct (rows : list row) :
  let teams := map (fun r => or_empty (col r 6)) (slice1 rows) in
  NoDup (Bot.team_menu rows)
  /\ (forall t, t ∈ Bot.team_menu rows <->
                exists r, r ∈ slice1 rows /\ or_empty (col r 6) = t)
  /\ Bot.team_menu rows `sublist_of` teams
  /\ StronglySorted (fun a b => first_pos a teams < first_pos b teams)%nat
                    (Bot.team_menu rows).
Proof.
  unfold Bot.team_menu, uniq. split; [apply uniq_from_NoDup|]. split; [|split].
  - intros t. rewrite uniq_from_elem, list_elem_of_fmap. split.
    + intros [(r & -> & Hr) _]. exists r. auto.
    + intros (r & Hr & <-). split; [exists r; auto | apply not_elem_of_nil].
  - apply uniq_from_sublist.
  - apply uniq_from_first_pos.
Qed.

(** Teams A, B, A give the menu A, B. *)
Example team_menu_order :
  Bot.team_menu [Demo.title_row;
                 Demo.call "1" "x" "A" "ANSWER" 1;
                 Demo.call "2" "y" "B" "ANSWER" 1;
                 Demo.call "3" "z" "A" "BUSY" 0]
  = [CStr "A"; CStr "B"].
Proof. vm_compute. reflexivity. Qed.

(** The agent keyboard of a team (lines 557-561, 634-641) shows each agent
    of that team's rows exactly once and no agent of another team. *)
Theorem agents_of_distinct (drows : list row) (team : string) :
  NoDup (Bot.agents_of drows (Some (VStr team)))
  /\ forall a, a ∈ Bot.agents_of drows (Some (VStr team)) <->
               exists r, r ∈ drows /\ col r 6 = CStr team /\ col r 5 = a.
Proof.
  unfold Bot.agents_of, uniq. split; [apply uniq_from_NoDup|].
  intros a. rewrite uniq_from_elem, list_elem_of_fmap. split.
  - intros [(r & -> & Hr) _]. apply list_elem_of_filter in Hr as [Hp Hr].
    exists r. split; [exact Hr|]. split; [|reflexivity].
    destruct (col r 6); simpl in Hp; try discriminate.
    now apply bool_decide_eq_true in Hp as ->.
  - intros (r & Hr & H6 & <-). split; [|apply not_elem_of_nil].
    exists r. split; [reflexivity|]. apply list_elem_of_filter.
    split; [|exact Hr]. rewrite H6. simpl. now apply bool_decide_eq_true.
Qed.

(** ** An exact name always resolves *)

Lemma levenshtein_zero (s : string) :
  forall t, levenshtein s t = 0%nat -> s = t.
Proof.
  induction s as [|a s IH]; intros t H.
  - destruct t; [reflexivity | discriminate].
  - destruct t as [|b t]; [discriminate|].
    cbn [levenshtein] in H. unfold min3 in H.
    destruct (Ascii.eqb_spec a b) as [->|Hne].
    + f_equal. apply IH. lia.
    + lia.
Qed.

(** When the query is the lowercased name of a candidate, the lookup of
    /agent (lines 659-670) returns a candidate with exactly that lowercased
    name, whatever other candidates contain the query. *)
Theorem exact_name_resolves (agents : list string) (input a : string) :
  In a agents -> toLowerCase a = input ->
  exists b, Match.bestAgentMatch agents input = Some b
            /\ In b agents /\ toLowerCase b = input.
Proof.
  intros Hin Ha. destruct agents as [|a0 l]; [destruct Hin|].
  destruct (MatchFacts.best_loop_min input a0 l)
    as (best & score & Hl & Hb & Hsc & Hall).
  rewrite List.Forall_forall in Hall. specialize (Hall a Hin).
  unfold dist in Hall, Hsc. rewrite Ha, levenshtein_refl in Hall.
  assert (score = 0%nat) as -> by lia.
  exists best. split; [|split; [exact Hb|]].
  - unfold Match.bestAgentMatch. rewrite Hl. simpl.
    now rewrite andb_false_r.
  - symmetry in Hsc. apply levenshtein_zero in Hsc. exact Hsc.
Qed.

Lemma exact_name_resolves_witness :
  exists b, Match.bestAgentMatch ["Jane Doe"; "Jan Lee"] "jan lee" = Some b
            /\ In b ["Jane Doe"; "Jan Lee"] /\ toLowerCase b = "jan lee".
Proof.
  apply (exact_name_resolves ["Jane Doe"; "Jan Lee"] "jan lee" "Jan Lee").
  - simpl. right. left. reflexivity.
  - reflexivity.
Defined.

(** ** The /summary tally *)

Section Tally.












End Tally.


(** ** The argument of /agent *)

Section Arguments.

Lemma split_on_cons (sep : ascii) (s : string) :
  exists w ws, split_on sep s = w :: ws.
Proof.
  destruct s as [|c r]; simpl; [eauto|].
  destruct (Ascii.eqb c sep); [eauto|].
  destruct (split_on sep r); eauto.
Qed.

(** [text.split(' ').join(' ')] gives the text back. *)
Lemma join_split_space (s : string) : join_space (split_space s) = s.
Proof.
  unfold split_space. induction s as [|c r IH]; [reflexivity|].
  cbn [split_on]. destruct (split_on_cons " "%char r) as (w & ws & Hr).
  rewrite Hr in *. subst r.
  destruct (Ascii.eqb_spec c " "%char) as [->|Hne];
    destruct ws as [|w' ws]; reflexivity.
Qed.

Lemma split_space_head (cmd rest : string) :
  includes cmd " " = false ->
  split_space (cmd +:+ String " "%char rest) = cmd :: split_space rest.
Proof.
  unfold split_space. induction cmd as [|c cmd IH]; intros Hc.
  - simpl. reflexivity.
  - cbn [includes startsWith] in Hc.
    destruct (Ascii.eqb_spec " "%char c) as [<-|Hne]; [discriminate Hc|].
    simpl in Hc. simpl.
    destruct (Ascii.eqb_spec c " "%char) as [->|_]; [congruence|].
    rewrite IH by exact Hc. reflexivity.
Qed.

End Arguments.

(** The query of /agent (line 628) is everything after the first space
    of the message, inner spaces kept, trimmed and lowercased. *)
Theorem agent_argument (cmd rest : string) :
  includes cmd " " = false ->
  toLowerCase (trim (join_space (slice1 (split_space (cmd +:+ " " +:+ rest)))))
  = toLowerCase (trim rest).
Proof.
  intros Hc. change (" " +:+ rest) with (String " "%char rest).
  rewrite split_space_head by exact Hc.
  unfold slice1. simpl. now rewrite join_split_space.
Qed.

Lemma agent_argument_witness :
  toLowerCase (trim (join_space (slice1 (split_space
                                          ("/agent" +:+ " " +:+ " Jane  Doe ")))))
  = toLowerCase (trim " Jane  Doe ").
Proof. apply (agent_argument "/agent" " Jane  Doe "). reflexivity. Defined.

(** ** The CSRF token of the login page *)

Section Csrf.

Lemma span_spec (p : ascii -> bool) (s : string) :
  forall a b, Bot.span p s = (a, b) ->
    s = a +:+ b /\ all_chars p a = true
    /\ match b with
       | String c _ => p c = false
       | EmptyString => True
       end.
Proof.
  induction s as [|c r IH]; intros a b H; simpl in H.
  - injection H as <- <-. auto.
  - destruct (p c) eqn:Hp.
    + destruct (Bot.span p r) as [a' b'] eqn:Hr. injection H as <- <-.
      destruct (IH a' b' eq_refl) as (-> & Ha & Hb).
      simpl. rewrite Hp. auto.
    + injection H as <- <-. simpl. auto.
Qed.

Lemma drop_str_app (a b : string) :
  Bot.drop_str (String.length a) (a +:+ b) = b.
Proof. induction a as [|c a IH]; simpl; [now destruct b | exact IH]. Qed.

Lemma is_dq_char (c : ascii) : Bot.is_dq c = true -> String c EmptyString = dq.
Proof.
  unfold Bot.is_dq, dq. intros H. apply Nat.eqb_eq in H.
  rewrite <- H, ascii_nat_embedding. reflexivity.
Qed.

Lemma csrf_match_step (html : string) :
  Bot.csrf_match html =
    match (if startsWith Bot.csrf_marker html then
             let '(tok, rest) :=
               Bot.span (fun c => negb (Bot.is_dq c))
                 (Bot.drop_str (String.length Bot.csrf_marker) html) in
             match tok, rest with
             | String _ _, String _ _ => Some tok
             | _, _ => None
             end
           else None) with
    | Some tok => Some tok
    | None => match html with
              | EmptyString => None
              | String _ r => Bot.csrf_match r
              end
    end.
Proof. destruct html; reflexivity. Qed.

End Csrf.

(** The token scraped from the login page (line 150) is what stands between
    the [csrf_webcall] marker and the next double quote: it is not empty and
    holds no double quote.  A page without the marker gives no token. *)
Theorem csrf_match_sound (html : string) :
  (forall tok, Bot.csrf_match html = Some tok ->
     exists pre post,
       html = pre +:+ Bot.csrf_marker +:+ tok +:+ dq +:+ post
       /\ tok <> EmptyString
       /\ all_chars (fun c => negb (Bot.is_dq c)) tok = true)
  /\ (includes html Bot.csrf_marker = false -> Bot.csrf_match html = None).
Proof.
  split.
  - induction html as [|c r IH]; intros tok H; rewrite csrf_match_step in H.
    + simpl in H. discriminate.
    + destruct (startsWith Bot.csrf_marker (String c r)) eqn:Hs.
      * apply startsWith_app in Hs as [rest Hrest].
        assert (Hd : Bot.drop_str (String.length Bot.csrf_marker) (String c r)
                     = rest) by (rewrite Hrest; apply drop_str_app).
        rewrite Hd in H.
        destruct (Bot.span _ rest) as [t rest'] eqn:Hsp.
        apply span_spec in Hsp as (-> & Ht & Hq).
        destruct t as [|t0 t]; [|destruct rest' as [|q post]].
        -- apply IH in H as (pre & post & -> & Hne & Hall).
           exists (String c pre), post. auto.
        -- apply IH in H as (pre & post & -> & Hne & Hall).
           exists (String c pre), post. auto.
        -- injection H as <-. apply negb_false_iff, is_dq_char in Hq.
           exists EmptyString, post. split; [|split; [discriminate | exact Ht]].
           rewrite Hrest, <- Hq. reflexivity.
      * apply IH in H as (pre & post & -> & Hne & Hall).
        exists (String c pre), post. auto.
  - induction html as [|c r IH]; intros Hinc.
    + reflexivity.
    + rewrite csrf_match_step. cbn [includes] in Hinc.
      apply orb_false_iff in Hinc as [Hs Hr]. rewrite Hs. apply IH, Hr.
Qed.

(** ** What a login attempt sends and stores *)

Ltac split_portal :=
  repeat match goal with
         | |- context [portal ?h ?j ?rq] =>
             let res := fresh "res" in
             destruct (portal h j rq) as [[?|? ?] ?] eqn:res; simpl
         | |- context [if ?b then _ else _] => destruct b eqn:?; simpl
         | |- context [match Bot.csrf_match ?x with _ => _ end] =>
             destruct (Bot.csrf_match x) eqn:?; simpl
         end.

(** One call of [ensureLoggedIn] (lines 122-201) sends the probe, then at
    most the login page request and then at most one login POST; the POST is
    sent only when the login page came back with status 200 and a token,
    and carries that token, the email and the password.  The call stores
    nothing unless it returns normally after the POST, and then only the
    cookies of its own chat; it sends no chat message and makes no Sheets
    call. *)
Theorem ensureLoggedIn_footprint `{E : Env} (c : Z) (e p : string) (w : World) :
  let r := Bot.ensureLoggedIn c e p w in
  exists reqs,
    http (snd r) = (http w ++ reqs)%list
    /\ (reqs = [probe_rq] \/ reqs = [probe_rq; login_page_rq]
        \/ exists csrf, reqs = [probe_rq; login_page_rq; login_post_rq csrf e p])
    /\ (forall csrf, In (login_post_rq csrf e p) reqs ->
          exists body j,
            portal (http w ++ [probe_rq])%list
                   (snd (portal (http w) (jar w) probe_rq)) login_page_rq
            = (Response 200 body, j)
            /\ Bot.csrf_match body = Some csrf)
    /\ (store (snd r) = store w
        \/ fst r = Ok tt
           /\ (exists csrf, reqs = [probe_rq; login_page_rq; login_post_rq csrf e p])
           /\ store (snd r)
              = {| flyfone_creds := flyfone_creds (store w);
                   user_tokens := user_tokens (store w);
                   sessions := sessions (store w);
                   sheet_map := sheet_map (store w);
                   cookies := <[c := jar (snd r)]> (cookies (store w)) |})
    /\ (forall err, fst r = Throw err -> store (snd r) = store w)
    /\ outbox (snd r) = outbox w
    /\ gsheets (snd r) = gsheets w.
Proof.
  intros r. subst r.
  unfold Bot.ensureLoggedIn, bind, try_catch, Bot.request, ret, throw,
    State.saveCookies.
  fold probe_rq login_page_rq. simpl.
  assert (Hno1 : forall csrf, ~ In (login_post_rq csrf e p) [probe_rq]).
  { intros csrf [H|[]]; discriminate H. }
  assert (Hno2 : forall csrf,
             ~ In (login_post_rq csrf e p) [probe_rq; login_page_rq]).
  { intros csrf [H|[H|[]]]; discriminate H. }
  split_portal;
    try (exists [probe_rq]; repeat split; auto;
         solve [discriminate | intros csrf H; destruct (Hno1 csrf H)]);
    try (exists [probe_rq; login_page_rq];
         rewrite <- ?List.app_assoc; repeat split; auto;
         solve [discriminate | intros csrf H; destruct (Hno2 csrf H)]).
  all: match goal with
       | H : Bot.status_is 200 ?st = true |- _ =>
           apply Z.eqb_eq in H; subst st
       end.
  all: match goal with
       | Hc : Bot.csrf_match _ = Some ?tok |- _ =>
           exists [probe_rq; login_page_rq; login_post_rq tok e p]
       end;
    rewrite <- ?List.app_assoc;
    (split; [reflexivity|]); (split; [eauto|]);
    (split; [intros csrf [H|[H|[H|[]]]]; try discriminate H;
             injection H as <-; eauto|]).
  all: first [ split; [right; split; [reflexivity|];
                       split; [eauto | reflexivity]|];
               split; [discriminate | auto]
             | split; [left; reflexivity|]; split; auto ].
Qed.

(** ** The export download *)

Section ClientOutbox.

Context `{E : Env}.

Lemma request_keeps_outbox rq v : keeps outbox (Bot.request rq v).
Proof.
  intros w. unfold Bot.request.
  destruct (portal (http w) (jar w) rq) as [[msg|st body] j]; simpl.
  - reflexivity.
  - destruct (v st); reflexivity.
Qed.

Lemma ensureLoggedIn_keeps_outbox c e p : keeps outbox (Bot.ensureLoggedIn c e p).
Proof.
  unfold Bot.ensureLoggedIn.
  keeps_with ltac:(first [apply request_keeps_outbox | intros ?; reflexivity]).
Qed.

Lemma download_keeps_outbox c d e p :
  keeps outbox (Bot.downloadFlyfoneReport c d e p).
Proof.
  unfold Bot.downloadFlyfoneReport.
  keeps_with ltac:(first [apply request_keeps_outbox
                         | apply ensureLoggedIn_keeps_outbox
                         | intros ?; reflexivity]).
Qed.

End ClientOutbox.

(** When [downloadFlyfoneReport] (lines 204-225) returns rows, the login
    check returned normally, the last request sent is the export of exactly
    the requested day (both bounds equal to it, all statuses, all teams),
    the portal answered it with status 200, and the rows are what the XLSX
    reader makes of that answer. *)
Theorem download_returns_export `{E : Env} (c : Z) (d e p : string) (w : World)
    (rows : list row) :
  fst (Bot.downloadFlyfoneReport c d e p w) = Ok rows ->
  let w1 := snd (Bot.ensureLoggedIn c e p w) in
  fst (Bot.ensureLoggedIn c e p w) = Ok tt
  /\ http (snd (Bot.downloadFlyfoneReport c d e p w))
     = (http w1 ++ [export_rq d])%list
  /\ exists body j,
       portal (http w1) (jar w1) (export_rq d) = (Response 200 body, j)
       /\ XLSX_read body = inr rows.
Proof.
  unfold Bot.downloadFlyfoneReport, bind. fold (export_rq d).
  destruct (Bot.ensureLoggedIn c e p w) as [[[]|err] w1]; simpl;
    [|discriminate].
  unfold Bot.request.
  destruct (portal (http w1) (jar w1) (export_rq d)) as [[msg|st body] j] eqn:Hp;
    simpl; [discriminate|].
  destruct (Bot.status_2xx st); simpl; [|discriminate].
  destruct (Z.eqb_spec st 200) as [->|Hne]; simpl; [|discriminate].
  destruct (XLSX_read body) as [err|rs] eqn:Hx; simpl; [discriminate|].
  intros [= <-]. split; [reflexivity|]. split; [reflexivity|].
  exists body, j. auto.
Qed.

Lemma download_returns_export_witness :
  http (snd (Bot.downloadFlyfoneReport (E := Demo.demo_env) 7 "2025-07-01"
               "a@b.c" "secret" (init_world empty_store)))
  = (http (snd (Bot.ensureLoggedIn (E := Demo.demo_env) 7 "a@b.c" "secret"
                  (init_world empty_store)))
     ++ [export_rq "2025-07-01"])%list.
Proof.
  apply (download_returns_export (E := Demo.demo_env) 7 "2025-07-01" "a@b.c"
           "secret" (init_world empty_store) Demo.demo_rows).
  vm_compute. reflexivity.
Defined.

(** ** Flows that always answer *)

(** [startFetchFlow] (lines 814-875) never raises and always sends exactly
    one message, a reply in HTML, which the outcome of the download decides.
    When the download raised it is the text of the error, the retry hint
    for a refused password, and no session is written.  When it returned
    rows and a sheet is linked it is the export menu, one button per
    lower-cased team; with no sheet it is the team menu, one button per
    team, or the no-teams notice when the rows name no team.  With a menu,
    and only then, the rows, the date and the sheet id are merged into the
    chat's session. *)
Theorem startFetchFlow_always_answers `{E : Env} (ctx : Bot.Ctx)
    (e p : string) (sid d : option string) (w : World) :
  let c := Bot.chat_id ctx in
  let ds := if Bot.truthy_str d then default "" d
            else dayjs_format dayjs_yesterday in
  let r1 := Bot.downloadFlyfoneReport c ds e p (snd (State.loadCookies c w)) in
  let r := Bot.startFetchFlow ctx e p sid d w in
  let merged (rows : list row) : session :=
    <["sheetId" := match sid with Some i => VStr i | None => VNull end]>
      (<["dateStr" := VStr ds]>
         (<["rows" := VRows rows]> (default ∅ (session_of w c)))) in
  fst r = Ok tt
  /\ exists o,
       outbox (snd r) = (outbox w ++ [o])%list
       /\ okind o = Reply /\ ohtml o = true
       /\ match fst r1 with
          | Throw err =>
              otext o
              = "<b>"
                +:+ (if bool_decide (message err = "Incorrect email or password")
                     then "Incorrect email or password. Please /fetch again to retry."
                     else "Error: " +:+ message err)
                +:+ "</b>"
              /\ omarkup o = NoMarkup
              /\ sessions (store (snd r)) = sessions (store w)
          | Ok rows =>
              if Bot.truthy_str sid then
                otext o = "<b>Select a team to export:</b>"
                /\ omarkup o
                   = Bot.column_kb
                       (map (fun key => (key, "team:" +:+ key))
                            (uniq (map toLowerCase (Bot.raw_teams rows))))
                /\ session_of (snd r) c = Some (json_session (merged rows))
              else
                match uniq (Bot.raw_teams rows) with
                | [] =>
                    otext o = "<b>" +:+ ("No teams found on " +:+ ds +:+ ".")
                              +:+ "</b>"
                    /\ omarkup o = NoMarkup
                    /\ sessions (store (snd r)) = sessions (store w)
                | teams =>
                    otext o = "<b>Select a team:</b>"
                    /\ omarkup o
                       = Bot.column_kb
                           (map (fun label =>
                                   (label, "team:" +:+ toLowerCase label)) teams)
                    /\ session_of (snd r) c = Some (json_session (merged rows))
                end
          end.
Proof.
  intros c ds r1 r merged. subst r r1.
  unfold Bot.startFetchFlow, try_catch, bind, State.loadCookies.
  cbv beta iota zeta. cbn [fst snd]. fold c ds.
  set (w0 := {| store := store w; jar := default [] (cookies (store w) !! c);
                outbox := outbox w; http := http w; gsheets := gsheets w;
                calendarDefault := calendarDefault w |}).
  pose proof (download_keeps_outbox c ds e p w0) as Ho.
  pose proof (download_keeps_sessions c ds e p w0) as Hs.
  unfold sess_table in Hs. cbv beta in Ho.
  change (outbox w0) with (outbox w) in Ho.
  change (sessions (store w0)) with (sessions (store w)) in Hs.
  destruct (Bot.downloadFlyfoneReport c ds e p w0)
    as [[rows|err] w1]; cbn [fst snd] in *.
  - unfold State.getSession, State.saveSession, State.upd_store,
      Bot.replyBold, Bot.reply_html, Bot.send.
    assert (Hget : json_session <$> sessions (store w1) !! c = session_of w c)
      by (unfold session_of; now rewrite Hs).
    destruct (Bot.truthy_str sid).
    + cbn [fst snd store sessions outbox]. rewrite Hget.
      split; [reflexivity|]. eexists. split; [rewrite Ho; reflexivity|].
      cbn [okind ohtml otext omarkup]. repeat (split; [reflexivity|]).
      unfold session_of. cbn [store sessions]. rewrite lookup_insert_eq.
      cbn [fmap option_fmap option_map]. now rewrite json_session_idem.
    + destruct (uniq (Bot.raw_teams rows)) as [|t ts].
      * cbn [fst snd store sessions outbox].
        split; [reflexivity|]. eexists. split; [rewrite Ho; reflexivity|].
        cbn [okind ohtml otext omarkup]. repeat (split; [reflexivity|]).
        exact Hs.
      * cbn [fst snd store sessions outbox]. rewrite Hget.
        split; [reflexivity|]. eexists. split; [rewrite Ho; reflexivity|].
        cbn [okind ohtml otext omarkup]. repeat (split; [reflexivity|]).
        unfold session_of. cbn [store sessions]. rewrite lookup_insert_eq.
        cbn [fmap option_fmap option_map]. now rewrite json_session_idem.
  - unfold Bot.replyBold, Bot.reply_html, Bot.send.
    cbn [fst snd store sessions outbox].
    split; [reflexivity|]. eexists. split; [rewrite Ho; reflexivity|].
    cbn [okind ohtml otext omarkup]. repeat (split; [reflexivity|]).
    exact Hs.
Qed.

(** /summary (lines 714-767) never raises, with or without a session, and
    always sends at least one message. *)
Theorem summary_always_answers `{E : Env} (ctx : Bot.Ctx) (w : World) :
  let r := Bot.handler Bot.CmdSummary ctx w in
  fst r = Ok tt
  /\ exists o more, outbox (snd r) = (outbox w ++ o :: more)%list.
Proof.
  intros r. subst r. simpl.
  destruct (sessions (store w) !! Bot.chat_id ctx) as [s|] eqn:Hs.
  - rewrite (guard_passes _ ctx w s Hs). unfold Bot.cmd_summary_body.
    destruct (slice1 (split_ws (Bot.text ctx))) as [|rawDate [|t1 ts]];
      try (simpl; split; [reflexivity | eexists _, []; reflexivity]).
    destruct (Bot.parseDateInput rawDate) as [dt|];
      [|simpl; split; [reflexivity | eexists _, []; reflexivity]].
    unfold Bot.summary_pipeline, try_catch, bind. simpl.
    destruct (flyfone_creds (store w) !! Bot.chat_id ctx) as [cr|];
      [|simpl; split; [reflexivity | eexists _, []; reflexivity]].
    simpl.
    match goal with
    | |- context [Bot.downloadFlyfoneReport ?c ?ds ?e ?p ?w0] =>
        pose proof (download_keeps_outbox c ds e p w0) as Ho;
        destruct (Bot.downloadFlyfoneReport c ds e p w0) as [[rows|err] w1]
    end; simpl in Ho; simpl.
    + match goal with
      | |- context [match ?l with [] => _ | _ :: _ => _ end] => destruct l
      end; simpl; (split; [reflexivity|]); rewrite Ho;
        eexists _, [_]; rewrite <- List.app_assoc; reflexivity.
    + split; [reflexivity|]. rewrite Ho.
      eexists _, [_]. rewrite <- List.app_assoc. reflexivity.
  - rewrite (guard_restarts _ ctx w Hs). simpl. split; [reflexivity|].
    eexists _, [_]. reflexivity.
Qed.

(** ** The date argument is not read strictly *)

(** C9, as the code has it.  [parseDateInput] passes the format and the
    strict flag to dayjs, which ignores both because the plugin that reads
    them is never loaded.  A date argument of the shape [dddd-dd-dd] is
    therefore accepted whatever its digits and whatever chrono-node would
    say: the date is [new Date(y, m - 1, d)], and /summary (reached with a
    session and credentials stored and a team name after the date) runs its
    pipeline for the day that date falls on.  It sends the loading notice
    and one more message, never the could-not-understand-date message.  The
    witness is [2025-02-30], for which the pipeline runs on 2 March 2025. *)
Theorem summary_date_not_strict `{E : Env} (ctx : Bot.Ctx) (w : World)
    (s : session) (rawDate t1 : string) (ts : list string) (y m d : Z)
    (creds : Creds) :
  sessions (store w) !! Bot.chat_id ctx = Some s ->
  slice1 (split_ws (Bot.text ctx)) = rawDate :: t1 :: ts ->
  Bot.iso_digits (toLowerCase (trim rawDate)) = Some (y, m, d) ->
  flyfone_creds (store w) !! Bot.chat_id ctx = Some creds ->
  let c := Bot.chat_id ctx in
  let team := join_space (t1 :: ts) in
  let dateStr := dayjs_format (Date_local y (m - 1) d) in
  let r := Bot.handler Bot.CmdSummary ctx w in
  Bot.parseDateInput rawDate = Some (Date_local y (m - 1) d)
  /\ r = Bot.summary_pipeline c team dateStr creds w
  /\ fst r = Ok tt
  /\ (exists o, outbox (snd r) = (outbox w ++ [loading_reply team dateStr; o])%list)
  /\ outbox (snd r) <> (outbox w ++ [date_error_reply rawDate])%list.
Proof.
  intros Hs Hargs Hiso Hc c team dateStr r.
  assert (Hparse : Bot.parseDateInput rawDate = Some (Date_local y (m - 1) d)).
  { unfold Bot.parseDateInput, Bot.dayjs_any.
    destruct (bool_decide (toLowerCase (trim rawDate) = "today")) eqn:Ht.
    { apply bool_decide_eq_true in Ht. rewrite Ht in Hiso. discriminate. }
    destruct (bool_decide (toLowerCase (trim rawDate) = "yesterday")) eqn:Hy.
    { apply bool_decide_eq_true in Hy. rewrite Hy in Hiso. discriminate. }
    rewrite Hiso. reflexivity. }
  assert (Hr : r = Bot.summary_pipeline c team dateStr creds w).
  { subst r. simpl. rewrite (guard_passes _ ctx w s Hs).
    unfold Bot.cmd_summary_body. rewrite Hargs, Hparse.
    unfold bind, State.getFlyfoneCreds. simpl. fold c. unfold c.
    rewrite Hc. reflexivity. }
  assert (Hout : fst r = Ok tt
                 /\ exists o, outbox (snd r)
                             = (outbox w ++ [loading_reply team dateStr; o])%list).
  { rewrite Hr. unfold Bot.summary_pipeline, try_catch, bind. simpl.
    match goal with
    | |- context [Bot.downloadFlyfoneReport ?c ?ds ?e ?p ?w0] =>
        pose proof (download_keeps_outbox c ds e p w0) as Ho;
        destruct (Bot.downloadFlyfoneReport c ds e p w0) as [[rows|err] w1]
    end; simpl in Ho; simpl.
    - match goal with
      | |- context [match ?l with [] => _ | _ :: _ => _ end] => destruct l
      end; simpl; (split; [reflexivity|]); rewrite Ho;
        eexists; rewrite <- List.app_assoc; reflexivity.
    - split; [reflexivity|]. rewrite Ho.
      eexists. rewrite <- List.app_assoc. reflexivity. }
  split; [exact Hparse|]. split; [exact Hr|].
  split; [apply Hout|]. split; [apply Hout|].
  destruct Hout as [_ [o Ho]]. rewrite Ho. intros H.
  apply app_inv_head in H. discriminate.
Qed.

Lemma summary_date_not_strict_witness :
  let ctx := Demo.say 7 "/summary 2025-02-30 Sales" in
  let w := init_world Demo.creds_and_session in
  Bot.handler (E := Demo.demo_env) Bot.CmdSummary ctx w
  = Bot.summary_pipeline (E := Demo.demo_env) 7 "Sales" "2025-03-02"
      {| email := "a@b.c"; pass := "secret" |} w.
Proof.
  intros ctx w.
  pose proof (summary_date_not_strict (E := Demo.demo_env) ctx w
                {[ "step" := VStr "await_sheet_url" ]} "2025-02-30" "Sales" []
                2025 2 30 {| email := "a@b.c"; pass := "secret" |}) as H.
  destruct H as (_ & H & _).
  - vm_compute. reflexivity.
  - vm_compute. reflexivity.
  - vm_compute. reflexivity.
  - vm_compute. reflexivity.
  - rewrite H. vm_compute. reflexivity.
Defined.

(** What the chat sees for [/summary 2025-02-30 Sales]: no refusal, and
    the export of 2 March 2025 requested from the portal. *)
Example summary_30_february :
  let ctx := Demo.say 7 "/summary 2025-02-30 Sales" in
  let w := init_world Demo.creds_and_session in
  let r := Bot.handler (E := Demo.demo_env) Bot.CmdSummary ctx w in
  Bot.dayjs_any (E := Demo.demo_env) "2025-02-30" <> None
  /\ chrono_parse (Env := Demo.demo_env) "2025-02-30" = []
  /\ map otext (outbox (snd r))
     = ["<b>Loading summary for Sales on 2025-03-02…</b>";
        Bot.summary_text "Sales" "2025-03-02"
          (filter (fun r => eq_str (col r 6) "Sales" = true)
                  (slice1 Demo.demo_rows))]
  /\ last (http (snd r)) = Some (export_rq "2025-03-02").
Proof. vm_compute. repeat split; try reflexivity. discriminate. Qed.

(** ** Logging in through the chat *)

Section LoginFrames.

Context `{E : Env}.

Lemma request_keeps_store rq v : keeps store (Bot.request rq v).
Proof.
  intros w. unfold Bot.request.
  destruct (portal (http w) (jar w) rq) as [[msg|st body] j]; simpl.
  - reflexivity.
  - destruct (v st); reflexivity.
Qed.

Lemma ensureLoggedIn_keeps_creds c e p :
  keeps (fun w => flyfone_creds (store w)) (Bot.ensureLoggedIn c e p).
Proof.
  unfold Bot.ensureLoggedIn.
  keeps_with ltac:(first [ intros w; now rewrite request_keeps_store
                         | intros ?; reflexivity]).
Qed.

End LoginFrames.

(** The text handler when the session awaits the password: what runs
    after [ensureLoggedIn], by its outcome. *)
Lemma on_text_await_pass `{E : Env} (ctx : Bot.Ctx) (w : World) (sess : session) :
  session_of w (Bot.chat_id ctx) = Some sess ->
  is_str (sess !! "step") "await_pass" = true ->
  let c := Bot.chat_id ctx in
  let mail := display_val (sess !! "email") in
  let pw := trim (Bot.text ctx) in
  let r1 := Bot.ensureLoggedIn c mail pw (snd (State.loadCookies c w)) in
  Bot.on_text ctx w
  = match fst r1 with
    | Ok _ =>
        (State.saveFlyfoneCreds c mail pw ;;;
         State.saveSession c (<["step" := VStr "await_mode"]> sess) ;;;
         Bot.reply_html "<b>Login successful! Now choose a mode:</b>"
           Bot.mode_kb) (snd r1)
    | Throw _ =>
        (State.saveSession c (<["step" := VStr "await_email"]> sess) ;;;
         Bot.replyBold "Credentials invalid, try your Flyfone email again:"
           NoMarkup) (snd r1)
    end.
Proof.
  intros Hsess Hstep c mail pw r1. subst r1.
  assert (Hmail : is_str (sess !! "step") "await_email" = false).
  { destruct (sess !! "step") as [[| s | |]|]; try discriminate Hstep.
    simpl in *. apply bool_decide_eq_true in Hstep as ->. reflexivity. }
  unfold session_of in Hsess. fold c in Hsess.
  unfold Bot.on_text, try_catch, bind, State.getSession. simpl.
  fold c. rewrite Hsess, Hmail, Hstep. fold mail pw.
  destruct (Bot.ensureLoggedIn c mail pw _) as [[[]|err] w1]; reflexivity.
Qed.

(** The password step of the login dialogue (lines 782-811): the handler
    never raises; when [ensureLoggedIn] accepts the remembered email and the
    trimmed text, the pair is stored as the chat's credentials and the
    session moves to [await_mode]; when it raises, no credentials are stored
    and the session goes back to [await_email].  The other session fields
    stay as they were. *)
Theorem password_step `{E : Env} (ctx : Bot.Ctx) (w : World) (sess : session) :
  session_of w (Bot.chat_id ctx) = Some sess ->
  is_str (sess !! "step") "await_pass" = true ->
  let c := Bot.chat_id ctx in
  let mail := display_val (sess !! "email") in
  let pw := trim (Bot.text ctx) in
  let r1 := Bot.ensureLoggedIn c mail pw (snd (State.loadCookies c w)) in
  let r := Bot.handler Bot.TextMessage ctx w in
  fst r = Ok tt
  /\ match fst r1 with
     | Ok _ =>
         flyfone_creds (store (snd r))
         = <[c := {| email := mail; pass := pw |}]> (flyfone_creds (store w))
         /\ session_of (snd r) c = Some (<["step" := VStr "await_mode"]> sess)
     | Throw _ =>
         flyfone_creds (store (snd r)) = flyfone_creds (store w)
         /\ session_of (snd r) c = Some (<["step" := VStr "await_email"]> sess)
     end.
Proof.
  intros Hsess Hstep c mail pw r1 r. subst r r1.
  change (Bot.handler Bot.TextMessage ctx w) with (Bot.on_text ctx w).
  rewrite (on_text_await_pass ctx w sess Hsess Hstep). cbv zeta.
  fold c mail pw.
  assert (Hjs : json_session sess = sess).
  { unfold session_of in Hsess.
    destruct (sessions (store w) !! Bot.chat_id ctx) as [s0|]; [|discriminate].
    injection Hsess as <-. apply json_session_idem. }
  set (w0 := snd (State.loadCookies c w)).
  pose proof (ensureLoggedIn_keeps_creds c mail pw w0) as Hc.
  pose proof (ensureLoggedIn_keeps_sessions c mail pw w0) as Hs.
  unfold sess_table in Hs. simpl in Hc, Hs.
  destruct (Bot.ensureLoggedIn c mail pw w0) as [[[]|err] w1]; simpl in *.
  - split; [reflexivity|]. rewrite Hc. split; [reflexivity|].
    unfold session_of. simpl. rewrite lookup_insert_eq. simpl.
    rewrite json_session_idem, json_session_insert, Hjs. reflexivity.
  - split; [reflexivity|]. rewrite Hc. split; [reflexivity|].
    unfold session_of. simpl. rewrite lookup_insert_eq. simpl.
    rewrite json_session_idem, json_session_insert, Hjs. reflexivity.
Qed.

Lemma password_step_witness :
  fst (Bot.handler (E := Demo.demo_env) Bot.TextMessage (Demo.say 7 "wrong")
         await_pass_world) = Ok tt.
Proof.
  apply (password_step (E := Demo.demo_env) (Demo.say 7 "wrong")
           await_pass_world
           (<["step" := VStr "await_pass"]>
              (<["email" := VStr "a@b.c"]> {[ "step" := VStr "await_email" ]}))).
  - vm_compute. reflexivity.
  - vm_compute. reflexivity.
Defined.

(** ** Writing to the spreadsheet *)

Lemma writeToSheet_keeps_store `{E : Env} c sid rows overwrite (w : World) :
  store (snd (Bot.writeToSheet c sid rows overwrite w)) = store w
  /\ outbox (snd (Bot.writeToSheet c sid rows overwrite w)) = outbox w.
Proof.
  unfold Bot.writeToSheet, bind, State.getRefreshToken, Bot.sheets_call.
  simpl. destruct overwrite; simpl;
    repeat (match goal with
            | |- context [match sheets_api ?t ?l ?c with _ => _ end] =>
                destruct (sheets_api t l c)
            end; simpl); auto.
Qed.

(** [writeToSheet] (lines 81-106): appending is one append call; overwriting
    is a clear of [Sheet1!A1:Z] followed by an update at [Sheet1!A1], and the
    update is sent only when the clear was accepted.  The call returns
    normally exactly when every call it made was accepted, and it stores
    nothing. *)
Theorem writeToSheet_calls_in_order `{E : Env} (c : Z) (sid : string)
    (rows : list row) (overwrite : bool) (w : World) :
  let r := Bot.writeToSheet c sid rows overwrite w in
  let tok := user_tokens (store w) !! c in
  let clear := ValuesClear sid "Sheet1!A1:Z" in
  let update := ValuesUpdate sid "Sheet1!A1" rows in
  let append := ValuesAppend sid "Sheet1!A1" rows in
  store (snd r) = store w
  /\ outbox (snd r) = outbox w
  /\ if overwrite then
       match sheets_api tok (gsheets w) clear with
       | Some err =>
           fst r = Throw err /\ gsheets (snd r) = (gsheets w ++ [clear])%list
       | None =>
           gsheets (snd r) = (gsheets w ++ [clear; update])%list
           /\ fst r = match sheets_api tok (gsheets w ++ [clear])%list update with
                      | Some err => Throw err
                      | None => Ok tt
                      end
       end
     else
       gsheets (snd r) = (gsheets w ++ [append])%list
       /\ fst r = match sheets_api tok (gsheets w) append with
                  | Some err => Throw err
                  | None => Ok tt
                  end.
Proof.
  intros r tok clear update append. subst r.
  unfold Bot.writeToSheet, bind, State.getRefreshToken, Bot.sheets_call. simpl.
  fold tok clear update append.
  destruct overwrite.
  - destruct (sheets_api tok (gsheets w) clear); simpl; [auto|].
    destruct (sheets_api tok (gsheets w ++ [clear])%list update); simpl;
      rewrite <- List.app_assoc; auto.
  - destruct (sheets_api tok (gsheets w) append); simpl; auto.
Qed.

(** The write-mode handler (lines 900-929), given a session that holds an
    export, never raises, whatever the Sheets API answers, and leaves the
    store as it was.  It edits the message exactly once, and the outcome of
    [writeToSheet] decides to what: when the write returned, to the line
    that names the mode, the number of rows of the chosen team, the team
    and the date, in HTML; when it raised, to the write-failed text with
    the message of the error, as plain text.  It makes no call to the
    Sheets API besides those of [writeToSheet]. *)
Theorem sheetMode_reports `{E : Env} (ctx : Bot.Ctx) (w : World)
    (sess : session) (rs : list row) :
  session_of w (Bot.chat_id ctx) = Some sess ->
  sess !! "rows" = Some (VRows rs) ->
  let c := Bot.chat_id ctx in
  let overwrite := bool_decide (nth 0 (Bot.cmatch ctx) "" = "overwrite") in
  let chosen := chosen_rows sess rs in
  let wr := Bot.writeToSheet c (display_val (sess !! "sheetId"))
              (Bot.sheet_output chosen) overwrite w in
  let r := Bot.handler Bot.CbSheetMode ctx w in
  fst r = Ok tt
  /\ store (snd r) = store w
  /\ gsheets (snd r) = gsheets (snd wr)
  /\ outbox (snd r)
     = (outbox w
        ++ [match fst wr with
            | Ok _ =>
                {| okind := EditMessageText;
                   otext := "<b>" +:+ (if overwrite then "Overwrote" else "Appended")
                            +:+ " " +:+ Bot.show_nat (length chosen)
                            +:+ " rows for team “"
                            +:+ display_val (sess !! "selectedTeam") +:+ "” on "
                            +:+ display_val (sess !! "dateStr") +:+ "</b>";
                   omarkup := NoMarkup; ohtml := true |}
            | Throw err =>
                {| okind := EditMessageText;
                   otext := "❌ Write failed: " +:+ message err;
                   omarkup := NoMarkup; ohtml := false |}
            end])%list.
Proof.
  intros Hsess Hrows c overwrite chosen wr r. subst r wr. simpl.
  unfold session_of in Hsess.
  destruct (sessions (store w) !! Bot.chat_id ctx) as [s0|] eqn:Hs;
    [|discriminate].
  simpl in Hsess. injection Hsess as Hsess.
  rewrite (guard_passes _ ctx w s0 Hs).
  destruct (Bot.sheetMode_body ctx w) as [res wf] eqn:Hr.
  unfold Bot.sheetMode_body, bind, try_catch, State.getSession, Bot.data_rows in Hr.
  simpl in Hr. rewrite Hs in Hr. simpl in Hr. rewrite Hsess, Hrows in Hr.
  simpl in Hr. fold c overwrite in Hr.
  change (filter (fun r => Bot.team_is (sess !! "selectedTeam") r = true)
            (slice1 rs)) with chosen in Hr.
  pose proof (writeToSheet_keeps_store c (display_val (sess !! "sheetId"))
                (Bot.sheet_output chosen) overwrite w) as [Hst Hob].
  destruct (Bot.writeToSheet c (display_val (sess !! "sheetId"))
              (Bot.sheet_output chosen) overwrite w) as [[[]|err] w1];
    simpl in *; apply pair_equal_spec in Hr as [<- <-]; simpl;
    rewrite Hst, Hob; auto.
Qed.

Lemma sheetMode_reports_witness :
  fst (Bot.handler (E := Demo.demo_env) Bot.CbSheetMode
         (Demo.press 7 ["overwrite"]) (init_world Demo.sheet_ready)) = Ok tt.
Proof.
  apply (sheetMode_reports (E := Demo.demo_env) (Demo.press 7 ["overwrite"])
           (init_world Demo.sheet_ready)
           (default ∅ (session_of (init_world Demo.sheet_ready) 7))
           (json_rows Demo.demo_rows)).
  - vm_compute. reflexivity.
  - vm_compute. reflexivity.
Defined.

(** ** /fetch only sets the step *)

(** /fetch (lines 438-455 with [beginSheetFlow] and [beginChatFlow]) sends
    nothing to the portal or to the Sheets API and changes nothing in the
    store but, when it opens a date prompt, the [step] of the chat's
    session, which becomes [sheet_await_date] or [chat_await_date]; every
    other field of that session is kept. *)
Theorem fetch_sets_step_only `{E : Env} (ctx : Bot.Ctx) (w : World) :
  let c := Bot.chat_id ctx in
  let w' := snd (Bot.handler Bot.CmdFetch ctx w) in
  http w' = http w /\ gsheets w' = gsheets w
  /\ flyfone_creds (store w') = flyfone_creds (store w)
  /\ user_tokens (store w') = user_tokens (store w)
  /\ sheet_map (store w') = sheet_map (store w)
  /\ cookies (store w') = cookies (store w)
  /\ (sessions (store w') = sessions (store w)
      \/ exists sess step,
           session_of w c = Some sess
           /\ (step = "sheet_await_date" \/ step = "chat_await_date")
           /\ sessions (store w')
              = <[c := <["step" := VStr step]> sess]> (sessions (store w))).
Proof.
  intros c w'. subst w'. simpl.
  destruct (Bot.cmd_fetch ctx w) as [res wf] eqn:Hr.
  unfold Bot.cmd_fetch, Bot.beginSheetFlow, Bot.beginChatFlow, bind,
    State.getSession, State.getFlyfoneCreds, State.getSheet,
    Bot.replyBold, Bot.reply_html, Bot.send, throw in Hr.
  cbv beta zeta in Hr. fold c in Hr.
  unfold session_of. fold c.
  destruct (sessions (store w) !! c) as [s0|] eqn:Hs; simpl in Hr;
    destruct (flyfone_creds (store w) !! c); simpl in Hr;
    repeat match type of Hr with
           | context [if ?b then _ else _] => destruct b eqn:?; simpl in Hr
           end;
    rewrite ?Hs in Hr; simpl in Hr;
    apply pair_equal_spec in Hr as [<- <-]; simpl;
    repeat (split; [reflexivity|]); auto;
    right; eexists _, _; (split; [reflexivity|]);
    rewrite json_session_insert, json_session_idem; eauto.
Qed.

(** ** /sheet *)

Section SheetId.

Lemma match_d_id (s tok : string) :
  Bot.match_d s = Some tok ->
  tok <> EmptyString /\ all_chars Bot.is_id_char tok = true.
Proof.
  induction s as [|c r IH]; intros H.
  - simpl in H. discriminate.
  - cbn [Bot.match_d] in H.
    destruct (startsWith "/d/" (String c r)).
    + destruct (Bot.span Bot.is_id_char (Bot.drop_str 3 (String c r)))
        as [a b] eqn:Hsp.
      apply span_spec in Hsp as (_ & Ha & _).
      cbn [fst] in H. destruct a as [|c0 a].
      * apply IH, H.
      * injection H as <-. split; [discriminate | exact Ha].
    + apply IH, H.
Qed.

Lemma all_id_id (s : string) :
  Bot.all_id s = true -> s <> EmptyString /\ all_chars Bot.is_id_char s = true.
Proof.
  unfold Bot.all_id. destruct s as [|c r]; [discriminate|].
  destruct (Bot.span Bot.is_id_char (String c r)) as [a b] eqn:Hsp.
  apply span_spec in Hsp as (Hs & Ha & _).
  destruct b; [|discriminate]. intros _. split; [discriminate|].
  rewrite Hs. clear Hs.
  replace (a +:+ "") with a; [exact Ha|].
  clear. induction a as [|c0 a IH]; simpl; [reflexivity|].
  change (String c0 a = String c0 (a +:+ "")). now rewrite <- IH.
Qed.

End SheetId.

(** /sheet (lines 382-431) never raises and answers with exactly one
    message.  When it stores anything, the stored id is a non-empty string
    of letters, digits, underscores and hyphens, the same id goes to the
    sheet table and to the [sheetId] of the chat's session, the session is
    otherwise the one read (the empty one when none was stored), and the
    answer is the authorisation prompt: [getRefreshToken] returns a string
    or null, so the test on [creds?.refresh_token] never holds and the
    sheet-linked reply is never sent. *)
Theorem sheet_links_wellformed_id `{E : Env} (ctx : Bot.Ctx) (w : World) :
  let c := Bot.chat_id ctx in
  let r := Bot.handler Bot.CmdSheet ctx w in
  let sess : session := default ∅ (session_of w c) in
  fst r = Ok tt
  /\ (exists o, outbox (snd r) = (outbox w ++ [o])%list
        /\ (store (snd r) <> store w ->
            otext o = "<b>Please authorize access to Google Sheets:</b>"))
  /\ (store (snd r) = store w
      \/ exists sid,
           sid <> EmptyString /\ all_chars Bot.is_id_char sid = true
           /\ sheet_map (store (snd r)) = <[c := sid]> (sheet_map (store w))
           /\ sessions (store (snd r))
              = <[c := <["sheetId" := VStr sid]> sess]> (sessions (store w))
           /\ flyfone_creds (store (snd r)) = flyfone_creds (store w)
           /\ user_tokens (store (snd r)) = user_tokens (store w)
           /\ cookies (store (snd r)) = cookies (store w)).
Proof.
  intros c r sess. subst r. simpl.
  destruct (Bot.cmd_sheet ctx w) as [res wf] eqn:Hr.
  unfold Bot.cmd_sheet, bind, State.getSession, State.getRefreshToken,
    State.saveSession, State.saveSheet, Bot.replyBold, Bot.reply_html,
    Bot.send, Bot.refresh_token_prop in Hr.
  cbv beta zeta in Hr. fold c in Hr.
  assert (Hsess : default ∅ (json_session <$> sessions (store w) !! c) = sess)
    by reflexivity.
  cbn [fst snd store] in Hr. rewrite Hsess in Hr.
  assert (Hj : json_session sess = sess).
  { subst sess. unfold session_of.
    destruct (sessions (store w) !! c); simpl;
      [apply json_session_idem | reflexivity]. }
  destruct (negb (truthy_val (sess !! "connectSheet"))).
  { apply pair_equal_spec in Hr as [<- <-]. simpl.
    split; [reflexivity|]. split; [|auto].
    eexists. split; [reflexivity|]. intros Hne. now destruct Hne. }
  set (input := trim (nth 1 (split_space (Bot.text ctx)) "")) in Hr.
  assert (Hid : forall sid,
            match Bot.match_d input with
            | Some g => Some g
            | None => if Bot.all_id input then Some input else None
            end = Some sid ->
            sid <> EmptyString /\ all_chars Bot.is_id_char sid = true).
  { intros sid H. destruct (Bot.match_d input) as [g|] eqn:Hm.
    - injection H as <-. eapply match_d_id, Hm.
    - destruct (Bot.all_id input) eqn:Ha; [|discriminate].
      injection H as <-. apply all_id_id, Ha. }
  destruct (match Bot.match_d input with
            | Some g => Some g
            | None => if Bot.all_id input then Some input else None
            end) as [[|ch rest]|] eqn:Hsid.
  - apply pair_equal_spec in Hr as [<- <-]. simpl.
    split; [reflexivity|]. split; [|auto].
    eexists. split; [reflexivity|]. intros Hne. now destruct Hne.
  - simpl in Hr. apply pair_equal_spec in Hr as [<- <-]. simpl.
    split; [reflexivity|]. split.
    + eexists. split; reflexivity.
    + right. exists (String ch rest).
      destruct (Hid _ eq_refl) as [Hne Hall].
      rewrite json_session_insert, Hj. simpl. auto 10.
  - apply pair_equal_spec in Hr as [<- <-]. simpl.
    split; [reflexivity|]. split; [|auto].
    eexists. split; [reflexivity|]. intros Hne. now destruct Hne.
Qed.

(** ** One chat's update leaves the other chats' rows alone *)

Ltac local_prim :=
  first [ apply data_rows_keeps
        | intros ?;
          unfold other_chats, State.getRefreshToken, State.deleteRefreshToken,
            State.saveRefreshToken, State.getFlyfoneCreds,
            State.saveFlyfoneCreds, State.deleteFlyfoneCreds,
            State.getSession, State.saveSession, State.deleteSession,
            State.getSheet, State.saveSheet, State.deleteSheet,
            State.loadCookies, State.saveCookies, State.removeAllCookies,
            State.upd_store, Bot.replyBold, Bot.reply_html,
            Bot.editMessageText, Bot.answerCallbackQuery, Bot.send,
            Bot.set_calendarDefault;
          simpl; rewrite ?delete_insert_eq, ?delete_delete_eq; reflexivity ].

Section Isolation.

Context `{E : Env}.

Lemma request_local c rq v : keeps (other_chats c) (Bot.request rq v).
Proof.
  intros w. unfold Bot.request, other_chats.
  destruct (portal (http w) (jar w) rq) as [[msg|st body] j]; simpl.
  - reflexivity.
  - destruct (v st); reflexivity.
Qed.

Lemma sheets_call_local c tok sc : keeps (other_chats c) (Bot.sheets_call tok sc).
Proof.
  intros w. unfold Bot.sheets_call.
  destruct (sheets_api tok (gsheets w) sc); reflexivity.
Qed.

Lemma ensureLoggedIn_local c e p :
  keeps (other_chats c) (Bot.ensureLoggedIn c e p).
Proof.
  unfold Bot.ensureLoggedIn.
  keeps_with ltac:(first [apply request_local | local_prim]).
Qed.

Lemma download_local c d e p :
  keeps (other_chats c) (Bot.downloadFlyfoneReport c d e p).
Proof.
  unfold Bot.downloadFlyfoneReport.
  keeps_with ltac:(first [apply request_local | apply ensureLoggedIn_local
                         | local_prim]).
Qed.

Lemma writeToSheet_local c sid rows ow :
  keeps (other_chats c) (Bot.writeToSheet c sid rows ow).
Proof.
  unfold Bot.writeToSheet.
  keeps_with ltac:(first [apply sheets_call_local | local_prim]).
Qed.

Lemma withSessionGuard_local h ctx :
  keeps (other_chats (Bot.chat_id ctx)) (h ctx) ->
  keeps (other_chats (Bot.chat_id ctx)) (Bot.withSessionGuard h ctx).
Proof.
  intros Hh. unfold Bot.withSessionGuard.
  keeps_with ltac:(first [apply Hh | local_prim]).
Qed.

Lemma startFetchFlow_local ctx e p sid d :
  keeps (other_chats (Bot.chat_id ctx)) (Bot.startFetchFlow ctx e p sid d).
Proof.
  unfold Bot.startFetchFlow. cbv zeta.
  keeps_with ltac:(first [apply download_local | local_prim]).
Qed.

Lemma handler_local u ctx :
  keeps (other_chats (Bot.chat_id ctx)) (Bot.handler u ctx).
Proof.
  destruct u; simpl; try apply withSessionGuard_local.
  - unfold Bot.cmd_start. keeps_with local_prim.
  - unfold Bot.cmd_mode. keeps_with local_prim.
  - unfold Bot.cmd_logout, Bot.call. keeps_with local_prim.
  - unfold Bot.cmd_sheet. cbv zeta. keeps_with local_prim.
  - unfold Bot.cmd_fetch, Bot.beginSheetFlow, Bot.beginChatFlow. cbv zeta.
    keeps_with local_prim.
  - unfold Bot.cmd_team_body. keeps_with local_prim.
  - unfold Bot.cmd_agent_body. cbv zeta. keeps_with local_prim.
  - unfold Bot.cmd_summary_body, Bot.summary_pipeline. cbv zeta.
    keeps_with ltac:(first [apply download_local | local_prim]).
  - unfold Bot.cb_linkSheet_yes. keeps_with local_prim.
  - unfold Bot.cb_linkSheet_no. keeps_with local_prim.
  - unfold Bot.chat_team_body. cbv zeta. keeps_with local_prim.
  - unfold Bot.chat_agent_body. cbv zeta. keeps_with local_prim.
  - unfold Bot.team_body. keeps_with local_prim.
  - unfold Bot.sheetMode_body. cbv zeta.
    keeps_with ltac:(first [apply writeToSheet_local | local_prim]).
  - unfold Bot.on_calendar, Bot.on_sheet_date, Bot.on_chat_date. cbv zeta.
    keeps_with ltac:(first [apply startFetchFlow_local | apply download_local
                           | local_prim]).
  - unfold Bot.on_text. cbv zeta.
    keeps_with ltac:(first [apply ensureLoggedIn_local | local_prim]).
Qed.

Lemma handler_elsewhere u ctx (w : World) (c' : Z) :
  c' <> Bot.chat_id ctx ->
  let w' := snd (Bot.handler u ctx w) in
  flyfone_creds (store w') !! c' = flyfone_creds (store w) !! c'
  /\ user_tokens (store w') !! c' = user_tokens (store w) !! c'
  /\ sessions (store w') !! c' = sessions (store w) !! c'
  /\ sheet_map (store w') !! c' = sheet_map (store w) !! c'
  /\ cookies (store w') !! c' = cookies (store w) !! c'.
Proof.
  intros Hc w'. pose proof (handler_local u ctx w) as H. fold w' in H.
  unfold other_chats in H. injection H as H1 H2 H3 H4 H5.
  repeat split.
  - rewrite <- (lookup_delete_ne _ (Bot.chat_id ctx) c') by congruence.
    rewrite H1. now rewrite lookup_delete_ne by congruence.
  - rewrite <- (lookup_delete_ne _ (Bot.chat_id ctx) c') by congruence.
    rewrite H2. now rewrite lookup_delete_ne by congruence.
  - rewrite <- (lookup_delete_ne _ (Bot.chat_id ctx) c') by congruence.
    rewrite H3. now rewrite lookup_delete_ne by congruence.
  - rewrite <- (lookup_delete_ne _ (Bot.chat_id ctx) c') by congruence.
    rewrite H4. now rewrite lookup_delete_ne by congruence.
  - rewrite <- (lookup_delete_ne _ (Bot.chat_id ctx) c') by congruence.
    rewrite H5. now rewrite lookup_delete_ne by congruence.
Qed.

End Isolation.

(** Whatever updates arrive from other chats, in any number and order and
    whatever the portal and the Sheets API answer, the rows of chat [c] in
    the five tables (credentials, refresh tokens, sessions, sheet ids and
    cookies) stay as they were: every handler reads and writes the tables
    at the chat id of its own update only. *)
Theorem other_chats_untouched `{E : Env} (ucs : list (Bot.Update * Bot.Ctx))
    (w : World) (c : Z) :
  Forall (fun uc => Bot.chat_id (snd uc) <> c) ucs ->
  let w' := Bot.handle_all ucs w in
  flyfone_creds (store w') !! c = flyfone_creds (store w) !! c
  /\ user_tokens (store w') !! c = user_tokens (store w) !! c
  /\ sessions (store w') !! c = sessions (store w) !! c
  /\ sheet_map (store w') !! c = sheet_map (store w) !! c
  /\ cookies (store w') !! c = cookies (store w) !! c.
Proof.
  intros Hall. revert w. induction Hall as [|[u ctx] ucs Hne _ IH]; intros w.
  - simpl. auto.
  - simpl. specialize (IH (Bot.handle (u, ctx) w)). simpl in IH.
    destruct IH as (I1 & I2 & I3 & I4 & I5).
    destruct (handler_elsewhere u ctx w c) as (H1 & H2 & H3 & H4 & H5).
    { simpl in Hne. congruence. }
    unfold Bot.handle at 1 2 3 4 5. simpl.
    unfold Bot.handle in I1, I2, I3, I4, I5. simpl in I1, I2, I3, I4, I5.
    rewrite I1, I2, I3, I4, I5. auto.
Qed.

Lemma other_chats_untouched_witness :
  sessions (store (Bot.handle_all (E := Demo.demo_env) Demo.chat_script
                     (init_world Demo.creds_and_session))) !! 8
  = sessions (store (init_world Demo.creds_and_session)) !! 8.
Proof.
  apply (other_chats_untouched (E := Demo.demo_env) Demo.chat_script
           (init_world Demo.creds_and_session) 8).
  repeat constructor; vm_compute; discriminate.
Defined.

(** ** Credentials are stored only once the portal accepted them *)

(** [ensureLoggedIn] returns normally in two ways: the probe answered 200,
    and then nothing of the pair was sent, or the login form accepted the
    pair. *)
Lemma ensureLoggedIn_ok_cases `{E : Env} (c : Z) (e p : string) (w : World) :
  fst (Bot.ensureLoggedIn c e p w) = Ok tt ->
  probe_ok w = true \/ post_accepted e p w.
Proof.
  unfold post_accepted, probe_ok.
  unfold Bot.ensureLoggedIn, bind, try_catch, Bot.request, ret, throw,
    State.saveCookies.
  fold probe_rq login_page_rq. simpl.
  split_portal; intros H; try discriminate H; auto.
  all: repeat match goal with
              | H : Bot.status_is 200 ?st = true |- _ =>
                  apply Z.eqb_eq in H; subst st
              end.
  all: right; do 8 eexists.
  all: (split; [reflexivity|]); simpl.
  all: (split; [first [reflexivity | assumption]|]).
  all: (split; [eassumption|]). all: (split; [eassumption|]).
  all: (split; [eassumption|]). all: (split; [|assumption]).
  all: match goal with
       | H : (?a =? 302) || (?a =? 303) || (?a =? 200) = true |- _ =>
           apply orb_true_iff in H as [H|H];
           [apply orb_true_iff in H as [H|H]|]; apply Z.eqb_eq in H; auto
       end.
Qed.

Ltac creds_prim :=
  first [ apply data_rows_keeps
        | apply ensureLoggedIn_keeps_creds
        | intros w; now rewrite request_keeps_store
        | intros w; now rewrite (proj1 (writeToSheet_keeps_store _ _ _ _ w))
        | intros ?; reflexivity ].

Section CredsFrames.

Context `{E : Env}.

Abbreviation creds_table := (fun w : World => flyfone_creds (store w)).

Lemma download_keeps_creds c d e p :
  keeps creds_table (Bot.downloadFlyfoneReport c d e p).
Proof. unfold Bot.downloadFlyfoneReport. keeps_with creds_prim. Qed.

Lemma startFetchFlow_keeps_creds ctx e p sid d :
  keeps creds_table (Bot.startFetchFlow ctx e p sid d).
Proof.
  unfold Bot.startFetchFlow. cbv zeta.
  keeps_with ltac:(first [apply download_keeps_creds | creds_prim]).
Qed.

Lemma withSessionGuard_keeps_creds h ctx :
  keeps creds_table (h ctx) -> keeps creds_table (Bot.withSessionGuard h ctx).
Proof.
  intros Hh. unfold Bot.withSessionGuard.
  keeps_with ltac:(first [apply Hh | creds_prim]).
Qed.

Lemma other_handlers_keep_creds u ctx :
  u <> Bot.CmdStart -> u <> Bot.CmdLogout -> u <> Bot.TextMessage ->
  keeps creds_table (Bot.handler u ctx).
Proof.
  intros H0 H1 H2. destruct u; try congruence; simpl;
    try apply withSessionGuard_keeps_creds.
  - unfold Bot.cmd_mode. keeps_with creds_prim.
  - unfold Bot.cmd_sheet. cbv zeta. keeps_with creds_prim.
  - unfold Bot.cmd_fetch, Bot.beginSheetFlow, Bot.beginChatFlow. cbv zeta.
    keeps_with creds_prim.
  - unfold Bot.cmd_team_body. keeps_with creds_prim.
  - unfold Bot.cmd_agent_body. cbv zeta. keeps_with creds_prim.
  - unfold Bot.cmd_summary_body, Bot.summary_pipeline. cbv zeta.
    keeps_with ltac:(first [apply download_keeps_creds | creds_prim]).
  - unfold Bot.cb_linkSheet_yes. keeps_with creds_prim.
  - unfold Bot.cb_linkSheet_no. keeps_with creds_prim.
  - unfold Bot.chat_team_body. cbv zeta. keeps_with creds_prim.
  - unfold Bot.chat_agent_body. cbv zeta. keeps_with creds_prim.
  - unfold Bot.team_body. keeps_with creds_prim.
  - unfold Bot.sheetMode_body. cbv zeta. keeps_with creds_prim.
  - unfold Bot.on_calendar, Bot.on_sheet_date, Bot.on_chat_date. cbv zeta.
    keeps_with ltac:(first [apply startFetchFlow_keeps_creds
                           | apply download_keeps_creds | creds_prim]).
Qed.

End CredsFrames.

(** Across all sixteen handlers the credentials table changes in two ways
    only: /logout removes the chat's row, and the text handler writes the
    chat's row when the session awaits the password and [ensureLoggedIn]
    returned normally for the remembered email and the trimmed text, which
    are then the pair stored.  Nothing else stores, changes or removes a
    credential (the deletion in /start runs only when the chat has no row).
    [ensureLoggedIn] returns normally in two ways, and so the pair stored
    is of two kinds: one the login form accepted, in a POST of exactly that
    pair answered by 302, 303 or a 200 page that does not say the password
    is incorrect; or one that was never sent, because the dashboard probe
    answered 200 on the cookies stored for the chat.  A pair the login form
    refused is not stored. *)
Theorem creds_written_after_login_only `{E : Env} (u : Bot.Update)
    (ctx : Bot.Ctx) (w : World) :
  let c := Bot.chat_id ctx in
  let w' := snd (Bot.handler u ctx w) in
  flyfone_creds (store w') = flyfone_creds (store w)
  \/ (u = Bot.CmdLogout
      /\ flyfone_creds (store w') = delete c (flyfone_creds (store w)))
  \/ (u = Bot.TextMessage
      /\ exists sess,
           session_of w c = Some sess
           /\ is_str (sess !! "step") "await_pass" = true
           /\ fst (Bot.ensureLoggedIn c (display_val (sess !! "email"))
                     (trim (Bot.text ctx)) (snd (State.loadCookies c w)))
              = Ok tt
           /\ (probe_ok (snd (State.loadCookies c w)) = true
               \/ post_accepted (display_val (sess !! "email"))
                    (trim (Bot.text ctx)) (snd (State.loadCookies c w)))
           /\ flyfone_creds (store w')
              = <[c := {| email := display_val (sess !! "email");
                          pass := trim (Bot.text ctx) |}]>
                  (flyfone_creds (store w))).
Proof.
  intros c w'. subst w'.
  assert (u = Bot.CmdLogout \/ u <> Bot.CmdLogout) as [->|Hl]
    by (destruct u; first [left; reflexivity | right; discriminate]).
  { right. left. split; [reflexivity|].
    change (Bot.handler Bot.CmdLogout ctx) with (Bot.cmd_logout ctx).
    unfold Bot.cmd_logout.
    rewrite !call_bound by (vm_compute; reflexivity).
    rewrite call_unbound by exact deleteSheet_not_imported.
    reflexivity. }
  assert (u = Bot.TextMessage \/ u <> Bot.TextMessage) as [->|Ht]
    by (destruct u; first [left; reflexivity | right; discriminate]).
  2:{ left. assert (u = Bot.CmdStart \/ u <> Bot.CmdStart) as [->|Hs]
    by (destruct u; first [left; reflexivity | right; discriminate]).
      - simpl. unfold Bot.cmd_start, bind, State.getFlyfoneCreds. simpl.
        fold c. destruct (flyfone_creds (store w) !! c) eqn:Hc; simpl.
        + reflexivity.
        + apply delete_id, Hc.
      - apply (other_handlers_keep_creds u ctx Hs Hl Ht w). }
  destruct (session_of w c) as [sess|] eqn:Hsess.
  2:{ left. simpl. unfold Bot.on_text, bind, State.getSession. simpl.
      unfold session_of in Hsess. fold c. 
      destruct (sessions (store w) !! c); [discriminate|]. reflexivity. }
  destruct (is_str (sess !! "step") "await_pass") eqn:Hstep.
  - change (Bot.handler Bot.TextMessage ctx w) with (Bot.on_text ctx w).
    rewrite (on_text_await_pass ctx w sess Hsess Hstep). cbv zeta. fold c.
    pose proof (ensureLoggedIn_keeps_creds c (display_val (sess !! "email"))
                  (trim (Bot.text ctx)) (snd (State.loadCookies c w))) as Hc.
    cbv beta in Hc.
    pose proof (ensureLoggedIn_ok_cases c (display_val (sess !! "email"))
                  (trim (Bot.text ctx)) (snd (State.loadCookies c w))) as Hok.
    destruct (Bot.ensureLoggedIn c (display_val (sess !! "email"))
                (trim (Bot.text ctx)) (snd (State.loadCookies c w)))
      as [[[]|err] w1] eqn:He; cbn [fst snd] in *.
    + right. right. split; [reflexivity|]. exists sess.
      split; [reflexivity|]. split; [exact Hstep|].
      split; [now rewrite He|]. split; [exact (Hok eq_refl)|].
      simpl. now rewrite Hc.
    + left. simpl. exact Hc.
  - left. simpl. unfold Bot.on_text, bind, State.getSession. simpl.
    unfold session_of in Hsess. fold c.
    destruct (sessions (store w) !! c) as [s0|]; [|discriminate].
    simpl in Hsess. injection Hsess as Hsess. simpl. rewrite Hsess, Hstep.
    destruct (is_str (sess !! "step") "await_email"); reflexivity.
Qed.

(** ** The buttons offered select rows *)

Section Buttons.

Lemma col_json (r : row) (i : nat) :
  toString_opt (col r i) <> None -> col (map json_cell r) i = col r i.
Proof.
  unfold col. revert i. induction r as [|x r IH]; intros i H.
  - destruct i; simpl in H; congruence.
  - destruct i as [|i]; simpl in *.
    + destruct x; simpl in *; congruence.
    + apply IH, H.
Qed.

Lemma slice1_json (rows : list row) :
  slice1 (json_rows rows) = map (map json_cell) (slice1 rows).
Proof. destruct rows; reflexivity. Qed.

Lemma filter_nonempty {A} (p : A -> bool) (l : list A) (x : A) :
  x ∈ l -> p x = true -> filter (fun y => p y = true) l <> [].
Proof.
  intros Hx Hp Hnil.
  assert (H : x ∈ filter (fun y => p y = true) l)
    by (apply list_elem_of_filter; auto).
  rewrite Hnil in H. inversion H.
Qed.

Lemma uniq_nonempty {A} `{EqDecision A} (l : list A) (x : A) :
  x ∈ l -> uniq l <> [].
Proof.
  intros Hx Hnil.
  assert (H : x ∈ uniq l).
  { unfold uniq. apply uniq_from_elem. split; [exact Hx | apply not_elem_of_nil]. }
  rewrite Hnil in H. inversion H.
Qed.

End Buttons.

(** Sheet mode, from the menu to the export (lines 823-836, 881-897 and
    907-908): every team key offered after a download, once it is the
    selected team, selects at least one data row when the write-mode handler
    filters the rows read back from the session, so a team chosen from the
    menu never gives an empty export.  The key is the lower-cased text of
    column 6, and the row survives the JSON round trip of the session. *)
Theorem sheet_team_button_selects_rows (rows : list row) (key : string) :
  key ∈ uniq (map toLowerCase (Bot.raw_teams rows)) ->
  filter (fun r => Bot.team_is (Some (VStr key)) r = true)
         (slice1 (json_rows rows)) <> [].
Proof.
  unfold uniq. rewrite uniq_from_elem, list_elem_of_fmap.
  intros [(t & -> & Ht) _]. unfold Bot.raw_teams in Ht.
  apply list_elem_of_filter in Ht as [Hne Ht].
  apply list_elem_of_fmap in Ht as (r & -> & Hr).
  destruct (toString_opt (col r 6)) as [t|] eqn:Ht; [|now destruct Hne].
  apply (filter_nonempty _ _ (map json_cell r)).
  - rewrite slice1_json. apply list_elem_of_fmap. eauto.
  - unfold Bot.team_is. rewrite col_json by congruence. rewrite Ht. simpl.
    now apply bool_decide_eq_true.
Qed.

Lemma sheet_team_button_selects_rows_witness :
  filter (fun r => Bot.team_is (Some (VStr "support")) r = true)
         (slice1 (json_rows Demo.demo_rows)) <> [].
Proof.
  apply (sheet_team_button_selects_rows Demo.demo_rows "support").
  apply (bool_decide_unpack _). vm_compute. exact I.
Defined.

(** Chat mode, from the team menu to the statistics (lines 537-561 and
    568-595): a team offered under a non-empty name has at least one agent
    in the rows read back from the session, and every agent then offered
    under a string name, once team and agent are the two groups of the
    callback, selects at least one call, so the statistics of an offered
    agent never report zero calls. *)
Theorem chat_buttons_select_calls (rows : list row) (t : string) :
  t <> "" ->
  CStr t ∈ Bot.team_menu rows ->
  let drows := slice1 (json_rows rows) in
  Bot.agents_of drows (Some (VStr t)) <> []
  /\ forall a, CStr a ∈ Bot.agents_of drows (Some (VStr t)) ->
       filter (fun r => eq_str (col r 6) t && eq_str (col r 5) a = true)
              drows <> [].
Proof.
  intros Hne Ht drows. split.
  - unfold Bot.team_menu, uniq in Ht.
    apply uniq_from_elem in Ht as [Ht _].
    apply list_elem_of_fmap in Ht as (r & Hr6 & Hr).
    assert (H6 : col r 6 = CStr t).
    { unfold or_empty in Hr6. destruct (truthy (col r 6)); congruence. }
    unfold Bot.agents_of.
    apply (uniq_nonempty _ (col (map json_cell r) 5)).
    apply list_elem_of_fmap. exists (map json_cell r). split; [reflexivity|].
    apply list_elem_of_filter. split.
    + rewrite col_json by (rewrite H6; discriminate). rewrite H6. simpl.
      now apply bool_decide_eq_true.
    + subst drows. rewrite slice1_json. apply list_elem_of_fmap. eauto.
  - intros a Ha. unfold Bot.agents_of, uniq in Ha.
    apply uniq_from_elem in Ha as [Ha _].
    apply list_elem_of_fmap in Ha as (r & H5 & Hr).
    apply list_elem_of_filter in Hr as [H6 Hr].
    apply (filter_nonempty (fun r => eq_str (col r 6) t && eq_str (col r 5) a)
             _ r Hr).
    rewrite <- H5. simpl. rewrite bool_decide_eq_true_2 by reflexivity.
    destruct (col r 6); simpl in *; try discriminate.
    rewrite andb_true_r. exact H6.
Qed.

Lemma chat_buttons_select_calls_witness :
  Bot.agents_of (slice1 (json_rows Demo.demo_rows)) (Some (VStr "Sales")) <> [].
Proof.
  apply (chat_buttons_select_calls Demo.demo_rows "Sales").
  - discriminate.
  - apply (bool_decide_unpack _). vm_compute. exact I.
Defined.

(** ** The three figures of the statistics *)

(** The statistics message (lines 573-593 and 676-694) prints the number of
    calls and, of the per-status counts, the three under [ANSWER], [CANCEL]
    and [BUSY] only.  The three are counts, whatever the other statuses
    are, and together with the calls of any other status (after trimming,
    so a missing status counts as [undefined]) they add up to the number of
    calls: the figures never exceed the total, and they fall short of it by
    exactly the calls of another status. *)
Theorem stats_figures_account (filtered : list row) :
  let counts := Bot.countByStatus filtered in
  exists a c b : nat,
    Bot.count_of counts "ANSWER" = Bot.Count a
    /\ Bot.count_of counts "CANCEL" = Bot.Count c
    /\ Bot.count_of counts "BUSY" = Bot.Count b
    /\ (a + c + b
        + length (filter (fun r => Bot.status_key r ∉ ["ANSWER"; "CANCEL"; "BUSY"])
                         filtered))%nat
       = length filtered.
Proof.
  intros counts. subst counts. unfold Bot.countByStatus.
  assert (Hk : forall k, bool_decide (k ∈ Bot.inherited) = false ->
            Bot.count_of (fold_left Bot.count_step filtered ∅) k
            = Bot.Count (length (filter (fun r => Bot.status_key r = k) filtered))).
  { intros k Hk. apply bool_decide_eq_false_1 in Hk.
    rewrite (CountFacts.count_of_fold k filtered Hk ∅ 0 CountFacts.tidy_empty
               (CountFacts.count_of_empty k Hk)).
    reflexivity. }
  eexists _, _, _.
  split; [apply Hk; vm_compute; reflexivity|].
  split; [apply Hk; vm_compute; reflexivity|].
  split; [apply Hk; vm_compute; reflexivity|].
  clear Hk. induction filtered as [|r l IH]; [reflexivity|].
  rewrite !filter_cons.
  destruct (decide (Bot.status_key r = "ANSWER")) as [Ha|Ha];
    destruct (decide (Bot.status_key r = "CANCEL")) as [Hc|Hc];
    destruct (decide (Bot.status_key r = "BUSY")) as [Hb|Hb];
    try congruence;
    destruct (decide (Bot.status_key r ∉ ["ANSWER"; "CANCEL"; "BUSY"]))
      as [Hn|Hn]; simpl; try lia.
  - exfalso. apply Hn. rewrite Ha. repeat constructor.
  - exfalso. apply Hn. rewrite Hc. repeat constructor.
  - exfalso. apply Hn. rewrite Hb. repeat constructor.
  - exfalso. apply Hn. intros H.
    repeat (apply elem_of_cons in H as [H|H]; [congruence|]).
    inversion H.
Qed.
